(** * fork_analysis.py: the fork analysis script of 1code

    A shallow embedding of [src/fork_analysis.py] and the properties of
    its four parts: the API client [fetch_github_api], the fork analyzer
    [analyze_fork], the report generator [generate_report] and the
    driver [main].

    Conventions of the embedding.
    - A Python [str] is a [string] that holds the UTF-8 bytes of its
      text.  A character is a byte that is no continuation byte, with the
      continuation bytes that follow it; slicing, iteration and [len] go
      by characters ([Str.take], [Str.chars], [Str.len]).  Text that has
      no UTF-8 form (a lone surrogate) is left out.
    - A Python [int] is a [Z]; JSON numbers are the API's integer counts.
    - A Python [dict] keeps insertion order: it is an association list,
      read by first match and written in place.
    - A raised exception is a value of [exn]; code that can raise returns
      an [outcome].
    - Console output, sleeping, HTTP requests and the written file are
      events appended to a trace.  The console takes every line and
      sleeping does not fail; a request and the writing of the file can
      fail, as the environment decides. *)

From Stdlib Require Import List String Ascii ZArith Lia Bool Arith.
From Stdlib Require Import DecimalString Decimal Permutation Sorted.
Import ListNotations.
Open Scope string_scope.
Open Scope list_scope.

Set Warnings "-register-all".

(** String concatenation, [+] on [str] in the source. *)
Infix "^^" := String.append (at level 60, right associativity).

(** ** Strings *)

Module Str.

(** The line feed, ["\n"] in the source. *)
Definition nl : string := String (ascii_of_nat 10) "".

Definition of_nat (n : nat) : string := NilZero.string_of_uint (Nat.to_uint n).
Definition of_Z (z : Z) : string := NilZero.string_of_int (Z.to_int z).

(** [sep.join(l)] *)
Definition join (sep : string) (l : list string) : string := String.concat sep l.

(** A continuation byte of UTF-8, [10xxxxxx]: it goes on with the
    character that the byte before it began. *)
Definition is_continuation (c : ascii) : bool :=
  let n := nat_of_ascii c in ((128 <=? n)%nat && (n <? 192)%nat)%bool.

(** [len(s)]: the number of characters. *)
Fixpoint len (s : string) : nat :=
  match s with
  | "" => 0
  | String c s' => if is_continuation c then len s' else S (len s')
  end.

(** [for c in s]: the characters of [s], each with its bytes. *)
Fixpoint chars (s : string) : list string :=
  match s with
  | "" => []
  | String c s' =>
      let rest := chars s' in
      match s' with
      | String c' _ =>
          if is_continuation c' then
            match rest with
            | h :: t => String c h :: t
            | [] => [String c ""]
            end
          else String c "" :: rest
      | "" => String c "" :: rest
      end
  end.

Definition lower_char (c : ascii) : ascii :=
  let n := nat_of_ascii c in
  if ((65 <=? n)%nat && (n <=? 90)%nat)%bool then ascii_of_nat (n + 32) else c.

(** [s.lower()] on the letters A to Z.  Python lowers the letters
    outside ASCII as well; none of them becomes a letter of "merge",
    "upstream" or "sync", which is all that the script looks for in a
    lowered text. *)
Fixpoint lower (s : string) : string :=
  match s with
  | "" => ""
  | String c s' => String (lower_char c) (lower s')
  end.

(** [k in s]: [k] occurs in [s] as a contiguous substring. *)
Fixpoint contains (k s : string) : bool :=
  if String.prefix k s then true
  else match s with
       | "" => false
       | String _ s' => contains k s'
       end.

(** [s[:n]]: the first [n] characters, each with its continuation
    bytes. *)
Fixpoint take (n : nat) (s : string) : string :=
  match s with
  | "" => ""
  | String c s' =>
      if is_continuation c then String c (take n s')
      else match n with
           | 0 => ""
           | S n' => String c (take n' s')
           end
  end.

(** [s.split('\n')[0]]: the text before the first line feed. *)
Fixpoint first_line (s : string) : string :=
  match s with
  | "" => ""
  | String c s' => if Ascii.eqb c (ascii_of_nat 10) then "" else String c (first_line s')
  end.

Definition has_char (c : ascii) (s : string) : bool :=
  existsb (Ascii.eqb c) (list_ascii_of_string s).

End Str.

(** ** Python values *)

Inductive pyval : Type :=
| PNone
| PBool (b : bool)
| PInt (n : Z)
| PStr (s : string)
| PList (l : list pyval)
| PDict (d : list (string * pyval)).

(** A dict whose keys are strings, as every dict of the script is. *)
Definition pydict : Type := list (string * pyval).

(** The per-fork record of the script is such a dict. *)
Definition record : Type := pydict.

Inductive exn : Type :=
| KeyError (key : string)
(** [what] tells the kinds of [TypeError] apart: "order" for a [<], [>]
    or [>=] between a value that is no number and a number, "[]" for
    a subscript, "iter" for a loop, "join" for [str.join]. *)
| TypeError (what : string)
| AttributeError (attr : string)
| HTTPError (status : Z) (body : string)
| ConnectionError (msg : string)
| JSONDecodeError
(** [open] or [write] failed: the path cannot be opened, the disk is
    full, the text cannot be encoded. *)
| OSError (msg : string)
(** Not an exception of Python: the outcome of following a reference that
    dangles or that holds the wrong kind of object.  No store that the
    script builds has one. *)
| StoreFault.

Inductive outcome (A : Type) : Type :=
| Ok (a : A)
| Raise (e : exn).

Arguments Ok {A} a.
Arguments Raise {A} e.

Definition rbind {A B} (m : outcome A) (f : A -> outcome B) : outcome B :=
  match m with
  | Ok a => f a
  | Raise e => Raise e
  end.

Definition rmap {A B} (f : A -> B) (m : outcome A) : outcome B :=
  rbind m (fun a => Ok (f a)).

Declare Scope outcome_scope.
Delimit Scope outcome_scope with res.
Notation "x <- m ;; k" := (rbind m (fun x => k))
  (at level 61, m at next level, right associativity) : outcome_scope.

Fixpoint rmapM {A B} (f : A -> outcome B) (l : list A) : outcome (list B) :=
  match l with
  | [] => Ok []
  | x :: l' => (y <- f x ;; ys <- rmapM f l' ;; Ok (y :: ys))%res
  end.

Module Py.

(** *** Dicts *)

Fixpoint dict_get (k : string) (d : pydict) : option pyval :=
  match d with
  | [] => None
  | (k', v) :: d' => if String.eqb k k' then Some v else dict_get k d'
  end.

(** [d[k] = v] *)
Fixpoint dict_set (k : string) (v : pyval) (d : pydict) : pydict :=
  match d with
  | [] => [(k, v)]
  | (k', v') :: d' =>
      if String.eqb k k' then (k', v) :: d' else (k', v') :: dict_set k v d'
  end.

(** [d.get(k, dflt)] *)
Definition get (d : pydict) (k : string) (dflt : pyval) : pyval :=
  match dict_get k d with
  | Some v => v
  | None => dflt
  end.

(** [d[k]] *)
Definition item (d : pydict) (k : string) : outcome pyval :=
  match dict_get k d with
  | Some v => Ok v
  | None => Raise (KeyError k)
  end.

(** *** Truth value, numbers, comparison with a number *)

Definition truthy (v : pyval) : bool :=
  match v with
  | PNone => false
  | PBool b => b
  | PInt n => negb (n =? 0)%Z
  | PStr s => negb (String.eqb s "")
  | PList l => match l with [] => false | _ => true end
  | PDict d => match d with [] => false | _ => true end
  end.

(** The number a value is, if it is one ([True] is 1, [False] is 0). *)
Definition num (v : pyval) : option Z :=
  match v with
  | PInt n => Some n
  | PBool b => Some (if b then 1 else 0)%Z
  | _ => None
  end.

(** [v > n] *)
Definition gt (v : pyval) (n : Z) : outcome bool :=
  match num v with
  | Some x => Ok (n <? x)%Z
  | None => Raise (TypeError "order")
  end.

(** [v >= n] *)
Definition ge (v : pyval) (n : Z) : outcome bool :=
  match num v with
  | Some x => Ok (n <=? x)%Z
  | None => Raise (TypeError "order")
  end.

(** *** [str] and [repr] *)

Definition hex_digit (n : nat) : ascii :=
  nth n (list_ascii_of_string "0123456789abcdef") "0"%char.

(** One character of a [repr].  The bytes of a character outside ASCII
    are shown as they are, which is what Python does for the characters
    it can print. *)
Definition repr_char (quote c : ascii) : string :=
  let n := nat_of_ascii c in
  if Ascii.eqb c "\"%char then "\\"
  else if Ascii.eqb c quote then String "\"%char (String quote "")
  else if (n =? 9)%nat then "\t"
  else if (n =? 10)%nat then "\n"
  else if (n =? 13)%nat then "\r"
  else if ((n <? 32)%nat || (n =? 127)%nat)%bool
       then String "\"%char (String "x"%char
              (String (hex_digit (n / 16)) (String (hex_digit (n mod 16)) "")))
  else String c "".

Definition repr_str (s : string) : string :=
  let single := "'"%char in
  let double := ascii_of_nat 34 in
  let quote :=
    if Str.has_char single s && negb (Str.has_char double s) then double else single in
  String quote
    (String.concat "" (map (repr_char quote) (list_ascii_of_string s))
     ^^ String quote "").

Fixpoint repr (v : pyval) : string :=
  match v with
  | PNone => "None"
  | PBool b => if b then "True" else "False"
  | PInt n => Str.of_Z n
  | PStr s => repr_str s
  | PList l => "[" ^^ Str.join ", " (map repr l) ^^ "]"
  | PDict d =>
      "{" ^^ Str.join ", " (map (fun kv => repr_str (fst kv) ^^ ": " ^^ repr (snd kv)) d)
          ^^ "}"
  end.

(** [str(v)], which is also what an f-string field [{v}] shows. *)
Definition str (v : pyval) : string :=
  match v with
  | PStr s => s
  | _ => repr v
  end.

(** *** Operations on values of unknown type (parsed JSON) *)

(** [v.get(k, dflt)] *)
Definition get_of (v : pyval) (k : string) (dflt : pyval) : outcome pyval :=
  match v with
  | PDict d => Ok (get d k dflt)
  | _ => Raise (AttributeError "get")
  end.

(** [v[k]] with a string [k] *)
Definition item_of (v : pyval) (k : string) : outcome pyval :=
  match v with
  | PDict d => item d k
  | _ => Raise (TypeError "[]")
  end.

(** [for x in v] *)
Definition iter (v : pyval) : outcome (list pyval) :=
  match v with
  | PList l => Ok l
  | PStr s => Ok (map PStr (Str.chars s))
  | PDict d => Ok (map (fun kv => PStr (fst kv)) d)
  | _ => Raise (TypeError "iter")
  end.

(** [v.split('\n')[0]] *)
Definition first_line_of (v : pyval) : outcome string :=
  match v with
  | PStr s => Ok (Str.first_line s)
  | _ => Raise (AttributeError "split")
  end.

(** [v.lower()] *)
Definition lower_of (v : pyval) : outcome string :=
  match v with
  | PStr s => Ok (Str.lower s)
  | _ => Raise (AttributeError "lower")
  end.

(** [sep.join(v)] *)
Definition join_of (sep : string) (v : pyval) : outcome string :=
  (xs <- iter v ;;
   ss <- rmapM (fun x => match x with
                         | PStr s => Ok s
                         | _ => Raise (TypeError "join")
                         end) xs ;;
   Ok (Str.join sep ss))%res.

End Py.

(** ** The outside world and the state of a run *)

Record response : Type := {
  status_code : Z;
  text : string;
  (** what [response.json()] returns; [None] when the body is not JSON
      and [response.json()] raises *)
  json : option pyval
}.

(** What [requests.get] does: it returns a response or raises. *)
Inductive reply : Type :=
| Resp (r : response)
| NetFail (msg : string).

Inductive event : Type :=
| EGet (url : string) (headers : list (string * string))
| EPrint (out : string)
| ESleep (milliseconds : Z)
(** the file at [path] has been opened for writing and holds [content] *)
| EWrite (path content : string).

(** Objects of the store that the driver and the report generator share:
    the per-fork dicts and the lists that hold references to them. *)
Inductive obj : Type :=
| ODict (d : record)
| OList (refs : list nat).

(** What [with open(path, 'w') as f: f.write(content)] comes to: the
    file holds the content; or [open] raises and the file is as it was;
    or the file is opened, and so emptied, and [write] or the closing
    raises with only [kept] in the file. *)
Inductive saving : Type :=
| Saved
| NotOpened (e : exn)
| Cut (kept : string) (e : exn).

(** What a run does not decide: the server's answer to the [n]-th request
    of the run, the reading of the clock formatted as
    [%Y-%m-%d %H:%M:%S], the text [str(e)] of an exception, and what
    becomes of the writing of a file. *)
Record env : Type := {
  requests_get : nat -> string -> reply;
  now : string;
  str_exn : exn -> string;
  save : string -> string -> saving
}.

Record world : Type := {
  heap : list obj;
  reqs : nat;
  trace : list event
}.

Definition M (A : Type) : Type := world -> outcome A * world.

Definition ret {A} (a : A) : M A := fun w => (Ok a, w).

Definition raise {A} (e : exn) : M A := fun w => (Raise e, w).

Definition bind {A B} (m : M A) (f : A -> M B) : M B :=
  fun w => match m w with
           | (Ok a, w') => f a w'
           | (Raise e, w') => (Raise e, w')
           end.

(** [try: m  except Exception as e: h e]; what [m] did before it raised
    stays done. *)
Definition try_ {A} (m : M A) (h : exn -> M A) : M A :=
  fun w => match m w with
           | (Ok a, w') => (Ok a, w')
           | (Raise e, w') => h e w'
           end.

Definition lift {A} (r : outcome A) : M A := fun w => (r, w).

Declare Scope prog_scope.
Delimit Scope prog_scope with prog.
Notation "x <- m ;; k" := (bind m (fun x => k))
  (at level 61, m at next level, right associativity) : prog_scope.
Notation "m ;; k" := (bind m (fun _ => k))
  (at level 61, right associativity) : prog_scope.

Definition emit (e : event) : M unit :=
  fun w => (Ok tt, {| heap := heap w; reqs := reqs w; trace := trace w ++ [e] |}).

(** [print(s)] *)
Definition print (s : string) : M unit := emit (EPrint (s ^^ Str.nl)).

(** [print(s, end='', flush=True)] *)
Definition print_noend (s : string) : M unit := emit (EPrint s).

(** [time.sleep], the duration in milliseconds *)
Definition sleep (ms : Z) : M unit := emit (ESleep ms).

(** ** The API client *)

Definition headers : list (string * string) :=
  [("User-Agent", "1code-Fork-Analysis-Script");
   ("Accept", "application/vnd.github.v3+json")].

(** [requests.get(url, headers=headers)] *)
Definition get (E : env) (url : string) : M response :=
  fun w =>
    let w' := {| heap := heap w; reqs := S (reqs w);
                 trace := trace w ++ [EGet url headers] |} in
    match requests_get E (reqs w) url with
    | Resp r => (Ok r, w')
    | NetFail msg => (Raise (ConnectionError msg), w')
    end.

(** [response.raise_for_status()]: statuses 400 to 599 raise. *)
Definition raise_for_status (r : response) : M unit :=
  if ((400 <=? status_code r) && (status_code r <? 600))%Z
  then raise (HTTPError (status_code r) (text r))
  else ret tt.

(** [response.json()] *)
Definition response_json (r : response) : M pyval :=
  match json r with
  | Some v => ret v
  | None => raise JSONDecodeError
  end.

Definition fetch_github_api (E : env) (url : string) : M pyval :=
  (response <- get E url ;;
   response <- (if (status_code response =? 403)%Z
                then print "Rate limited! Waiting 60 seconds..." ;;
                     sleep 60000 ;;
                     get E url
                else ret response) ;;
   raise_for_status response ;;
   response_json response)%prog.

(** ** The fork analyzer *)

Definition repo_url (owner : string) : string :=
  "https://api.github.com/repos/" ^^ owner ^^ "/1code".
Definition branches_url (owner : string) : string :=
  "https://api.github.com/repos/" ^^ owner ^^ "/1code/branches?per_page=100".
Definition commits_url (owner : string) : string :=
  "https://api.github.com/repos/" ^^ owner ^^ "/1code/commits?per_page=10".
Definition compare_url (owner : string) : string :=
  "https://api.github.com/repos/" ^^ owner ^^ "/1code/compare/21st-dev:main..."
    ^^ owner ^^ ":main".

(** [v not in ['main', 'master']] *)
Definition not_default_branch (v : pyval) : bool :=
  match v with
  | PStr s => negb (String.eqb s "main" || String.eqb s "master")
  | _ => true
  end.

(** [[b['name'] for b in branches_data if b['name'] not in ['main', 'master']]] *)
Fixpoint custom_branches_of (bs : list pyval) : outcome (list pyval) :=
  match bs with
  | [] => Ok []
  | b :: bs' =>
      (name <- Py.item_of b "name" ;;
       if not_default_branch name
       then (name <- Py.item_of b "name" ;;
             rest <- custom_branches_of bs' ;;
             Ok (name :: rest))
       else custom_branches_of bs')%res
  end.

(** [commit['commit']['message'].split('\n')[0]] *)
Definition commit_first_line (commit : pyval) : outcome pyval :=
  (c <- Py.item_of commit "commit" ;;
   m <- Py.item_of c "message" ;;
   s <- Py.first_line_of m ;;
   Ok (PStr s))%res.

(** Lines 77 to 87: the branches. *)
Definition branches_step (E : env) (owner : string) (result : record) : M record :=
  try_
    (branches_data <- fetch_github_api E (branches_url owner) ;;
     bs <- lift (Py.iter branches_data) ;;
     custom_branches <- lift (custom_branches_of bs) ;;
     let result := Py.dict_set "custom_branches" (PList custom_branches) result in
     let result :=
       Py.dict_set "branch_count" (PInt (Z.of_nat (List.length custom_branches))) result in
     ret result)%prog
    (fun e => print ("Error fetching branches: " ^^ str_exn E e) ;; ret result)%prog.

(** Lines 89 to 97: the recent commits. *)
Definition commits_step (E : env) (owner : string) (result : record) : M record :=
  try_
    (commits_data <- fetch_github_api E (commits_url owner) ;;
     cs <- lift (Py.iter commits_data) ;;
     recent <- lift (rmapM commit_first_line cs) ;;
     ret (Py.dict_set "recent_commits" (PList recent) result))%prog
    (fun e => print ("Error fetching commits: " ^^ str_exn E e) ;; ret result)%prog.

(** Lines 99 to 108: the comparison with upstream.  The dict is written
    in place, so a failure after the first assignment would keep it. *)
Definition compare_step (E : env) (owner : string) (result : record) : M record :=
  try_
    (comparison_data <- fetch_github_api E (compare_url owner) ;;
     ahead <- lift (Py.get_of comparison_data "ahead_by" (PInt 0)) ;;
     let result := Py.dict_set "ahead_by" ahead result in
     try_
       (behind <- lift (Py.get_of comparison_data "behind_by" (PInt 0)) ;;
        ret (Py.dict_set "behind_by" behind result))
       (fun e => ret result))%prog
    (fun e => ret result).

(** Lines 111 to 115: [a > 0 or b > 0 or c > 0], left to right, stopping
    at the first that holds. *)
Definition interesting_of (result : record) : outcome bool :=
  (bc <- Py.item result "branch_count" ;;
   b1 <- Py.gt bc 0 ;;
   if b1 then Ok true else
   ab <- Py.item result "ahead_by" ;;
   b2 <- Py.gt ab 0 ;;
   if b2 then Ok true else
   st <- Py.item result "stars" ;;
   Py.gt st 0)%res.

(** The record of line 61. *)
Definition new_record (owner : string) (stars description created_at updated_at : pyval)
  : record :=
  [("owner", PStr owner);
   ("url", PStr ("https://github.com/" ^^ owner ^^ "/1code"));
   ("stars", stars);
   ("description", description);
   ("created_at", created_at);
   ("updated_at", updated_at);
   ("custom_branches", PList []);
   ("branch_count", PInt 0);
   ("ahead_by", PInt 0);
   ("behind_by", PInt 0);
   ("recent_commits", PList []);
   ("interesting", PBool false);
   ("error", PNone)].

(** The record of line 123. *)
Definition error_record (owner : string) (message : string) : record :=
  [("owner", PStr owner);
   ("error", PStr message);
   ("interesting", PBool false)].

(** Lines 59 to 75. *)
Definition repo_step (E : env) (owner : string) : M record :=
  (repo_data <- fetch_github_api E (repo_url owner) ;;
   stars <- lift (Py.get_of repo_data "stargazers_count" (PInt 0)) ;;
   description <- lift (Py.get_of repo_data "description" (PStr "")) ;;
   created_at <- lift (Py.get_of repo_data "created_at" (PStr "")) ;;
   updated_at <- lift (Py.get_of repo_data "updated_at" (PStr "")) ;;
   ret (new_record owner stars description created_at updated_at))%prog.

(** Lines 110 to 119. *)
Definition finish_step (result : record) : M record :=
  (interesting <- lift (interesting_of result) ;;
   let result := Py.dict_set "interesting" (PBool interesting) result in
   print " ✓" ;;
   sleep 500 ;;
   ret result)%prog.

Definition analyze_fork (E : env) (owner : string) : M record :=
  try_
    (print_noend ("Analyzing " ^^ owner ^^ "...") ;;
     result <- repo_step E owner ;;
     result <- branches_step E owner result ;;
     result <- commits_step E owner result ;;
     result <- compare_step E owner result ;;
     finish_step result)%prog
    (fun e =>
       print (" ✗ (" ^^ str_exn E e ^^ ")") ;;
       ret (error_record owner (str_exn E e)))%prog.

(** ** The report generator *)

(** *** [list.sort(key=..., reverse=True)]

    Python's sort is stable, and stays so under [reverse=True]: elements
    whose keys are equal keep their original order.  A stable sort has one
    result whatever the algorithm; it is written here as an insertion
    sort. *)

Definition sort_key_t : Type := (Z * Z * Z)%type.

(** Tuples compare lexicographically. *)
Definition key_lt (a b : sort_key_t) : bool :=
  let '(a1, a2, a3) := a in
  let '(b1, b2, b3) := b in
  ((a1 <? b1) || ((a1 =? b1) && ((a2 <? b2) || ((a2 =? b2) && (a3 <? b3)))))%Z.

Section Sort.
Context {A : Type} (key : A -> sort_key_t).

(** [x] stood before every element of [l]: it goes before the first
    element whose key is not greater than its own. *)
Fixpoint insert_desc (x : A) (l : list A) : list A :=
  match l with
  | [] => [x]
  | y :: l' => if key_lt (key x) (key y) then y :: insert_desc x l' else x :: l
  end.

Fixpoint sort_desc (l : list A) : list A :=
  match l with
  | [] => []
  | x :: l' => insert_desc x (sort_desc l')
  end.
End Sort.

(** [r.get('interesting', False)] as a condition *)
Definition is_interesting (r : record) : bool :=
  Py.truthy (Py.get r "interesting" (PBool false)).

(** One component of the key, [x.get(field, 0)].  A value that is not
    a number ends lines 138 to 145 in a [TypeError] of the kind "order":
    the summary right after the sort compares each of the three fields
    of every interesting record with [0], and raises if the sort has not
    raised before it.  Whether it is the sort's [<] or the summary's [>]
    that meets the value first depends on the pairs that the sort
    compares, and the kind "order" does not tell the two apart; nothing
    happens between the two that a run could show.  The model raises
    here. *)
Definition key_field (x : record) (field : string) : outcome Z :=
  match Py.num (Py.get x field (PInt 0)) with
  | Some n => Ok n
  | None => Raise (TypeError "order")
  end.

(** [(x.get('stars', 0), x.get('ahead_by', 0), x.get('branch_count', 0))] *)
Definition sort_key (x : record) : outcome sort_key_t :=
  (s <- key_field x "stars" ;;
   a <- key_field x "ahead_by" ;;
   b <- key_field x "branch_count" ;;
   Ok (s, a, b))%res.

(** Lines 137 and 138 on a list of values: sorting [l] by the keys [ks]. *)
Definition sort_with_keys {A} (ks : list sort_key_t) (l : list A) : list A :=
  map snd (sort_desc fst (combine ks l)).

(** The list [interesting] after line 138. *)
Definition interesting_forks (results : list record) : outcome (list record) :=
  let interesting := filter is_interesting results in
  (ks <- rmapM sort_key interesting ;;
   Ok (sort_with_keys ks interesting))%res.

(** [sum(1 for r in interesting if r.get(field, 0) > 0)] *)
Fixpoint count_positive (field : string) (l : list record) : outcome nat :=
  match l with
  | [] => Ok 0
  | r :: l' =>
      (b <- Py.gt (Py.get r field (PInt 0)) 0 ;;
       n <- count_positive field l' ;;
       Ok (if b then S n else n))%res
  end.

(** Lines 140 to 146. *)
Definition summary_lines (total : nat) (interesting : list record)
  : outcome (list string) :=
  (branches <- count_positive "branch_count" interesting ;;
   ahead <- count_positive "ahead_by" interesting ;;
   stars <- count_positive "stars" interesting ;;
   Ok ["## Summary";
       "- Total forks analyzed: " ^^ Str.of_nat total;
       "- Interesting forks: " ^^ Str.of_nat (List.length interesting);
       "- Forks with custom branches: " ^^ Str.of_nat branches;
       "- Forks ahead of upstream: " ^^ Str.of_nat ahead;
       "- Forked repos with stars: " ^^ Str.of_nat stars;
       ""])%res.

Definition keywords : list string := ["merge"; "upstream"; "sync"].

(** [any(keyword in c.lower() for keyword in ['merge', 'upstream', 'sync'])] *)
Definition mentions_keyword (lowered : string) : bool :=
  existsb (fun keyword => Str.contains keyword lowered) keywords.

(** Lines 171 to 174: the commits that pass the filter; each one has
    answered [lower()], so it is a [str]. *)
Fixpoint unique_commits_of (cs : list pyval) : outcome (list string) :=
  match cs with
  | [] => Ok []
  | c :: cs' =>
      (lowered <- Py.lower_of c ;;
       rest <- unique_commits_of cs' ;;
       Ok (if mentions_keyword lowered then rest else Py.str c :: rest))%res
  end.

(** Lines 169 to 178. *)
Definition commit_lines (fork : record) : outcome (list string) :=
  if Py.truthy (Py.get fork "recent_commits" PNone) then
    (recent <- Py.item fork "recent_commits" ;;
     cs <- Py.iter recent ;;
     unique_commits <- unique_commits_of cs ;;
     match unique_commits with
     | [] => Ok []
     | _ => Ok ("**Recent Unique Commits:**"
                  :: map (fun commit => "  - " ^^ Str.take 80 commit)
                         (firstn 3 unique_commits))
     end)%res
  else Ok [].

(** A line that is shown when [fork.get(field, 0) > 0]. *)
Definition when_positive (fork : record) (field : string)
  (line : outcome string) : outcome (list string) :=
  (b <- Py.gt (Py.get fork field (PInt 0)) 0 ;;
   if b then (l <- line ;; Ok [l]) else Ok [])%res.

(** Lines 181 to 185. *)
Definition worth_investigating (fork : record) : outcome bool :=
  (s <- Py.ge (Py.get fork "stars" (PInt 0)) 5 ;;
   if s then Ok true else
   a <- Py.ge (Py.get fork "ahead_by" (PInt 0)) 5 ;;
   if a then Ok true else
   Py.ge (Py.get fork "branch_count" (PInt 0)) 2)%res.

(** Lines 153 to 189: the entry of one fork in the detail block. *)
Definition detail_entry (i : nat) (fork : record) : outcome (list string) :=
  (owner <- Py.item fork "owner" ;;
   url <- Py.item fork "url" ;;
   description <-
     (if Py.truthy (Py.get fork "description" PNone)
      then d <- Py.item fork "description" ;; Ok ["**Description:** " ^^ Py.str d]
      else Ok []) ;;
   branches <-
     when_positive fork "branch_count"
       (cb <- Py.item fork "custom_branches" ;;
        joined <- Py.join_of ", " cb ;;
        Ok ("**Custom Branches:** " ^^ joined)) ;;
   ahead <-
     when_positive fork "ahead_by"
       (a <- Py.item fork "ahead_by" ;;
        Ok ("**Ahead of upstream:** " ^^ Py.str a ^^ " commits")) ;;
   behind <-
     when_positive fork "behind_by"
       (b <- Py.item fork "behind_by" ;;
        Ok ("**Behind upstream:** " ^^ Py.str b ^^ " commits")) ;;
   commits <- commit_lines fork ;;
   worth <- worth_investigating fork ;;
   Ok (["### " ^^ Str.of_nat i ^^ ". " ^^ Py.str owner;
        "**URL:** " ^^ Py.str url;
        "**Stars:** " ^^ Py.str (Py.get fork "stars" (PInt 0))]
       ++ description ++ branches ++ ahead ++ behind ++ commits
       ++ (if worth then ["**⚠️ WORTH INVESTIGATING**"] else [])
       ++ [""]))%res.

(** [for i, fork in enumerate(l, i)], the lines of all entries in order *)
Fixpoint each_numbered (entry : nat -> record -> outcome (list string))
  (i : nat) (l : list record) : outcome (list string) :=
  match l with
  | [] => Ok []
  | fork :: l' =>
      (ls <- entry i fork ;;
       rest <- each_numbered entry (S i) l' ;;
       Ok (ls ++ rest))%res
  end.

(** Lines 148 to 189. *)
Definition detail_lines (interesting : list record) : outcome (list string) :=
  match interesting with
  | [] => Ok []
  | _ =>
      (entries <- each_numbered detail_entry 1 (firstn 20 interesting) ;;
       Ok ("## Most Interesting Forks" :: "" :: entries))%res
  end.

(** Lines 199 to 209: the entry of one fork in the recommendations. *)
Definition recommendation_entry (i : nat) (fork : record) : outcome (list string) :=
  (stars <-
     when_positive fork "stars"
       (s <- Py.item fork "stars" ;; Ok (Py.str s ^^ " stars")) ;;
   ahead <-
     when_positive fork "ahead_by"
       (a <- Py.item fork "ahead_by" ;; Ok (Py.str a ^^ " commits ahead")) ;;
   branches <-
     when_positive fork "branch_count"
       (b <- Py.item fork "branch_count" ;; Ok (Py.str b ^^ " custom branches")) ;;
   let reasons := stars ++ ahead ++ branches in
   let reason_str :=
     match reasons with
     | [] => "Active fork"
     | _ => Str.join ", " reasons
     end in
   owner <- Py.item fork "owner" ;;
   url <- Py.item fork "url" ;;
   Ok [Str.of_nat i ^^ ". **" ^^ Py.str owner ^^ "** - " ^^ reason_str;
       "   " ^^ Py.str url])%res.

(** [top_forks = interesting[:5]] *)
Definition top_forks (interesting : list record) : list record :=
  firstn 5 interesting.

(** Lines 191 to 209. *)
Definition recommendation_lines (interesting : list record) : outcome (list string) :=
  match top_forks interesting with
  | [] => Ok ["## Recommendations"; ""]
  | top =>
      (entries <- each_numbered recommendation_entry 1 top ;;
       Ok ("## Recommendations" :: "" :: "### Top 5 Forks to Review:" :: entries))%res
  end.

(** Everything after line 138, given the clock reading, [len(results)]
    and the sorted list [interesting]: the list [report] at line 211. *)
Definition render (clock : string) (total : nat) (interesting : list record)
  : outcome (list string) :=
  (summary <- summary_lines total interesting ;;
   detail <- detail_lines interesting ;;
   recommendations <- recommendation_lines interesting ;;
   Ok (["# 1code Fork Analysis Report";
        "Generated: " ^^ clock;
        ""]
       ++ summary ++ detail ++ recommendations))%res.

(** The list [report] at line 211, for the argument as a list of dicts. *)
Definition report_lines (clock : string) (results : list record)
  : outcome (list string) :=
  (interesting <- interesting_forks results ;;
   render clock (List.length results) interesting)%res.

(** [generate_report] on values: the text returned for the records
    [results] when the clock reads [clock]. *)
Definition generate_report (clock : string) (results : list record) : outcome string :=
  rmap (Str.join Str.nl) (report_lines clock results).

(** ** The store: references to lists and dicts *)

(** A new object; its reference is the next free one. *)
Definition alloc (o : obj) : M nat :=
  fun w => (Ok (List.length (heap w)),
            {| heap := heap w ++ [o]; reqs := reqs w; trace := trace w |}).

Fixpoint set_nth {A} (n : nat) (x : A) (l : list A) : list A :=
  match n, l with
  | 0, _ :: l' => x :: l'
  | S n', y :: l' => y :: set_nth n' x l'
  | _, [] => []
  end.

(** The object at [l] is replaced: a list is sorted or appended to in place. *)
Definition store (l : nat) (o : obj) : M unit :=
  fun w => (Ok tt, {| heap := set_nth l o (heap w); reqs := reqs w; trace := trace w |}).

Definition load_list (l : nat) : M (list nat) :=
  fun w => match nth_error (heap w) l with
           | Some (OList refs) => (Ok refs, w)
           | _ => (Raise StoreFault, w)
           end.

Definition load_dict (l : nat) : M record :=
  fun w => match nth_error (heap w) l with
           | Some (ODict d) => (Ok d, w)
           | _ => (Raise StoreFault, w)
           end.

Fixpoint mapM {A B} (f : A -> M B) (l : list A) : M (list B) :=
  match l with
  | [] => ret []
  | x :: l' => (y <- f x ;; ys <- mapM f l' ;; ret (y :: ys))%prog
  end.

(** [[r for r in results if r.get('interesting', False)]]: the references
    of [refs] whose dict passes, in order. *)
Definition interesting_refs (refs : list nat) (records : list record) : list nat :=
  map fst (filter (fun p => is_interesting (snd p)) (combine refs records)).

(** [generate_report] on the store: [results] is a reference to the list
    of references to the records.  The list [report] never leaves the
    call and is carried as a value. *)
Definition generate_report_st (E : env) (results : nat) : M string :=
  (refs <- load_list results ;;
   records <- mapM load_dict refs ;;
   (* line 137: a new list *)
   interesting <- alloc (OList (interesting_refs refs records)) ;;
   (* line 138: sorted in place *)
   irefs <- load_list interesting ;;
   irecords <- mapM load_dict irefs ;;
   ks <- lift (rmapM sort_key irecords) ;;
   store interesting (OList (sort_with_keys ks irefs)) ;;
   (* lines 140 to 211 read the sorted list *)
   irefs <- load_list interesting ;;
   forks <- mapM load_dict irefs ;;
   report <- lift (render (now E) (List.length refs) forks) ;;
   ret (Str.join Str.nl report))%prog.

(** ** The driver *)

Definition FORK_OWNERS : list string :=
  ["MorpheusEMH"; "pichimail"; "amal-irgashev"; "adilsarfraz02"; "CCwithAi";
   "xjayk"; "sdamarketing"; "dodabuilt"; "threatseeker"; "maxcp-dd";
   "tahoery"; "BruceICzw"; "zxx2112"; "Simpl3Jack"; "Illgot";
   "ahao0150"; "ktisakib"; "uvtechnologyins"; "148K"; "jagannathsunani66-svg";
   "omarfattah44"; "keysemails"; "ramarivera"; "Connorbelez"; "badibadey";
   "nainishshafi"; "ak56434189-sketch"; "azpublic"; "yarstann"; "yeasin2002";
   "xxw-xp"; "okisdev"; "fixcode-h"; "aiob3"; "a3my";
   "TbusOS"; "narvinIR"; "aakash4dev"; "0x-m1cro"; "zhenbah";
   "nilskroe"; "anhdd-kuro"; "appdirectory"; "Godzizizilla"; "mariomile";
   "berkipekoglu"; "hvnvibz"; "mows333"; "rawhit-r"; "tylergraydev";
   "w159"; "royashoya"; "premanand8800"; "maxthraxx"; "GoraAI";
   "JoziGila"; "sandriaas"; "crazyboyonline"; "felix-zoe"; "reham00025";
   "078sky"; "heshangcode"; "okgoodok123"; "ChrisPei"; "CodeHourra";
   "kazhuyo"; "cleardry"; "prathamdby"; "CorentinLumineau"; "krmao";
   "ronkaldes"; "pete1313"; "wushanru"; "Abouzeid"; "MaTriXy";
   "AbdullahTerro"; "phoxiao"; "ca-x"; "Wikiup"; "mibotech-ai";
   "hongshancapital"; "TheMorganAlistair"; "seanly"; "mjbin888"; "Stoplossking1";
   "ahmedaarab103"; "Ahmedalsadi-1"; "codemeasandwich"; "ishimwekevinfounder"; "Frank-III";
   "chujianyun"; "newstart0514"; "hadimousavi79"; "RandomSynergy17"; "wiobip";
   "kaallliiii6"; "a25varshney"; "fuzz2410"; "katrinavassell"; "gitjfmd"].

Definition report_file : string := "M:/claude_tools/1code/FORK_ANALYSIS_REPORT.md".

(** ["=" * 60] *)
Definition rule : string := String.concat "" (repeat "=" 60).

(** [results.append(result)] *)
Definition append (results : nat) (r : nat) : M unit :=
  (refs <- load_list results ;;
   store results (OList (refs ++ [r])))%prog.

(** Lines 222 to 224. *)
Fixpoint analyze_all (E : env) (results : nat) (owners : list string) : M unit :=
  match owners with
  | [] => ret tt
  | owner :: owners' =>
      (result <- analyze_fork E owner ;;
       r <- alloc (ODict result) ;;
       append results r ;;
       analyze_all E results owners')%prog
  end.

(** An annotation that is printed when [fork.get(field, 0) > 0]. *)
Definition print_when_positive (fork : record) (field : string)
  (before after : string) : M unit :=
  (b <- lift (Py.gt (Py.get fork field (PInt 0)) 0) ;;
   if b then (v <- lift (Py.item fork field) ;; print (before ^^ Py.str v ^^ after))
   else ret tt)%prog.

(** Lines 246 to 252: one fork of the console list. *)
Definition console_entry (i : nat) (fork : record) : M unit :=
  (owner <- lift (Py.item fork "owner") ;;
   url <- lift (Py.item fork "url") ;;
   print (Str.of_nat i ^^ ". " ^^ Py.str owner ^^ " (" ^^ Py.str url ^^ ")") ;;
   print_when_positive fork "stars" "   ⭐ " " stars" ;;
   print_when_positive fork "branch_count" "   🌿 " " custom branches" ;;
   print_when_positive fork "ahead_by" "   ⬆️ " " commits ahead")%prog.

Fixpoint console_entries (i : nat) (l : list record) : M unit :=
  match l with
  | [] => ret tt
  | fork :: l' => (console_entry i fork ;; console_entries (S i) l')%prog
  end.

(** Lines 240 to 252: the console summary. *)
Definition console_summary (results : nat) : M unit :=
  (refs <- load_list results ;;
   records <- mapM load_dict refs ;;
   interesting <- alloc (OList (interesting_refs refs records)) ;;
   irefs <- load_list interesting ;;
   forks <- mapM load_dict irefs ;;
   print ("✓ Found " ^^ Str.of_nat (List.length irefs) ^^ " interesting forks out of "
            ^^ Str.of_nat (List.length refs) ^^ " total") ;;
   match forks with
   | [] => ret tt
   | _ =>
       print (Str.nl ^^ "Top 5 Most Interesting:") ;;
       console_entries 1 (firstn 5 forks)
   end)%prog.

(** Lines 233 and 234: [with open(path, 'w') as f: f.write(content)]. *)
Definition write_file (E : env) (path content : string) : M unit :=
  match save E path content with
  | Saved => emit (EWrite path content)
  | NotOpened e => raise e
  | Cut kept e => (emit (EWrite path kept) ;; raise e)%prog
  end.

(** [main] for a list of owners; the script runs it on [FORK_OWNERS]. *)
Definition main_on (E : env) (owners : list string) : M unit :=
  (print rule ;;
   print "1code Fork Analysis" ;;
   print rule ;;
   print ("Analyzing " ^^ Str.of_nat (List.length owners) ^^ " forks...") ;;
   print "" ;;
   results <- alloc (OList []) ;;
   analyze_all E results owners ;;
   print "" ;;
   print "Generating report..." ;;
   report <- generate_report_st E results ;;
   write_file E report_file report ;;
   print ("Report saved to: " ^^ report_file) ;;
   print "" ;;
   console_summary results)%prog.

Definition main (E : env) : M unit := main_on E FORK_OWNERS.

Definition initial : world := {| heap := []; reqs := 0; trace := [] |}.

(** * Properties *)

Definition is_get (e : event) : bool :=
  match e with
  | EGet _ _ => true
  | _ => false
  end.

(** The number of HTTP requests in a stretch of the trace. *)
Definition gets (t : list event) : nat := List.length (filter is_get t).

Definition rate_limit_notice : event :=
  EPrint ("Rate limited! Waiting 60 seconds..." ^^ Str.nl).


(** [field] of [r] holds a number above zero. *)
Definition positive (r : record) (field : string) : Prop :=
  exists v n, Py.dict_get field r = Some v /\ Py.num v = Some n /\ (0 < n)%Z.

(** The analysis of [owner] up to line 88: the record and the world with
    which the commits are asked for. *)
Definition reach_commits (E : env) (owner : string) : M record :=
  (print_noend ("Analyzing " ^^ owner ^^ "...") ;;
   result <- repo_step E owner ;;
   branches_step E owner result)%prog.

(** [c] is a commit of the API's list whose message is [message]. *)
Definition commit_object (c : pyval) (message : string) : Prop :=
  exists fields inner,
    c = PDict fields
    /\ Py.dict_get "commit" fields = Some (PDict inner)
    /\ Py.dict_get "message" inner = Some (PStr message).

(** The key of a record in the sort of line 138, with 0 where a field
    holds no number (the sort itself does not get that far, see
    [key_field]). *)
Definition field_num (r : record) (field : string) : Z :=
  match Py.num (Py.get r field (PInt 0)) with
  | Some n => n
  | None => 0%Z
  end.

Definition key_of (r : record) : sort_key_t :=
  (field_num r "stars", field_num r "ahead_by", field_num r "branch_count").

(** [key_ge a b]: the key [a] is lexicographically at least [b]. *)
Definition key_ge (a b : sort_key_t) : Prop := key_lt a b = false.

Definition key_eqb (a b : sort_key_t) : bool :=
  let '(a1, a2, a3) := a in
  let '(b1, b2, b3) := b in
  ((a1 =? b1) && (a2 =? b2) && (a3 =? b3))%Z.

(** The order in which the sort leaves two elements: the key of the first
    is at least the key of the second. *)
Definition descending {A} (key : A -> sort_key_t) (a b : A) : Prop :=
  key_ge (key a) (key b).

(** Two lists of keyed elements that agree on the keys and are related
    element by element. *)
Definition related {A B} (R : A -> B -> Prop)
  (p : sort_key_t * A) (q : sort_key_t * B) : Prop :=
  fst p = fst q /\ R (snd p) (snd q).

(** [a] stands before [b] in [l]. *)
Definition precedes {A} (a b : A) (l : list A) : Prop :=
  exists i j, i < j /\ nth_error l i = Some a /\ nth_error l j = Some b.

(** [blocks] holds, in the order of [l], what [entry] gives for each
    record of [l] with its number, counting from 1. *)
Definition blocks_of (entry : nat -> record -> outcome (list string))
  (l : list record) (blocks : list (list string)) : Prop :=
  Forall2 (fun p block => entry (fst p) (snd p) = Ok block)
    (combine (seq 1 (List.length l)) l) blocks.

(** The line that carries the url of [r] in its entry of the detail
    block, and the one in its entry of the recommendations. *)
Definition detail_url_line (r : record) : string :=
  "**URL:** " ^^ Py.str (Py.get r "url" PNone).

Definition recommendation_url_line (r : record) : string :=
  "   " ^^ Py.str (Py.get r "url" PNone).

(** Modelled from the spec: a section of the report, told by the line
    that each of its entries has for the url, lists every interesting
    record, and of two interesting records the one stands before the
    other if and only if its key is at least the other's. *)
Definition listed_by_key_only (results : list record) (line_of : record -> string)
  (lines : list string) : Prop :=
  (forall r, In r results -> is_interesting r = true -> In (line_of r) lines)
  /\ (forall a b,
        In a results -> In b results ->
        is_interesting a = true -> is_interesting b = true -> a <> b ->
        (precedes (line_of a) (line_of b) lines <-> key_ge (key_of a) (key_of b))).

(** A fork with the given owner and star count, and nothing else of note. *)
Definition starred (owner : string) (stars : Z) : record :=
  Py.dict_set "interesting" (PBool true)
    (new_record owner (PInt stars) PNone (PStr "") (PStr "")).

Definition six_starred : list record :=
  [starred "a" 6; starred "b" 5; starred "c" 4; starred "d" 3; starred "e" 2;
   starred "f" 1].

Definition two_tied : list record := [starred "a" 1; starred "b" 1].

(** [rest] does not begin in the middle of a character: it is empty or
    its first byte begins a character. *)
Definition whole (rest : string) : Prop :=
  match rest with
  | "" => True
  | String c _ => Str.is_continuation c = false
  end.

(** A commit line stays in [unique_commits]. *)
Definition kept (c : string) : bool := negb (mentions_keyword (Str.lower c)).

(** What the detail block shows for the commits that stay. *)
Definition shown_commits (unique : list string) : list string :=
  match unique with
  | [] => []
  | _ => "**Recent Unique Commits:**"
           :: map (fun c => "  - " ^^ Str.take 80 c) (firstn 3 unique)
  end.

(** In the store [h] the reference [results] holds a list whose elements
    refer to the dicts [rs], in order. *)
Definition refers (h : list obj) (l : nat) (r : record) : Prop :=
  nth_error h l = Some (ODict r).

Definition records_at (h : list obj) (results : nat) (rs : list record) : Prop :=
  exists refs, nth_error h results = Some (OList refs) /\ Forall2 (refers h) refs rs.

(** What the report reads from an interesting record is there to be read:
    the owner and the url, numbers (or nothing) in the four counts, lists
    of lines (or nothing) in [custom_branches] and [recent_commits], and
    the branches when their count is above zero.  The records that
    [analyze_fork] builds from API data of the documented types are so. *)
Definition has_key (r : record) (k : string) : bool :=
  match Py.dict_get k r with
  | Some _ => true
  | None => false
  end.

Definition number_or_absent (r : record) (k : string) : bool :=
  match Py.num (Py.get r k (PInt 0)) with
  | Some _ => true
  | None => false
  end.

Definition is_str (v : pyval) : bool :=
  match v with
  | PStr _ => true
  | _ => false
  end.

Definition strings_or_absent (r : record) (k : string) : bool :=
  match Py.dict_get k r with
  | None => true
  | Some (PList l) => forallb is_str l
  | Some _ => false
  end.

Definition readable (r : record) : bool :=
  has_key r "owner" && has_key r "url"
  && number_or_absent r "stars" && number_or_absent r "ahead_by"
  && number_or_absent r "behind_by" && number_or_absent r "branch_count"
  && strings_or_absent r "custom_branches" && strings_or_absent r "recent_commits"
  && (has_key r "custom_branches" || negb (0 <? field_num r "branch_count")%Z).

Definition report_ready (r : record) : bool :=
  negb (is_interesting r) || readable r.

(** An API that knows two of the forks: the first owner of [FORK_OWNERS]
    has one star, the second has two, and every other request is answered
    with 404. *)
Definition found (stars : Z) : reply :=
  Resp {| status_code := 200; text := "";
          json := Some (PDict [("stargazers_count", PInt stars)]) |}.

Definition not_found : reply :=
  Resp {| status_code := 404; text := "Not Found"; json := None |}.

Definition describe (e : exn) : string :=
  match e with
  | HTTPError status _ => Str.of_Z status ^^ " Client Error"
  | _ => "error"
  end.

Definition two_forks : env :=
  {| requests_get := fun _ url =>
       if String.eqb url (repo_url "MorpheusEMH") then found 1
       else if String.eqb url (repo_url "pichimail") then found 2
       else not_found;
     now := "2026-01-01 00:00:00";
     str_exn := describe;
     save := fun _ _ => Saved |}.

(** What the run wrote to [report_file], if it wrote. *)
Fixpoint written (t : list event) : option string :=
  match t with
  | [] => None
  | EWrite path content :: t' =>
      if String.eqb path report_file then Some content else written t'
  | _ :: t' => written t'
  end.

(** The lines that the run printed. *)
Fixpoint printed (t : list event) : list string :=
  match t with
  | [] => []
  | EPrint s :: t' => s :: printed t'
  | _ :: t' => printed t'
  end.

(** An API that is rate limited at the first request and answers the
    second with an empty JSON object. *)
Definition limited_once : env :=
  {| requests_get := fun n _ =>
       match n with
       | 0 => Resp {| status_code := 403; text := "rate limit"; json := None |}
       | _ => Resp {| status_code := 200; text := "{}"; json := Some (PDict []) |}
       end;
     now := "2026-01-01 00:00:00";
     str_exn := describe;
     save := fun _ _ => Saved |}.

(** An API that knows one fork with two commits, the first with a body
    below its first line, and nothing else. *)
Definition commit_of (message : string) : pyval :=
  PDict [("sha", PStr "0"); ("commit", PDict [("message", PStr message)])].

Definition two_messages : list string :=
  ["Add login" ^^ Str.nl ^^ Str.nl ^^ "with a form"; "Fix typo"].

Definition two_commits : env :=
  {| requests_get := fun _ url =>
       if String.eqb url (repo_url "a") then found 0
       else if String.eqb url (commits_url "a") then
         Resp {| status_code := 200; text := "";
                 json := Some (PList (map commit_of two_messages)) |}
       else not_found;
     now := "2026-01-01 00:00:00";
     str_exn := describe;
     save := fun _ _ => Saved |}.

(** An API that answers the commits fetch of one fork with 11 commits. *)
Definition eleven_commits : env :=
  {| requests_get := fun _ url =>
       if String.eqb url (repo_url "a") then found 0
       else if String.eqb url (commits_url "a") then
         Resp {| status_code := 200; text := "";
                 json := Some (PList (map commit_of (repeat "Update README" 11))) |}
       else not_found;
     now := "2026-01-01 00:00:00";
     str_exn := describe;
     save := fun _ _ => Saved |}.

(** A fork with three recent commits, one of them a merge. *)
Definition three_commits : list string :=
  ["Add feature"; "Merge branch main"; "Fix bug"].

Definition fork_with_commits : record :=
  Py.dict_set "recent_commits" (PList (map PStr three_commits)) (starred "a" 1).

(** A fork whose one recent commit is a line of 100 letters outside
    ASCII, of two bytes each. *)
Definition accented_line : string := String.concat "" (repeat "é" 100).

Definition fork_with_accents : record :=
  Py.dict_set "recent_commits" (PList [PStr accented_line]) (starred "a" 1).

(** Two stores that hold the records [two_tied] at different places. *)
Definition store_one : world :=
  {| heap := [ODict (starred "a" 1); ODict (starred "b" 1); OList [0; 1]];
     reqs := 0; trace := [] |}.

Definition store_two : world :=
  {| heap := [OList [2; 1]; ODict (starred "b" 1); ODict (starred "a" 1)];
     reqs := 7; trace := [EPrint "before"] |}.

(** ** What a stretch of a run did *)

(** The 0.5 second sleeps of line 118 in a stretch of the trace. *)
Definition is_throttle (e : event) : bool :=
  match e with
  | ESleep ms => (ms =? 500)%Z
  | _ => false
  end.

Definition throttles (t : list event) : nat := List.length (filter is_throttle t).

(** From [w] to [w'] the store has stayed as it was, the trace has grown
    by a stretch with at most [hi] requests and at most [th] sleeps of
    0.5 seconds, and the request counter has counted the requests. *)
Definition advances (hi th : nat) (w w' : world) : Prop :=
  heap w' = heap w
  /\ exists done,
       trace w' = trace w ++ done
       /\ reqs w' = reqs w + gets done
       /\ gets done <= hi
       /\ throttles done <= th.

(** Whatever happens in [m], it advances the world within the bounds. *)
Definition bounded {A} (hi th : nat) (m : M A) : Prop :=
  forall w out w', m w = (out, w') -> advances hi th w w'.

(** The world [w] after the events [es]. *)
Definition emitted (w : world) (es : list event) : world :=
  {| heap := heap w; reqs := reqs w; trace := trace w ++ es |}.

(** ** The branches and the comparison *)

(** [b] is a branch of the API's list whose name is [name]. *)
Definition branch_object (b : pyval) (name : string) : Prop :=
  exists fields, b = PDict fields /\ Py.dict_get "name" fields = Some (PStr name).

(** A branch name other than the two default ones. *)
Definition custom (name : string) : bool :=
  negb (String.eqb name "main" || String.eqb name "master").

(** An API that knows one fork with four branches and a comparison that
    is 3 ahead, and nothing else. *)
Definition branch_of (name : string) : pyval :=
  PDict [("name", PStr name); ("protected", PBool false)].

Definition four_branches : list string := ["main"; "feature-x"; "master"; "dev"].

Definition with_branches : env :=
  {| requests_get := fun _ url =>
       if String.eqb url (repo_url "a") then found 0
       else if String.eqb url (branches_url "a") then
         Resp {| status_code := 200; text := "";
                 json := Some (PList (map branch_of four_branches)) |}
       else if String.eqb url (compare_url "a") then
         Resp {| status_code := 200; text := "";
                 json := Some (PDict [("ahead_by", PInt 3)]) |}
       else not_found;
     now := "2026-01-01 00:00:00";
     str_exn := describe;
     save := fun _ _ => Saved |}.


(** ** The entries of the report *)

Definition flag_line : string := "**⚠️ WORTH INVESTIGATING**".

(** The reason that [field] gives in a recommendation, when it is above
    zero. *)
Definition reason_of (fork : record) (field suffix : string) : list string :=
  if (0 <? field_num fork field)%Z
  then [Py.str (Py.get fork field (PInt 0)) ^^ suffix]
  else [].

Definition reasons_of (fork : record) : list string :=
  reason_of fork "stars" " stars"
  ++ reason_of fork "ahead_by" " commits ahead"
  ++ reason_of fork "branch_count" " custom branches".

(** A fork with five stars, and one with no count above zero. *)
Definition quiet_fork : record := starred "q" 0.

(** ** The driver *)

(** The store when the loop of [main] starts: the empty list [results]. *)
Definition empty_results : world := {| heap := [OList []]; reqs := 0; trace := [] |}.

(** An API that does not answer at all, one that answers with a page
    that is no JSON, and one that answers 304. *)
Definition unreachable : env :=
  {| requests_get := fun _ _ => NetFail "Connection refused";
     now := "2026-01-01 00:00:00";
     str_exn := describe;
     save := fun _ _ => Saved |}.

Definition not_modified : env :=
  {| requests_get := fun _ _ =>
       Resp {| status_code := 304; text := ""; json := Some (PList []) |};
     now := "2026-01-01 00:00:00";
     str_exn := describe;
     save := fun _ _ => Saved |}.

(** The writes of a file in a stretch of the trace. *)
Definition is_write (e : event) : bool :=
  match e with
  | EWrite _ _ => true
  | _ => false
  end.

Definition writes (t : list event) : nat := List.length (filter is_write t).

(** From [w] to [w'] the trace has grown by a stretch that writes no
    file. *)
Definition extends_quietly (w w' : world) : Prop :=
  exists done, trace w' = trace w ++ done /\ writes done = 0.

(** Whatever happens in [m], it writes no file. *)
Definition writes_nothing {A} (m : M A) : Prop :=
  forall w out w', m w = (out, w') -> extends_quietly w w'.

(** Lines 240 to 252 on values: the console summary for the records
    [rs], which are filtered again and not sorted. *)
Definition console_of (rs : list record) : M unit :=
  let interesting := filter is_interesting rs in
  (print ("✓ Found " ^^ Str.of_nat (List.length interesting) ^^ " interesting forks out of "
            ^^ Str.of_nat (List.length rs) ^^ " total") ;;
   match interesting with
   | [] => ret tt
   | _ =>
       print (Str.nl ^^ "Top 5 Most Interesting:") ;;
       console_entries 1 (firstn 5 interesting)
   end)%prog.
Ltac run :=
  unfold fetch_github_api, raise_for_status, response_json, get, print, print_noend,
    sleep, emit, bind, try_, ret, raise, lift in *; simpl in *.

Ltac fin :=
  eexists; rewrite <- ?app_assoc; simpl;
  repeat split; try reflexivity; unfold gets; simpl; lia.

(** C2.  [fetch_github_api] issues at most two GET requests.  When the
    first response is not a 403 it issues one, with no notice and no
    sleep.  When the first response is a 403 it prints the notice, sleeps
    60 seconds and asks once more, whatever comes back; if what comes back
    is a 2xx whose body is JSON, that body is returned; a response in the
    400 to 599 range that is the last one raises an [HTTPError] carrying
    its status and body. *)
Theorem fetch_github_api_retries_once (E : env) (url : string) (w : world) :
  let out := fst (fetch_github_api E url w) in
  let w' := snd (fetch_github_api E url w) in
  (exists done, trace w' = trace w ++ done /\ gets done <= 2
                /\ reqs w' = reqs w + gets done /\ heap w' = heap w)
  /\ (forall r1, requests_get E (reqs w) url = Resp r1 -> status_code r1 <> 403%Z ->
        trace w' = trace w ++ [EGet url headers]
        /\ ((400 <= status_code r1 < 600)%Z ->
            out = Raise (HTTPError (status_code r1) (text r1))))
  /\ (forall r1, requests_get E (reqs w) url = Resp r1 -> status_code r1 = 403%Z ->
        trace w' = trace w ++ [EGet url headers; rate_limit_notice; ESleep 60000;
                               EGet url headers]
        /\ forall r2, requests_get E (S (reqs w)) url = Resp r2 ->
             ((200 <= status_code r2 < 300)%Z ->
              forall body, json r2 = Some body -> out = Ok body)
             /\ ((400 <= status_code r2 < 600)%Z ->
                 out = Raise (HTTPError (status_code r2) (text r2)))).
Proof.
  cbv zeta. split; [|split].
  - run. destruct (requests_get E (reqs w) url) as [r1|m]; simpl.
    + destruct (status_code r1 =? 403)%Z; simpl.
      * destruct (requests_get E (S (reqs w)) url) as [r2|m2]; simpl.
        -- destruct ((400 <=? status_code r2)%Z && (status_code r2 <? 600)%Z); simpl.
           ++ fin.
           ++ destruct (json r2); simpl; fin.
        -- fin.
      * destruct ((400 <=? status_code r1)%Z && (status_code r1 <? 600)%Z); simpl.
        -- fin.
        -- destruct (json r1); simpl; fin.
    + fin.
  - intros r1 H1 Hs. run. rewrite H1. simpl.
    destruct (Z.eqb_spec (status_code r1) 403); [contradiction|]. simpl.
    split.
    + destruct ((400 <=? status_code r1)%Z && (status_code r1 <? 600)%Z); simpl; [reflexivity|].
      destruct (json r1); reflexivity.
    + intros Hr. assert (((400 <=? status_code r1)%Z && (status_code r1 <? 600)%Z) = true) as ->.
      { apply andb_true_intro; split; [apply Z.leb_le | apply Z.ltb_lt]; lia. }
      reflexivity.
  - intros r1 H1 Hs. run. rewrite H1. simpl. rewrite Hs. simpl.
    split.
    + destruct (requests_get E (S (reqs w)) url) as [r2|m2]; simpl.
      * destruct ((400 <=? status_code r2)%Z && (status_code r2 <? 600)%Z); simpl.
        -- rewrite <- !app_assoc. reflexivity.
        -- destruct (json r2); simpl; rewrite <- !app_assoc; reflexivity.
      * rewrite <- !app_assoc. reflexivity.
    + intros r2 H2. rewrite H2. simpl. split.
      * intros Hr body Hb.
        assert (((400 <=? status_code r2)%Z && (status_code r2 <? 600)%Z) = false) as ->.
        { apply andb_false_intro1. apply Z.leb_gt. lia. }
        simpl. rewrite Hb. reflexivity.
      * intros Hr. assert (((400 <=? status_code r2)%Z && (status_code r2 <? 600)%Z) = true) as ->.
        { apply andb_true_intro; split; [apply Z.leb_le | apply Z.ltb_lt]; lia. }
        reflexivity.
Qed.

(** ** Dicts *)

Lemma dict_get_set_same k v d : Py.dict_get k (Py.dict_set k v d) = Some v.
Proof.
  induction d as [|[k' v'] d IH]; simpl.
  - now rewrite String.eqb_refl.
  - destruct (String.eqb k k') eqn:Hk; simpl; rewrite Hk; auto.
Qed.

Lemma dict_get_set_other k k' v d :
  k <> k' -> Py.dict_get k' (Py.dict_set k v d) = Py.dict_get k' d.
Proof.
  intros Hne. induction d as [|[k0 v0] d IH]; simpl.
  - destruct (String.eqb_spec k' k); congruence.
  - destruct (String.eqb_spec k k0) as [->|Hk]; simpl.
    + destruct (String.eqb_spec k' k0); congruence.
    + now rewrite IH.
Qed.

(** ** Running a program *)

Lemma bind_ok {A B} (m : M A) (f : A -> M B) w b w2 :
  bind m f w = (Ok b, w2) ->
  exists a w1, m w = (Ok a, w1) /\ f a w1 = (Ok b, w2).
Proof.
  unfold bind. destruct (m w) as [[a|e] w1]; intros H; [eauto | discriminate].
Qed.

Lemma lift_ok {A} (r : outcome A) w a w1 :
  lift r w = (Ok a, w1) -> r = Ok a /\ w1 = w.
Proof. unfold lift. intros H. inversion H. auto. Qed.

Lemma rbind_ok {A B} (m : outcome A) (f : A -> outcome B) b :
  rbind m f = Ok b -> exists a, m = Ok a /\ f a = Ok b.
Proof. destruct m; simpl; intros H; [eauto | discriminate]. Qed.

(** ** The interesting predicate *)

Lemma gt_true v : Py.gt v 0 = Ok true -> exists n, Py.num v = Some n /\ (0 < n)%Z.
Proof.
  unfold Py.gt. destruct (Py.num v) as [n|]; [|discriminate].
  intros H. inversion H as [H1]. exists n. split; auto. now apply Z.ltb_lt.
Qed.

Lemma gt_false v : Py.gt v 0 = Ok false -> exists n, Py.num v = Some n /\ (n <= 0)%Z.
Proof.
  unfold Py.gt. destruct (Py.num v) as [n|]; [|discriminate].
  intros H. inversion H as [H1]. exists n. split; auto. now apply Z.ltb_ge.
Qed.

Lemma item_ok d k v : Py.item d k = Ok v -> Py.dict_get k d = Some v.
Proof. unfold Py.item. destruct (Py.dict_get k d); intros H; inversion H; auto. Qed.

Lemma not_positive r field v n :
  Py.dict_get field r = Some v -> Py.num v = Some n -> (n <= 0)%Z -> ~ positive r field.
Proof.
  intros Hg Hn Hle (v' & n' & Hg' & Hn' & Hpos). rewrite Hg in Hg'. inversion Hg'; subst.
  rewrite Hn in Hn'. inversion Hn'; subst. lia.
Qed.

Lemma interesting_of_spec r b :
  interesting_of r = Ok b ->
  (b = true <-> positive r "branch_count" \/ positive r "ahead_by" \/ positive r "stars").
Proof.
  unfold interesting_of. intros H.
  apply rbind_ok in H as (bc & Hbc & H). apply item_ok in Hbc.
  apply rbind_ok in H as (b1 & H1 & H). destruct b1.
  { inversion H; subst. apply gt_true in H1 as (n & Hn & Hpos).
    split; auto. intros _. left. exists bc, n. auto. }
  apply gt_false in H1 as (n1 & Hn1 & Hle1).
  apply rbind_ok in H as (ab & Hab & H). apply item_ok in Hab.
  apply rbind_ok in H as (b2 & H2 & H). destruct b2.
  { inversion H; subst. apply gt_true in H2 as (n & Hn & Hpos).
    split; auto. intros _. right. left. exists ab, n. auto. }
  apply gt_false in H2 as (n2 & Hn2 & Hle2).
  apply rbind_ok in H as (st & Hst & H). apply item_ok in Hst.
  destruct b.
  - apply gt_true in H as (n & Hn & Hpos). split; auto. intros _. right. right.
    exists st, n. auto.
  - apply gt_false in H as (n3 & Hn3 & Hle3). split; [discriminate|].
    intros [Hp|[Hp|Hp]]; exfalso; revert Hp; eapply not_positive; eauto.
Qed.

Lemma error_record_not_positive owner msg field :
  field = "branch_count" \/ field = "ahead_by" \/ field = "stars" ->
  ~ positive (error_record owner msg) field.
Proof.
  intros Hf (v & n & Hg & _). destruct Hf as [-> | [-> | ->]]; discriminate.
Qed.

Lemma finish_step_ok r3 w3 r w' :
  finish_step r3 w3 = (Ok r, w') ->
  exists b, interesting_of r3 = Ok b /\ r = Py.dict_set "interesting" (PBool b) r3.
Proof.
  unfold finish_step. intros H.
  apply bind_ok in H as (b & w1 & Hb & H). apply lift_ok in Hb as [Hb ->].
  exists b. split; auto. run. inversion H. reflexivity.
Qed.

(** ** The steps of the analysis *)

Lemma repo_step_ok E owner w r w' :
  repo_step E owner w = (Ok r, w') ->
  exists s d c u, r = new_record owner s d c u.
Proof.
  unfold repo_step. intros H.
  apply bind_ok in H as (repo & w1 & _ & H).
  apply bind_ok in H as (s & w2 & _ & H).
  apply bind_ok in H as (d & w3 & _ & H).
  apply bind_ok in H as (c & w4 & _ & H).
  apply bind_ok in H as (u & w5 & _ & H).
  inversion H. eauto.
Qed.

Lemma branches_step_frame E owner r w r' w' k :
  branches_step E owner r w = (Ok r', w') ->
  k <> "custom_branches" -> k <> "branch_count" ->
  Py.dict_get k r' = Py.dict_get k r.
Proof.
  unfold branches_step, try_. intros H Hk1 Hk2.
  match type of H with context [match ?body w with _ => _ end] =>
    destruct (body w) as [[a|e] w1] eqn:Hbody end.
  - inversion H; subst.
    apply bind_ok in Hbody as (data & w2 & _ & Hbody).
    apply bind_ok in Hbody as (bs & w3 & _ & Hbody).
    apply bind_ok in Hbody as (cb & w4 & _ & Hbody).
    inversion Hbody. rewrite !dict_get_set_other by congruence. reflexivity.
  - run. inversion H. reflexivity.
Qed.

Lemma compare_step_frame E owner r w r' w' k :
  compare_step E owner r w = (Ok r', w') ->
  k <> "ahead_by" -> k <> "behind_by" ->
  Py.dict_get k r' = Py.dict_get k r.
Proof.
  unfold compare_step. unfold try_ at 1. intros H Hk1 Hk2.
  match type of H with context [match ?body w with _ => _ end] =>
    destruct (body w) as [[a|e] w1] eqn:Hbody end.
  - inversion H; subst.
    apply bind_ok in Hbody as (data & w2 & _ & Hbody).
    apply bind_ok in Hbody as (ahead & w3 & _ & Hbody).
    unfold try_ in Hbody.
    match type of Hbody with context [match ?body w3 with _ => _ end] =>
      destruct (body w3) as [[a|e] w4] eqn:Hin end.
    + inversion Hbody; subst.
      apply bind_ok in Hin as (behind & w5 & _ & Hin). inversion Hin.
      rewrite !dict_get_set_other by congruence. reflexivity.
    + inversion Hbody. rewrite !dict_get_set_other by congruence. reflexivity.
  - inversion H. reflexivity.
Qed.

Lemma rmapM_commit_first_line commits messages :
  Forall2 commit_object commits messages ->
  rmapM commit_first_line commits = Ok (map (fun m => PStr (Str.first_line m)) messages).
Proof.
  induction 1 as [|c m cs ms (fields & inner & -> & Hc & Hm) _ IH]; simpl; [reflexivity|].
  unfold commit_first_line at 1. simpl. unfold Py.item. rewrite Hc. simpl.
  unfold Py.item. rewrite Hm. simpl. rewrite IH. reflexivity.
Qed.

Lemma commits_step_cases E owner r w :
  match fetch_github_api E (commits_url owner) w with
  | (Ok data, w1) =>
      forall commits messages,
        data = PList commits -> Forall2 commit_object commits messages ->
        commits_step E owner r w =
          (Ok (Py.dict_set "recent_commits"
                 (PList (map (fun m => PStr (Str.first_line m)) messages)) r), w1)
  | (Raise e, w1) =>
      exists w2, commits_step E owner r w = (Ok r, w2)
  end.
Proof.
  destruct (fetch_github_api E (commits_url owner) w) as [[data|e] w1] eqn:Hf.
  - intros commits messages -> Hall.
    unfold commits_step, try_, bind, lift, ret. rewrite Hf. simpl.
    rewrite (rmapM_commit_first_line _ _ Hall). reflexivity.
  - unfold commits_step, try_, bind. rewrite Hf.
    unfold print, emit, ret. eexists. reflexivity.
Qed.

Lemma commits_step_malformed E owner r w commits w1 e :
  fetch_github_api E (commits_url owner) w = (Ok (PList commits), w1) ->
  rmapM commit_first_line commits = Raise e ->
  exists w2, commits_step E owner r w = (Ok r, w2).
Proof.
  intros Hf He. unfold commits_step, try_, bind, lift, ret. rewrite Hf.
  cbn [Py.iter]. rewrite He. unfold print, emit. eexists. reflexivity.
Qed.

(** C8, the claim as it stands, does not hold: the script asks for 10
    commits per page and keeps what it is sent.  When the API answers the
    commits fetch with 11 commits, the record, which has no error, holds
    11 entries in [recent_commits]. *)
Lemma eleven_commits_are_kept :
  exists r kept,
    fst (analyze_fork eleven_commits "a" initial) = Ok r
    /\ Py.dict_get "error" r = Some PNone
    /\ Py.dict_get "recent_commits" r = Some (PList kept)
    /\ List.length kept = 11
    /\ ~ List.length kept <= 10.
Proof.
  eexists. eexists. split; [vm_compute; reflexivity|].
  split; [reflexivity|]. split; [reflexivity|]. split; [reflexivity|].
  simpl. lia.
Qed.

(** C8, amended.  When the analysis of an owner gets past the repo
    details and returns a full record, the record's [recent_commits] is
    decided by the commits fetch alone.  If that fetch succeeds with the
    API's list of commits, the field is the first line of each commit
    message, in the API's order, one entry per commit that the API has
    sent, however many they are.  If the fetch fails, or if an element
    of the list is no commit with a message, the field is left empty. *)
Theorem analyze_fork_recent_commits
  (E : env) (owner : string) (w : world) (r0 : record) (w0 : world) (r : record) :
  reach_commits E owner w = (Ok r0, w0) ->
  fst (analyze_fork E owner w) = Ok r ->
  Py.dict_get "error" r = Some PNone ->
  match fetch_github_api E (commits_url owner) w0 with
  | (Ok data, _) =>
      (forall commits messages,
         data = PList commits ->
         Forall2 commit_object commits messages ->
         Py.dict_get "recent_commits" r
           = Some (PList (map (fun m => PStr (Str.first_line m)) messages))
         /\ List.length (map (fun m => PStr (Str.first_line m)) messages)
            = List.length commits)
      /\ (forall commits e,
            data = PList commits ->
            rmapM commit_first_line commits = Raise e ->
            Py.dict_get "recent_commits" r = Some (PList []))
  | (Raise _, _) => Py.dict_get "recent_commits" r = Some (PList [])
  end.
Proof.
  intros Hreach Hr Herr.
  unfold reach_commits in Hreach.
  apply bind_ok in Hreach as (x & wa & Hprint & Hreach).
  apply bind_ok in Hreach as (ra & wb & Hrepo & Hbranches).
  assert (Hr0 : Py.dict_get "recent_commits" r0 = Some (PList [])).
  { rewrite (branches_step_frame _ _ _ _ _ _ "recent_commits" Hbranches) by discriminate.
    apply repo_step_ok in Hrepo as (s & d & c & u & ->). reflexivity. }
  unfold analyze_fork, try_, bind in Hr. rewrite Hprint, Hrepo, Hbranches in Hr.
  assert (Hrest : forall r1 w1, commits_step E owner r0 w0 = (Ok r1, w1) ->
                    Py.dict_get "recent_commits" r = Py.dict_get "recent_commits" r1).
  { intros r1 w1 Hc. rewrite Hc in Hr.
    destruct (compare_step E owner r1 w1) as [[r2|e] w2] eqn:Hcmp.
    - destruct (finish_step r2 w2) as [[r3|e] w3] eqn:Hfin.
      + simpl in Hr. inversion Hr; subst r3.
        apply finish_step_ok in Hfin as (b & _ & ->).
        rewrite dict_get_set_other by discriminate.
        apply (compare_step_frame _ _ _ _ _ _ _ Hcmp); discriminate.
      + unfold print, emit, ret in Hr. simpl in Hr. inversion Hr; subst r. discriminate.
    - unfold print, emit, ret in Hr. simpl in Hr. inversion Hr; subst r. discriminate. }
  pose proof (commits_step_cases E owner r0 w0) as Hcases.
  destruct (fetch_github_api E (commits_url owner) w0) as [[data|e] w1] eqn:Hf.
  - split.
    + intros commits messages Hdata Hall.
      specialize (Hcases commits messages Hdata Hall).
      rewrite (Hrest _ _ Hcases), dict_get_set_same. split; [reflexivity|].
      rewrite length_map. symmetry. exact (Forall2_length Hall).
    + intros commits e -> He.
      destruct (commits_step_malformed E owner r0 _ _ _ _ Hf He) as (w2 & Hc).
      now rewrite (Hrest _ _ Hc).
  - destruct Hcases as (w2 & Hcases). now rewrite (Hrest _ _ Hcases).
Qed.

(** ** The report: the error record *)

Lemma render_total clock total total' interesting :
  render clock total interesting
  = rmap (set_nth 4 ("- Total forks analyzed: " ^^ Str.of_nat total))
      (render clock total' interesting).
Proof.
  unfold render, summary_lines.
  destruct (count_positive "branch_count" interesting); [|reflexivity].
  destruct (count_positive "ahead_by" interesting); [|reflexivity].
  destruct (count_positive "stars" interesting); [|reflexivity].
  simpl. destruct (detail_lines interesting); [|reflexivity]. simpl.
  destruct (recommendation_lines interesting); reflexivity.
Qed.

Lemma filter_skip {A} (f : A -> bool) before x after :
  f x = false -> filter f (before ++ x :: after) = filter f (before ++ after).
Proof. intros H. rewrite !filter_app. simpl. now rewrite H. Qed.

Lemma report_lines_skip clock before r after :
  is_interesting r = false ->
  report_lines clock (before ++ r :: after)
  = rmap (set_nth 4 ("- Total forks analyzed: "
                       ^^ Str.of_nat (S (List.length (before ++ after)))))
      (report_lines clock (before ++ after)).
Proof.
  intros Hr.
  assert (Hlen : List.length (before ++ r :: after) = S (List.length (before ++ after)))
    by (rewrite !length_app; simpl; lia).
  unfold report_lines, interesting_forks. rewrite (filter_skip _ _ _ _ Hr), Hlen.
  destruct (rmapM sort_key (filter is_interesting (before ++ after))); [|reflexivity].
  simpl. apply render_total.
Qed.

Lemma report_lines_total clock results lines :
  report_lines clock results = Ok lines ->
  nth_error lines 4
  = Some ("- Total forks analyzed: " ^^ Str.of_nat (List.length results)).
Proof.
  unfold report_lines. intros H.
  apply rbind_ok in H as (interesting & _ & H). unfold render in H.
  apply rbind_ok in H as (summary & Hs & H).
  apply rbind_ok in H as (detail & _ & H).
  apply rbind_ok in H as (recs & _ & H).
  unfold summary_lines in Hs.
  apply rbind_ok in Hs as (x & _ & Hs). apply rbind_ok in Hs as (y & _ & Hs).
  apply rbind_ok in Hs as (z & _ & Hs).
  injection Hs as <-. injection H as <-. reflexivity.
Qed.

(** C3.  When the repo-detail fetch raises, [analyze_fork] returns the
    record with the three keys [owner], [error] (the text of the failure)
    and [interesting] (false), and no other.  A list that holds such a
    record has the interesting forks of the list without it, and
    [generate_report] does with it what it does without it, but that the
    fifth line of the report, "Total forks analyzed", counts the record:
    the record adds no [KeyError] and no other failure, it appears in no
    section and enters no other count.  Of the record alone the report
    is the twelve lines of a run that found nothing, with a total of 1. *)
Theorem error_record_is_only_counted
  (E : env) (owner : string) (w : world) (e : exn) (w1 : world) :
  fetch_github_api E (repo_url owner)
    (snd (print_noend ("Analyzing " ^^ owner ^^ "...") w)) = (Raise e, w1) ->
  let r := error_record owner (str_exn E e) in
  fst (analyze_fork E owner w) = Ok r
  /\ map fst r = ["owner"; "error"; "interesting"]
  /\ Py.dict_get "error" r = Some (PStr (str_exn E e))
  /\ Py.dict_get "interesting" r = Some (PBool false)
  /\ (forall clock before after,
        interesting_forks (before ++ r :: after) = interesting_forks (before ++ after)
        /\ report_lines clock (before ++ r :: after)
           = rmap (set_nth 4 ("- Total forks analyzed: "
                                ^^ Str.of_nat (S (List.length (before ++ after)))))
               (report_lines clock (before ++ after))
        /\ (forall lines,
              report_lines clock (before ++ r :: after) = Ok lines ->
              nth_error lines 4
              = Some ("- Total forks analyzed: "
                        ^^ Str.of_nat (S (List.length (before ++ after))))
              /\ exists lines',
                   report_lines clock (before ++ after) = Ok lines'
                   /\ nth_error lines' 4
                      = Some ("- Total forks analyzed: "
                                ^^ Str.of_nat (List.length (before ++ after)))
                   /\ lines = set_nth 4 ("- Total forks analyzed: "
                                           ^^ Str.of_nat (S (List.length (before ++ after))))
                                lines')
        /\ generate_report clock (before ++ r :: after)
           = rmap (Str.join Str.nl) (report_lines clock (before ++ r :: after))
        /\ (forall x, report_lines clock (before ++ r :: after) = Raise x ->
                      report_lines clock (before ++ after) = Raise x))
  /\ (forall clock,
        report_lines clock [r]
        = Ok ["# 1code Fork Analysis Report";
              "Generated: " ^^ clock;
              "";
              "## Summary";
              "- Total forks analyzed: 1";
              "- Interesting forks: 0";
              "- Forks with custom branches: 0";
              "- Forks ahead of upstream: 0";
              "- Forked repos with stars: 0";
              "";
              "## Recommendations";
              ""]).
Proof.
  intros Hfetch r.
  split.
  { unfold analyze_fork, try_, bind, repo_step, bind. simpl in Hfetch |- *.
    unfold print_noend, emit. simpl. rewrite Hfetch. reflexivity. }
  split; [reflexivity|]. split; [reflexivity|]. split; [reflexivity|].
  split; [|reflexivity].
  intros clock before after.
  assert (Hlen : List.length (before ++ r :: after) = S (List.length (before ++ after)))
    by (rewrite !length_app; simpl; lia).
  pose proof (report_lines_skip clock before r after eq_refl) as Hskip.
  split.
  { unfold interesting_forks. now rewrite (filter_skip _ before r after eq_refl). }
  split; [exact Hskip|]. split; [|split; [reflexivity|]].
  - intros lines Hl. split.
    + rewrite <- Hlen. exact (report_lines_total _ _ _ Hl).
    + rewrite Hskip in Hl.
      destruct (report_lines clock (before ++ after)) as [lines'|x] eqn:Hl';
        [|discriminate Hl].
      exists lines'. split; [reflexivity|].
      split; [exact (report_lines_total _ _ _ Hl')|].
      unfold rmap, rbind in Hl. injection Hl as Hl. symmetry. exact Hl.
  - intros x Hx. rewrite Hskip in Hx.
    destruct (report_lines clock (before ++ after)); simpl in Hx; congruence.
Qed.

(** ** The sort *)

Lemma key_lt_irrefl a : key_lt a a = false.
Proof.
  destruct a as [[a1 a2] a3]. unfold key_lt.
  rewrite !Z.ltb_irrefl, !Z.eqb_refl. reflexivity.
Qed.

Lemma key_lt_iff a b :
  key_lt a b = true <->
  let '(a1, a2, a3) := a in
  let '(b1, b2, b3) := b in
  (a1 < b1 \/ (a1 = b1 /\ (a2 < b2 \/ (a2 = b2 /\ a3 < b3))))%Z.
Proof.
  destruct a as [[a1 a2] a3], b as [[b1 b2] b3]. unfold key_lt.
  rewrite !orb_true_iff, !andb_true_iff, !orb_true_iff, !andb_true_iff,
    !Z.ltb_lt, !Z.eqb_eq. reflexivity.
Qed.

Lemma key_ge_iff a b :
  key_ge a b <->
  let '(a1, a2, a3) := a in
  let '(b1, b2, b3) := b in
  (b1 < a1 \/ (a1 = b1 /\ (b2 < a2 \/ (a2 = b2 /\ b3 <= a3))))%Z.
Proof.
  unfold key_ge. rewrite <- not_true_iff_false, key_lt_iff.
  destruct a as [[a1 a2] a3], b as [[b1 b2] b3]. lia.
Qed.

Lemma key_ge_trans a b c : key_ge a b -> key_ge b c -> key_ge a c.
Proof.
  rewrite !key_ge_iff. destruct a as [[a1 a2] a3], b as [[b1 b2] b3], c as [[c1 c2] c3]. lia.
Qed.

Lemma key_ge_total a b : key_ge a b \/ key_lt a b = true.
Proof. unfold key_ge. destruct (key_lt a b); auto. Qed.

Lemma key_lt_ge a b : key_lt a b = true -> key_ge b a.
Proof.
  rewrite key_lt_iff, key_ge_iff. destruct a as [[a1 a2] a3], b as [[b1 b2] b3]. lia.
Qed.

Lemma key_eqb_eq a b : key_eqb a b = true <-> a = b.
Proof.
  destruct a as [[a1 a2] a3], b as [[b1 b2] b3]. unfold key_eqb.
  rewrite !andb_true_iff, !Z.eqb_eq. split; [intros [[-> ->] ->]; auto | intros H; inversion H; auto].
Qed.

Lemma key_lt_neq a b : key_lt a b = true -> key_eqb a b = false /\ key_eqb b a = false.
Proof.
  intros H. split; apply not_true_iff_false; rewrite key_eqb_eq; intros ->;
    rewrite key_lt_irrefl in H; discriminate.
Qed.

Section SortFacts.
Context {A : Type} (key : A -> sort_key_t).

Lemma insert_desc_perm x l : Permutation (insert_desc key x l) (x :: l).
Proof.
  induction l as [|y l IH]; simpl; [reflexivity|].
  destruct (key_lt (key x) (key y)); [|reflexivity].
  rewrite IH. apply perm_swap.
Qed.

Lemma sort_desc_perm l : Permutation (sort_desc key l) l.
Proof.
  induction l as [|x l IH]; simpl; [reflexivity|].
  rewrite insert_desc_perm. now constructor.
Qed.

Lemma insert_desc_sorted x l :
  StronglySorted (descending key) l -> StronglySorted (descending key) (insert_desc key x l).
Proof.
  induction 1 as [|y l Hs IH Hall]; simpl.
  - constructor; constructor.
  - destruct (key_lt (key x) (key y)) eqn:Hlt.
    + constructor; [assumption|].
      eapply Permutation_Forall; [symmetry; apply insert_desc_perm|].
      constructor; [|assumption]. now apply key_lt_ge.
    + constructor; [now constructor|].
      constructor; [exact Hlt|].
      eapply Forall_impl; [|exact Hall]. intros z Hz.
      eapply key_ge_trans; [exact Hlt | exact Hz].
Qed.

Lemma sort_desc_sorted l : StronglySorted (descending key) (sort_desc key l).
Proof.
  induction l as [|x l IH]; simpl; [constructor | now apply insert_desc_sorted].
Qed.

(** Stability: the elements of one key keep their order. *)
Lemma insert_desc_stable k x l :
  filter (fun y => key_eqb (key y) k) (insert_desc key x l)
  = filter (fun y => key_eqb (key y) k) (x :: l).
Proof.
  induction l as [|y l IH]; [reflexivity|].
  simpl insert_desc. destruct (key_lt (key x) (key y)) eqn:Hlt; [|reflexivity].
  simpl in *. rewrite IH.
  destruct (key_eqb (key x) k) eqn:Hx; [|reflexivity].
  destruct (key_eqb (key y) k) eqn:Hy; [|reflexivity].
  apply key_eqb_eq in Hx, Hy. rewrite Hx, Hy, key_lt_irrefl in Hlt. discriminate.
Qed.

Lemma sort_desc_stable k l :
  filter (fun y => key_eqb (key y) k) (sort_desc key l)
  = filter (fun y => key_eqb (key y) k) l.
Proof.
  induction l as [|x l IH]; [reflexivity|].
  simpl sort_desc. rewrite insert_desc_stable. simpl. now rewrite IH.
Qed.

Lemma sorted_precedes l a b :
  StronglySorted (descending key) l -> precedes a b l -> key_ge (key a) (key b).
Proof.
  intros Hs (i & j & Hij & Hi & Hj). revert i j Hij Hi Hj.
  induction Hs as [|y l Hs IH Hall]; intros i j Hij Hi Hj.
  - destruct i; discriminate.
  - destruct j as [|j]; [lia|]. simpl in Hj. destruct i as [|i]; simpl in Hi.
    + inversion Hi; subst y. rewrite Forall_forall in Hall. apply Hall.
      eapply nth_error_In; eauto.
    + apply (IH i j); auto. lia.
Qed.

Lemma precedes_of_greater l a b :
  StronglySorted (descending key) l -> In a l -> In b l ->
  key_lt (key b) (key a) = true -> precedes a b l.
Proof.
  intros Hs Ha Hb Hlt.
  apply In_nth_error in Ha as [i Hi]. apply In_nth_error in Hb as [j Hj].
  destruct (Nat.lt_trichotomy i j) as [Hij|[->|Hji]].
  - exists i, j. auto.
  - rewrite Hi in Hj. inversion Hj; subst. rewrite key_lt_irrefl in Hlt. discriminate.
  - assert (Hge : key_ge (key b) (key a)) by (eapply sorted_precedes; eauto; exists j, i; auto).
    unfold key_ge in Hge. congruence.
Qed.
End SortFacts.

(** Sorting by keys computed beforehand is sorting by the key function. *)
Lemma sort_with_keys_map {A} (key : A -> sort_key_t) (l : list A) :
  sort_with_keys (map key l) l = sort_desc key l.
Proof.
  unfold sort_with_keys.
  assert (Hins : forall x dl,
             Forall (fun p => fst p = key (snd p)) dl ->
             map snd (insert_desc fst (key x, x) dl) = insert_desc key x (map snd dl)
             /\ Forall (fun p => fst p = key (snd p)) (insert_desc fst (key x, x) dl)).
  { intros x dl. induction 1 as [|[k y] dl Hk Hall [IH1 IH2]]; simpl.
    - split; [reflexivity | repeat constructor].
    - simpl in Hk. subst k. destruct (key_lt (key x) (key y)); simpl.
      + split; [now rewrite IH1 | now constructor].
      + split; [reflexivity | repeat constructor; assumption]. }
  assert (Hall : map snd (sort_desc fst (combine (map key l) l)) = sort_desc key l
                 /\ Forall (fun p => fst p = key (snd p))
                      (sort_desc fst (combine (map key l) l))).
  { induction l as [|x l [IH1 IH2]]; simpl; [split; [reflexivity|constructor]|].
    destruct (Hins x _ IH2) as [H1 H2]. split; [|assumption]. now rewrite H1, IH1. }
  apply Hall.
Qed.

Lemma key_field_num x field n : key_field x field = Ok n -> field_num x field = n.
Proof.
  unfold key_field, field_num. destruct (Py.num _); intros H; inversion H; reflexivity.
Qed.

Lemma sort_key_key_of x k : sort_key x = Ok k -> k = key_of x.
Proof.
  unfold sort_key, key_of. intros H.
  apply rbind_ok in H as (s & Hs & H). apply rbind_ok in H as (a & Ha & H).
  apply rbind_ok in H as (b & Hb & H). inversion H.
  now rewrite (key_field_num _ _ _ Hs), (key_field_num _ _ _ Ha), (key_field_num _ _ _ Hb).
Qed.

Lemma rmapM_sort_key l ks : rmapM sort_key l = Ok ks -> ks = map key_of l.
Proof.
  revert ks. induction l as [|x l IH]; simpl; intros ks H.
  - now inversion H.
  - apply rbind_ok in H as (k & Hk & H). apply rbind_ok in H as (ks' & Hks & H).
    inversion H. now rewrite (sort_key_key_of _ _ Hk), (IH _ Hks).
Qed.

Lemma interesting_forks_sorted results interesting :
  interesting_forks results = Ok interesting ->
  interesting = sort_desc key_of (filter is_interesting results).
Proof.
  unfold interesting_forks. intros H. apply rbind_ok in H as (ks & Hks & H).
  inversion H. rewrite (rmapM_sort_key _ _ Hks). apply sort_with_keys_map.
Qed.

Lemma precedes_firstn {A} n (a b : A) l : precedes a b (firstn n l) -> precedes a b l.
Proof.
  intros (i & j & Hij & Hi & Hj). exists i, j. split; [assumption|].
  assert (Hpre : forall k x, nth_error (firstn n l) k = Some x -> nth_error l k = Some x).
  { clear. revert l. induction n as [|n IH]; intros l k x H.
    - destruct k; discriminate.
    - destruct l as [|y l]; [destruct k; discriminate|].
      destruct k as [|k]; simpl in *; auto. }
  auto.
Qed.

Lemma StronglySorted_firstn {A} (R : A -> A -> Prop) n l :
  StronglySorted R l -> StronglySorted R (firstn n l).
Proof.
  intros Hs. revert n. induction Hs as [|x l Hs IH Hall]; intros n.
  - rewrite firstn_nil. constructor.
  - destruct n as [|n]; simpl; constructor; [apply IH|].
    rewrite Forall_forall in *. intros y Hy. apply Hall.
    rewrite <- (firstn_skipn n l). apply in_or_app. now left.
Qed.

Ltac find_index H j :=
  repeat (destruct j as [|j]; cbn [nth_error] in H; try discriminate H).

(** C1, the claim as it stands, does not hold.  In the report of six
    interesting forks the recommendations do not have the sixth: the line
    of its url is not in the report.  In the report of two forks with
    equal keys the second is not before the first in the detail block,
    though its key is at least the key of the first. *)
Lemma listing_is_not_by_key_only :
  (exists lines,
     report_lines "2026-01-01 00:00:00" six_starred = Ok lines
     /\ ~ listed_by_key_only six_starred recommendation_url_line lines)
  /\ (exists lines,
        report_lines "2026-01-01 00:00:00" two_tied = Ok lines
        /\ ~ listed_by_key_only two_tied detail_url_line lines).
Proof.
  split.
  - eexists. split; [vm_compute; reflexivity|].
    intros [Hall _]. specialize (Hall (starred "f" 1)).
    assert (Hin : In (starred "f" 1) six_starred) by (simpl; auto 10).
    specialize (Hall Hin eq_refl). vm_compute in Hall.
    repeat (destruct Hall as [Hall|Hall]; [discriminate Hall|]). exact Hall.
  - eexists. split; [vm_compute; reflexivity|].
    intros [_ Hord].
    assert (Hpre : key_ge (key_of (starred "b" 1)) (key_of (starred "a" 1)))
      by reflexivity.
    apply Hord in Hpre;
      [| right; left; reflexivity | left; reflexivity | reflexivity | reflexivity
       | discriminate].
    destruct Hpre as (i & j & Hij & Hi & Hj).
    vm_compute in Hi, Hj.
    find_index Hj j. find_index Hi i. lia.
Qed.

Lemma each_numbered_blocks entry i l lines :
  each_numbered entry i l = Ok lines ->
  exists blocks,
    Forall2 (fun p block => entry (fst p) (snd p) = Ok block)
      (combine (seq i (List.length l)) l) blocks
    /\ lines = List.concat blocks.
Proof.
  revert i lines. induction l as [|r l IH]; intros i lines H.
  - inversion H. exists []. split; [constructor | reflexivity].
  - cbn [each_numbered] in H.
    apply rbind_ok in H as (block & Hb & H). apply rbind_ok in H as (rest & Hr & H).
    destruct (IH _ _ Hr) as (blocks & Hall & ->).
    exists (block :: blocks). split; [constructor; assumption|].
    inversion H. reflexivity.
Qed.

(** C1, amended.  The list [interesting] after line 138 holds exactly the
    records whose [interesting] is true, sorted by a stable descending
    sort on (stars, ahead_by, branch_count): a record that stands before
    another has a key at least the other's; of two records the one with
    the strictly greater key stands first; records whose keys are equal
    stand in the order of the input.  The report that is returned is the
    header, the summary, the detail block and the recommendations, where
    the detail block is made of the entries of the first 20 records of
    [interesting], in that order and numbered from 1, and the
    recommendations of the entries of its first 5. *)
Theorem interesting_forks_listing (results interesting : list record) :
  interesting_forks results = Ok interesting ->
  Permutation interesting (filter is_interesting results)
  /\ (forall n a b, precedes a b (firstn n interesting) ->
                    key_ge (key_of a) (key_of b))
  /\ (forall n a b,
        In a (firstn n interesting) -> In b (firstn n interesting) ->
        key_lt (key_of b) (key_of a) = true ->
        precedes a b (firstn n interesting))
  /\ (forall k,
        filter (fun r => key_eqb (key_of r) k) interesting
        = filter (fun r => key_eqb (key_of r) k) (filter is_interesting results))
  /\ (forall clock lines,
        report_lines clock results = Ok lines ->
        exists summary details recs,
          summary_lines (List.length results) interesting = Ok summary
          /\ blocks_of detail_entry (firstn 20 interesting) details
          /\ blocks_of recommendation_entry (firstn 5 interesting) recs
          /\ lines
             = ["# 1code Fork Analysis Report"; "Generated: " ^^ clock; ""]
               ++ summary
               ++ match interesting with
                  | [] => []
                  | _ => "## Most Interesting Forks" :: "" :: List.concat details
                  end
               ++ "## Recommendations" :: ""
                  :: match interesting with
                     | [] => []
                     | _ => "### Top 5 Forks to Review:" :: List.concat recs
                     end).
Proof.
  intros H. pose proof (interesting_forks_sorted _ _ H) as Hsorted.
  split; [subst interesting; apply sort_desc_perm|].
  split.
  { subst interesting. intros n a b Hp.
    eapply (sorted_precedes key_of); [apply sort_desc_sorted|].
    eapply precedes_firstn; eauto. }
  split.
  { subst interesting. intros n a b Ha Hb Hlt. apply (precedes_of_greater key_of); auto.
    apply StronglySorted_firstn. apply sort_desc_sorted. }
  split; [subst interesting; intros k; apply sort_desc_stable|].
  clear Hsorted. intros clock lines Hl.
  unfold report_lines in Hl. rewrite H in Hl. cbn [rbind] in Hl. unfold render in Hl.
  apply rbind_ok in Hl as (summary & Hs & Hl).
  apply rbind_ok in Hl as (detail & Hd & Hl).
  apply rbind_ok in Hl as (rec & Hr & Hl).
  exists summary. unfold blocks_of.
  destruct interesting as [|r0 rest].
  - exists [], []. split; [exact Hs|]. split; [constructor|]. split; [constructor|].
    cbn [detail_lines] in Hd. cbn [recommendation_lines top_forks firstn] in Hr.
    injection Hd as <-. injection Hr as <-. injection Hl as <-. reflexivity.
  - unfold detail_lines in Hd. apply rbind_ok in Hd as (entries & He & Hd).
    unfold recommendation_lines, top_forks in Hr.
    change (firstn 5 (r0 :: rest)) with (r0 :: firstn 4 rest) in Hr.
    cbv beta iota in Hr. apply rbind_ok in Hr as (rentries & Hre & Hr).
    destruct (each_numbered_blocks _ _ _ _ He) as (details & Hdet & ->).
    destruct (each_numbered_blocks _ _ _ _ Hre) as (recs & Hrec & ->).
    exists details, recs. split; [exact Hs|]. split; [exact Hdet|].
    split; [exact Hrec|].
    injection Hd as <-. injection Hr as <-. injection Hl as <-. reflexivity.
Qed.

(** ** Strings *)

Lemma append_assoc (a b c : string) : (a ^^ b) ^^ c = a ^^ b ^^ c.
Proof. induction a as [|x a IH]; simpl; [reflexivity | now rewrite IH]. Qed.

Lemma prefix_iff k s : String.prefix k s = true <-> exists after, s = k ^^ after.
Proof.
  revert s. induction k as [|x k IH]; intros s.
  - destruct s; simpl; split; eauto.
  - destruct s as [|y s]; simpl.
    + split; [discriminate | intros [after H]; discriminate].
    + destruct (ascii_dec x y) as [->|Hne].
      * rewrite IH. split; intros [after H]; exists after; [now rewrite H | now inversion H].
      * split; [discriminate | intros [after H]; inversion H; congruence].
Qed.

Lemma contains_iff k s :
  Str.contains k s = true <-> exists before after, s = before ^^ k ^^ after.
Proof.
  induction s as [|y s IH].
  - cbn [Str.contains]. destruct (String.prefix k "") eqn:Hp.
    + split; [|reflexivity]. intros _. apply prefix_iff in Hp as [after H].
      exists "", after. exact H.
    + split; [discriminate|]. intros (before & after & H).
      destruct before; [|discriminate]. simpl in H.
      assert (String.prefix k "" = true) by (apply prefix_iff; eauto). congruence.
  - cbn [Str.contains]. destruct (String.prefix k (String y s)) eqn:Hp.
    + split; [|reflexivity]. intros _. apply prefix_iff in Hp as [after H].
      exists "", after. exact H.
    + rewrite IH. split.
      * intros (before & after & ->). now exists (String y before), after.
      * intros (before & after & H). destruct before as [|x before].
        -- simpl in H. assert (String.prefix k (String y s) = true)
             by (apply prefix_iff; eauto). congruence.
        -- inversion H. eauto.
Qed.

Lemma take_length n s : Str.len (Str.take n s) = Nat.min n (Str.len s).
Proof.
  revert n. induction s as [|c s IH]; intros n; simpl.
  - now rewrite Nat.min_0_r.
  - destruct (Str.is_continuation c) eqn:Hc; simpl; rewrite ?Hc; [apply IH|].
    destruct n as [|n]; simpl; rewrite ?Hc; [reflexivity|]. now rewrite IH.
Qed.

Lemma take_prefix n s :
  exists rest, s = Str.take n s ^^ rest /\ whole rest.
Proof.
  revert n. induction s as [|c s IH]; intros n; simpl.
  - exists "". split; [reflexivity | exact I].
  - destruct (Str.is_continuation c) eqn:Hc.
    + destruct (IH n) as (rest & H & Hw). exists rest. simpl. now rewrite <- H.
    + destruct n as [|n].
      * exists (String c s). split; [reflexivity | exact Hc].
      * destruct (IH n) as (rest & H & Hw). exists rest. simpl. now rewrite <- H.
Qed.

(** The text before the first line feed: it has none, and what follows
    it in the message, if anything, starts with one. *)
Lemma first_line_spec s :
  (forall before after, Str.first_line s <> before ^^ Str.nl ^^ after)
  /\ (s = Str.first_line s \/ exists rest, s = Str.first_line s ^^ Str.nl ^^ rest).
Proof.
  induction s as [|c s [IH1 IH2]].
  - split; [|now left]. intros [|x before] after; discriminate.
  - cbn [Str.first_line]. destruct (Ascii.eqb_spec c (ascii_of_nat 10)) as [->|Hne].
    + split; [|right; now exists s]. intros [|x before] after; discriminate.
    + split.
      * intros [|x before] after H.
        -- inversion H. apply Hne. assumption.
        -- inversion H. apply (IH1 before after). assumption.
      * destruct IH2 as [IH2|[rest IH2]]; [left | right; exists rest];
          cbn [String.append]; now rewrite <- IH2.
Qed.

(** ** The commit filter *)

Lemma mentions_keyword_iff lowered :
  mentions_keyword lowered = true <->
  exists keyword before after,
    In keyword keywords /\ lowered = before ^^ keyword ^^ after.
Proof.
  unfold mentions_keyword. rewrite existsb_exists. split.
  - intros (k & Hin & Hc). apply contains_iff in Hc as (before & after & H).
    exists k, before, after. auto.
  - intros (k & before & after & Hin & H). exists k. split; [assumption|].
    apply contains_iff. eauto.
Qed.

Lemma unique_commits_of_strings commits :
  unique_commits_of (map PStr commits) = Ok (filter kept commits).
Proof.
  induction commits as [|c commits IH]; [reflexivity|].
  simpl. rewrite IH. simpl. unfold kept.
  destruct (mentions_keyword (Str.lower c)); reflexivity.
Qed.

Lemma commit_lines_strings fork commits :
  Py.dict_get "recent_commits" fork = Some (PList (map PStr commits)) ->
  commit_lines fork = Ok (shown_commits (filter kept commits)).
Proof.
  intros H. unfold commit_lines, Py.get, Py.item. rewrite H.
  destruct commits as [|c commits]; [reflexivity|].
  assert (Ht : Py.truthy (PList (map PStr (c :: commits))) = true) by reflexivity.
  rewrite Ht. cbn [rbind Py.iter]. rewrite unique_commits_of_strings.
  unfold shown_commits. cbn [rbind].
  destruct (filter kept (c :: commits)); reflexivity.
Qed.

Lemma detail_entry_commits i fork lines :
  detail_entry i fork = Ok lines ->
  exists commits before after,
    commit_lines fork = Ok commits /\ lines = before ++ commits ++ after.
Proof.
  unfold detail_entry. intros H.
  apply rbind_ok in H as (owner & _ & H). apply rbind_ok in H as (url & _ & H).
  apply rbind_ok in H as (d & _ & H). apply rbind_ok in H as (br & _ & H).
  apply rbind_ok in H as (ah & _ & H). apply rbind_ok in H as (be & _ & H).
  apply rbind_ok in H as (commits & Hc & H). apply rbind_ok in H as (worth & _ & H).
  injection H as <-. exists commits.
  match goal with
  | |- exists before after, _ /\ ?a :: ?b :: ?c :: _ ++ _ ++ _ ++ _ ++ _ ++ ?t = _ =>
      exists (a :: b :: c :: d ++ br ++ ah ++ be), t
  end.
  split; [exact Hc|]. rewrite <- !app_comm_cons, <- !app_assoc. reflexivity.
Qed.

(** C5.  For a fork whose [recent_commits] is a list of lines, the detail
    block shows the lines that stay after the filter: a line is dropped
    exactly when its lowercased text contains "merge", "upstream" or
    "sync", wherever it stands in the list and whatever its casing in the
    original; of the lines that stay the first 3 at most are shown, each
    cut to its first 80 characters: what is shown of a line has 80
    characters, or all of them if the line has fewer, it is the beginning
    of the line, and the cut falls between two characters. *)
Theorem unique_commits_shown (fork : record) (commits : list string) :
  Py.dict_get "recent_commits" fork = Some (PList (map PStr commits)) ->
  commit_lines fork = Ok (shown_commits (filter kept commits))
  /\ (forall i lines, detail_entry i fork = Ok lines ->
        exists before after,
          lines = before ++ shown_commits (filter kept commits) ++ after)
  /\ (forall c, kept c = false <->
        exists keyword before after,
          In keyword ["merge"; "upstream"; "sync"]
          /\ Str.lower c = before ^^ keyword ^^ after)
  /\ (forall c, In c (filter kept commits) <-> In c commits /\ kept c = true)
  /\ List.length (shown_commits (filter kept commits)) <= 4
  /\ (forall line, In line (shown_commits (filter kept commits)) ->
        line = "**Recent Unique Commits:**"
        \/ exists c rest,
             In c (filter kept commits)
             /\ line = "  - " ^^ Str.take 80 c
             /\ Str.len (Str.take 80 c) = Nat.min 80 (Str.len c)
             /\ c = Str.take 80 c ^^ rest
             /\ whole rest)
  /\ kept "Merge" = false /\ kept "UPSTREAM" = false /\ kept "Sync" = false.
Proof.
  intros H. pose proof (commit_lines_strings _ _ H) as Hlines.
  split; [exact Hlines|]. split.
  { intros i lines Hd. apply detail_entry_commits in Hd as (cs & before & after & Hc & ->).
    rewrite Hlines in Hc. inversion Hc. eauto. }
  split.
  { intros c. unfold kept. rewrite negb_false_iff. apply mentions_keyword_iff. }
  split; [intros c; apply filter_In|]. split.
  { unfold shown_commits. destruct (filter kept commits) as [|c l]; simpl; [lia|].
    rewrite length_map. destruct l as [|c1 [|c2 l]]; simpl; lia. }
  split; [|repeat split; reflexivity].
  intros line Hin. unfold shown_commits in Hin.
  destruct (filter kept commits) as [|c0 l] eqn:Hu; [contradiction|].
  destruct Hin as [<-|Hin]; [now left|]. right.
  apply in_map_iff in Hin as (c & <- & Hin).
  destruct (take_prefix 80 c) as (rest & Hrest & Hwhole).
  exists c, rest. split; [|split; [reflexivity|split; [apply take_length|split; assumption]]].
  rewrite <- (firstn_skipn 3 (c0 :: l)). apply in_or_app. now left.
Qed.

(** ** The report generator on the store *)

Lemma bind_run {A B} (m : M A) (f : A -> M B) w :
  bind m f w = match m w with
               | (Ok a, w') => f a w'
               | (Raise e, w') => (Raise e, w')
               end.
Proof. reflexivity. Qed.

Lemma mapM_load_dict_world refs w : snd (mapM load_dict refs w) = w.
Proof.
  induction refs as [|l refs IH]; [reflexivity|].
  simpl. rewrite bind_run. unfold load_dict at 1.
  destruct (nth_error (heap w) l) as [[d|x]|]; try reflexivity.
  rewrite bind_run. destruct (mapM load_dict refs w) as [[ds|e] w1]; simpl in *; now subst.
Qed.

Lemma mapM_load_dict_refers refs rs w :
  Forall2 (refers (heap w)) refs rs -> mapM load_dict refs w = (Ok rs, w).
Proof.
  induction 1 as [|l r refs rs Hl _ IH]; [reflexivity|].
  simpl. rewrite bind_run. unfold load_dict at 1. rewrite Hl.
  rewrite bind_run, IH. reflexivity.
Qed.

Lemma set_nth_last {A} (l : list A) x y : set_nth (List.length l) y (l ++ [x]) = l ++ [y].
Proof. induction l as [|z l IH]; simpl; [reflexivity | now rewrite IH]. Qed.

Lemma firstn_length_app {A} (l k : list A) : firstn (List.length l) (l ++ k) = l.
Proof. induction l as [|z l IH]; simpl; [now destruct k | now rewrite IH]. Qed.

Lemma nth_error_last {A} (l : list A) x : nth_error (l ++ [x]) (List.length l) = Some x.
Proof. induction l; simpl; auto. Qed.

(** C9.  [generate_report] leaves its argument as it found it: every
    object that the store held before the call, the list of records and
    each record among them, is the same after it.  The only objects it
    writes are the list [interesting], which it creates and sorts in
    place.  It sends no request and prints nothing. *)
Theorem generate_report_leaves_argument (E : env) (results : nat) (w : world) :
  let w' := snd (generate_report_st E results w) in
  firstn (List.length (heap w)) (heap w') = heap w
  /\ (forall l o, nth_error (heap w) l = Some o -> nth_error (heap w') l = Some o)
  /\ trace w' = trace w
  /\ reqs w' = reqs w.
Proof.
  cbv zeta.
  assert (Hpre : forall p, p = generate_report_st E results w ->
                 firstn (List.length (heap w)) (heap (snd p)) = heap w
                 /\ trace (snd p) = trace w
                 /\ reqs (snd p) = reqs w).
  { intros p Hp.
    assert (Hsame : firstn (List.length (heap w)) (heap w) = heap w) by apply firstn_all.
    unfold generate_report_st in Hp. rewrite bind_run in Hp. unfold load_list at 1 in Hp.
    destruct (nth_error (heap w) results) as [[d|refs]|];
      try (subst p; simpl; auto; fail).
    rewrite bind_run in Hp.
    pose proof (mapM_load_dict_world refs w) as Hw.
    destruct (mapM load_dict refs w) as [[records|e] w0]; simpl in Hw; subst w0;
      try (subst p; simpl; auto; fail).
    rewrite bind_run in Hp. unfold alloc at 1 in Hp.
    set (w1 := {| heap := heap w ++ [OList (interesting_refs refs records)];
                  reqs := reqs w; trace := trace w |}) in Hp.
    assert (H1 : firstn (List.length (heap w)) (heap w1) = heap w)
      by apply firstn_length_app.
    rewrite bind_run in Hp. unfold load_list at 1 in Hp.
    replace (nth_error (heap w1) (List.length (heap w)))
      with (Some (OList (interesting_refs refs records))) in Hp
      by (symmetry; apply nth_error_last).
    rewrite bind_run in Hp.
    pose proof (mapM_load_dict_world (interesting_refs refs records) w1) as Hw.
    destruct (mapM load_dict (interesting_refs refs records) w1) as [[irecords|e] w0];
      simpl in Hw; subst w0; try (subst p; simpl; auto; fail).
    rewrite bind_run in Hp. unfold lift at 1 in Hp.
    destruct (rmapM sort_key irecords) as [ks|e]; try (subst p; simpl; auto; fail).
    rewrite bind_run in Hp. unfold store at 1 in Hp. simpl heap in Hp.
    rewrite set_nth_last in Hp.
    set (w2 := {| heap := heap w ++ [OList (sort_with_keys ks (interesting_refs refs records))];
                  reqs := reqs w1; trace := trace w1 |}) in Hp.
    assert (H2 : firstn (List.length (heap w)) (heap w2) = heap w)
      by apply firstn_length_app.
    rewrite bind_run in Hp. unfold load_list at 1 in Hp.
    replace (nth_error (heap w2) (List.length (heap w)))
      with (Some (OList (sort_with_keys ks (interesting_refs refs records)))) in Hp
      by (symmetry; apply nth_error_last).
    rewrite bind_run in Hp.
    pose proof (mapM_load_dict_world (sort_with_keys ks (interesting_refs refs records)) w2) as Hw.
    destruct (mapM load_dict (sort_with_keys ks (interesting_refs refs records)) w2)
      as [[forks|e] w0]; simpl in Hw; subst w0; try (subst p; simpl; auto; fail).
    rewrite bind_run in Hp. unfold lift at 1 in Hp.
    destruct (render (now E) (List.length refs) forks); subst p; simpl; auto. }
  specialize (Hpre _ eq_refl).
  destruct Hpre as (Hpre & Ht & Hr). repeat split; auto.
  intros l o Hl. rewrite <- Hpre in Hl.
  rewrite <- (firstn_skipn (List.length (heap w)) (heap (snd (generate_report_st E results w)))).
  rewrite nth_error_app1; [assumption|].
  apply nth_error_Some. congruence.
Qed.

Lemma refers_app h k l r : refers h l r -> refers (h ++ k) l r.
Proof.
  unfold refers. intros H. rewrite nth_error_app1; [assumption|].
  apply nth_error_Some. congruence.
Qed.

Lemma interesting_refs_refers h refs rs :
  Forall2 (refers h) refs rs ->
  Forall2 (refers h) (interesting_refs refs rs) (filter is_interesting rs).
Proof.
  unfold interesting_refs.
  induction 1 as [|l r refs rs Hl _ IH]; simpl; [constructor|].
  destruct (is_interesting r); simpl; [constructor|]; assumption.
Qed.

Section SortRelated.
Context {A B : Type} (R : A -> B -> Prop).

Lemma insert_desc_related p q l k :
  related R p q -> Forall2 (related R) l k ->
  Forall2 (related R) (insert_desc fst p l) (insert_desc fst q k).
Proof.
  intros Hpq. induction 1 as [|x y l k Hxy Hlk IH]; simpl.
  - constructor; [exact Hpq | constructor].
  - destruct Hpq as [Hk Hr], Hxy as [Hk' Hr']. rewrite <- Hk, <- Hk'.
    destruct (key_lt (fst p) (fst x)).
    + constructor; [split; assumption | exact IH].
    + constructor; [split; assumption|].
      constructor; [split; assumption | exact Hlk].
Qed.

Lemma sort_desc_related l k :
  Forall2 (related R) l k -> Forall2 (related R) (sort_desc fst l) (sort_desc fst k).
Proof.
  induction 1; simpl; [constructor | now apply insert_desc_related].
Qed.

Lemma sort_with_keys_related ks l k :
  Forall2 R l k -> Forall2 R (sort_with_keys ks l) (sort_with_keys ks k).
Proof.
  intros H. unfold sort_with_keys.
  assert (Hc : Forall2 (related R) (combine ks l) (combine ks k)).
  { revert ks. induction H as [|x y l k Hxy _ IH]; intros [|key ks]; simpl;
      constructor; [split; [reflexivity | assumption] | apply IH]. }
  apply sort_desc_related in Hc.
  induction Hc as [|p q l' k' [_ Hr] _ IH]; simpl; constructor; assumption.
Qed.
End SortRelated.

(** On a store where [results] holds the records [rs], the call returns
    what [generate_report] gives for [rs] as values. *)
Lemma generate_report_st_value E results w rs :
  records_at (heap w) results rs ->
  fst (generate_report_st E results w) = generate_report (now E) rs.
Proof.
  intros (refs & Hlist & Hrefs).
  unfold generate_report_st. rewrite bind_run. unfold load_list at 1. rewrite Hlist.
  rewrite bind_run, (mapM_load_dict_refers _ _ _ Hrefs).
  rewrite bind_run. unfold alloc at 1.
  set (w1 := {| heap := heap w ++ [OList (interesting_refs refs rs)];
                reqs := reqs w; trace := trace w |}).
  rewrite bind_run. unfold load_list at 1.
  replace (nth_error (heap w1) (List.length (heap w)))
    with (Some (OList (interesting_refs refs rs))) by (symmetry; apply nth_error_last).
  assert (H1 : Forall2 (refers (heap w1)) (interesting_refs refs rs)
                 (filter is_interesting rs)).
  { eapply Forall2_impl; [|apply interesting_refs_refers; exact Hrefs].
    intros l r. apply refers_app. }
  rewrite bind_run, (mapM_load_dict_refers _ _ _ H1).
  rewrite bind_run. unfold lift at 1.
  unfold generate_report, report_lines, interesting_forks.
  destruct (rmapM sort_key (filter is_interesting rs)) as [ks|e]; [|reflexivity].
  rewrite bind_run. unfold store at 1. simpl heap. rewrite set_nth_last.
  set (w2 := {| heap := heap w ++ [OList (sort_with_keys ks (interesting_refs refs rs))];
                reqs := reqs w1; trace := trace w1 |}).
  rewrite bind_run. unfold load_list at 1.
  replace (nth_error (heap w2) (List.length (heap w)))
    with (Some (OList (sort_with_keys ks (interesting_refs refs rs))))
    by (symmetry; apply nth_error_last).
  assert (H2 : Forall2 (refers (heap w2)) (sort_with_keys ks (interesting_refs refs rs))
                 (sort_with_keys ks (filter is_interesting rs))).
  { apply sort_with_keys_related.
    eapply Forall2_impl; [|apply interesting_refs_refers; exact Hrefs].
    intros l r. apply refers_app. }
  rewrite bind_run, (mapM_load_dict_refers _ _ _ H2).
  rewrite bind_run. unfold lift at 1. rewrite (Forall2_length Hrefs).
  cbn [rbind]. destruct (render _ _ _); reflexivity.
Qed.

(** C6.  The text that [generate_report] returns is decided by the records
    it is given, in their order, and by the reading of the clock, which
    enters the second line, "Generated: ...", and nothing else: two calls
    on stores that hold the same records return the same text when the
    clock reads the same, whatever else differs between the two runs, and
    otherwise their lines differ in the second line at most. *)
Theorem generate_report_deterministic
  (E1 E2 : env) (results1 results2 : nat) (w1 w2 : world) (rs : list record) :
  records_at (heap w1) results1 rs ->
  records_at (heap w2) results2 rs ->
  (now E1 = now E2 ->
   fst (generate_report_st E1 results1 w1) = fst (generate_report_st E2 results2 w2))
  /\ fst (generate_report_st E1 results1 w1)
     = rmap (Str.join Str.nl) (report_lines (now E1) rs)
  /\ fst (generate_report_st E2 results2 w2)
     = rmap (Str.join Str.nl) (report_lines (now E2) rs)
  /\ report_lines (now E1) rs
     = rmap (set_nth 1 ("Generated: " ^^ now E1)) (report_lines (now E2) rs).
Proof.
  intros H1 H2.
  rewrite (generate_report_st_value E1 _ _ _ H1), (generate_report_st_value E2 _ _ _ H2).
  repeat split; try reflexivity.
  - intros ->. reflexivity.
  - unfold report_lines. destruct (interesting_forks rs) as [interesting|e]; [|reflexivity].
    unfold render. cbn [rbind].
    destruct (summary_lines (List.length rs) interesting); [|reflexivity]. cbn [rbind].
    destruct (detail_lines interesting); [|reflexivity]. cbn [rbind].
    destruct (recommendation_lines interesting); reflexivity.
Qed.

(** ** The report on records that can be read *)

Lemma forallb_is_str l : forallb is_str l = true -> exists ss, l = map PStr ss.
Proof.
  induction l as [|v l IH]; simpl; [now exists []|].
  intros H. apply andb_true_iff in H as [Hv Hl]. destruct (IH Hl) as [ss ->].
  destruct v; try discriminate. now exists (s :: ss).
Qed.

Lemma rmapM_strings ss :
  rmapM (fun x => match x with PStr s => Ok s | _ => Raise (TypeError "join") end)
    (map PStr ss) = Ok ss.
Proof. induction ss as [|s ss IH]; simpl; [reflexivity | now rewrite IH]. Qed.

Lemma gt_number r k n :
  number_or_absent r k = true -> exists b, Py.gt (Py.get r k (PInt 0)) n = Ok b.
Proof. unfold number_or_absent, Py.gt. destruct (Py.num _); [eauto | discriminate]. Qed.

Lemma ge_number r k n :
  number_or_absent r k = true -> exists b, Py.ge (Py.get r k (PInt 0)) n = Ok b.
Proof. unfold number_or_absent, Py.ge. destruct (Py.num _); [eauto | discriminate]. Qed.

Lemma gt_true_present r k :
  Py.gt (Py.get r k (PInt 0)) 0 = Ok true ->
  (exists v, Py.item r k = Ok v) /\ (0 <? field_num r k)%Z = true.
Proof.
  unfold Py.gt, Py.get, Py.item, field_num, Py.get.
  destruct (Py.dict_get k r) as [v|]; simpl.
  - destruct (Py.num v); intros H; inversion H. eauto.
  - intros H. inversion H.
Qed.

Lemma has_key_item r k : has_key r k = true -> exists v, Py.item r k = Ok v.
Proof. unfold has_key, Py.item. destruct (Py.dict_get k r); [eauto | discriminate]. Qed.

Lemma when_positive_ok r k line :
  number_or_absent r k = true ->
  (Py.gt (Py.get r k (PInt 0)) 0 = Ok true -> exists l, line = Ok l) ->
  exists ls, when_positive r k line = Ok ls.
Proof.
  intros Hn Hline. unfold when_positive.
  destruct (gt_number r k 0 Hn) as [[|] Hb]; rewrite Hb; cbn [rbind]; [|eauto].
  destruct (Hline Hb) as [l ->]. cbn [rbind]. eauto.
Qed.

Lemma commit_lines_ok r :
  strings_or_absent r "recent_commits" = true -> exists ls, commit_lines r = Ok ls.
Proof.
  unfold strings_or_absent. intros H.
  destruct (Py.dict_get "recent_commits" r) as [v|] eqn:Hg.
  - destruct v; try discriminate. apply forallb_is_str in H as [ss ->].
    rewrite (commit_lines_strings _ _ Hg). eauto.
  - unfold commit_lines, Py.get. rewrite Hg. simpl. eauto.
Qed.

Lemma worth_investigating_ok r :
  number_or_absent r "stars" = true -> number_or_absent r "ahead_by" = true ->
  number_or_absent r "branch_count" = true ->
  exists b, worth_investigating r = Ok b.
Proof.
  intros Hs Ha Hb. unfold worth_investigating.
  destruct (ge_number r "stars" 5 Hs) as [[|] ->]; cbn [rbind]; [eauto|].
  destruct (ge_number r "ahead_by" 5 Ha) as [[|] ->]; cbn [rbind]; [eauto|].
  apply ge_number. assumption.
Qed.

Lemma readable_facts r :
  readable r = true ->
  has_key r "owner" = true /\ has_key r "url" = true
  /\ number_or_absent r "stars" = true /\ number_or_absent r "ahead_by" = true
  /\ number_or_absent r "behind_by" = true /\ number_or_absent r "branch_count" = true
  /\ strings_or_absent r "custom_branches" = true
  /\ strings_or_absent r "recent_commits" = true
  /\ (has_key r "custom_branches" || negb (0 <? field_num r "branch_count")%Z) = true.
Proof. unfold readable. rewrite !andb_true_iff. tauto. Qed.

Lemma detail_entry_ok i r : readable r = true -> exists ls, detail_entry i r = Ok ls.
Proof.
  intros H. apply readable_facts in H as (Ho & Hu & Hs & Ha & Hb & Hc & Hcb & Hrc & Hbr).
  unfold detail_entry.
  destruct (has_key_item _ _ Ho) as [owner ->]. cbn [rbind].
  destruct (has_key_item _ _ Hu) as [url ->]. cbn [rbind].
  assert (Hd : exists d, (if Py.truthy (Py.get r "description" PNone)
                          then (d <- Py.item r "description" ;;
                                Ok ["**Description:** " ^^ Py.str d])%res
                          else Ok []) = Ok d).
  { unfold Py.get, Py.item. destruct (Py.dict_get "description" r); simpl.
    - destruct (Py.truthy p); eauto.
    - eauto. }
  destruct Hd as [d ->]. cbn [rbind].
  match goal with |- context [when_positive r "branch_count" ?line] =>
    destruct (when_positive_ok r "branch_count" line Hc) as [br ->] end.
  { intros Hpos. apply gt_true_present in Hpos as [_ Hpos].
    rewrite Hpos in Hbr. rewrite orb_false_r in Hbr.
    unfold has_key in Hbr. unfold strings_or_absent in Hcb. unfold Py.item.
    destruct (Py.dict_get "custom_branches" r) as [v|]; [|discriminate].
    destruct v; try discriminate. apply forallb_is_str in Hcb as [ss ->].
    cbn [rbind]. unfold Py.join_of, Py.iter. cbn [rbind].
    rewrite rmapM_strings. cbn [rbind]. eauto. }
  cbn [rbind].
  match goal with |- context [when_positive r "ahead_by" ?line] =>
    destruct (when_positive_ok r "ahead_by" line Ha) as [ah ->] end.
  { intros Hpos. apply gt_true_present in Hpos as [[v ->] _]. cbn [rbind]. eauto. }
  cbn [rbind].
  match goal with |- context [when_positive r "behind_by" ?line] =>
    destruct (when_positive_ok r "behind_by" line Hb) as [be ->] end.
  { intros Hpos. apply gt_true_present in Hpos as [[v ->] _]. cbn [rbind]. eauto. }
  cbn [rbind].
  destruct (commit_lines_ok _ Hrc) as [cl ->]. cbn [rbind].
  destruct (worth_investigating_ok _ Hs Ha Hc) as [wi ->]. cbn [rbind]. eauto.
Qed.

Lemma recommendation_entry_ok i r :
  readable r = true -> exists ls, recommendation_entry i r = Ok ls.
Proof.
  intros H. apply readable_facts in H as (Ho & Hu & Hs & Ha & Hb & Hc & Hcb & Hrc & Hbr).
  unfold recommendation_entry.
  match goal with |- context [when_positive r "stars" ?line] =>
    destruct (when_positive_ok r "stars" line Hs) as [st ->] end.
  { intros Hpos. apply gt_true_present in Hpos as [[v ->] _]. cbn [rbind]. eauto. }
  cbn [rbind].
  match goal with |- context [when_positive r "ahead_by" ?line] =>
    destruct (when_positive_ok r "ahead_by" line Ha) as [ah ->] end.
  { intros Hpos. apply gt_true_present in Hpos as [[v ->] _]. cbn [rbind]. eauto. }
  cbn [rbind].
  match goal with |- context [when_positive r "branch_count" ?line] =>
    destruct (when_positive_ok r "branch_count" line Hc) as [br ->] end.
  { intros Hpos. apply gt_true_present in Hpos as [[v ->] _]. cbn [rbind]. eauto. }
  cbn [rbind].
  destruct (has_key_item _ _ Ho) as [owner ->]. cbn [rbind].
  destruct (has_key_item _ _ Hu) as [url ->]. cbn [rbind]. eauto.
Qed.

Lemma each_numbered_ok entry i l :
  (forall i r, readable r = true -> exists ls, entry i r = Ok ls) ->
  Forall (fun r => readable r = true) l ->
  exists ls, each_numbered entry i l = Ok ls.
Proof.
  intros Hentry Hall. revert i. induction Hall as [|r l Hr _ IH]; intros i; simpl; [eauto|].
  destruct (Hentry i r Hr) as [ls ->]. cbn [rbind].
  destruct (IH (S i)) as [rest ->]. cbn [rbind]. eauto.
Qed.

Lemma count_positive_ok k l :
  Forall (fun r => number_or_absent r k = true) l -> exists n, count_positive k l = Ok n.
Proof.
  induction 1 as [|r l Hr _ [n IH]]; simpl; [eauto|].
  destruct (gt_number r k 0 Hr) as [b ->]. cbn [rbind]. rewrite IH. cbn [rbind]. eauto.
Qed.

Lemma sort_key_ok r : readable r = true -> exists k, sort_key r = Ok k.
Proof.
  intros H. apply readable_facts in H as (_ & _ & Hs & Ha & _ & Hc & _).
  unfold sort_key, key_field. unfold number_or_absent in *.
  destruct (Py.num (Py.get r "stars" (PInt 0))); [|discriminate].
  destruct (Py.num (Py.get r "ahead_by" (PInt 0))); [|discriminate].
  destruct (Py.num (Py.get r "branch_count" (PInt 0))); [|discriminate].
  cbn [rbind]. eauto.
Qed.

Lemma rmapM_ok {A B} (f : A -> outcome B) (P : A -> Prop) l :
  (forall x, P x -> exists y, f x = Ok y) -> Forall P l -> exists ys, rmapM f l = Ok ys.
Proof.
  intros Hf. induction 1 as [|x l Hx _ [ys IH]]; simpl; [eauto|].
  destruct (Hf x Hx) as [y ->]. cbn [rbind]. rewrite IH. cbn [rbind]. eauto.
Qed.

Lemma interesting_readable results :
  Forall (fun r => report_ready r = true) results ->
  Forall (fun r => readable r = true) (filter is_interesting results).
Proof.
  intros H. apply Forall_forall. intros r Hin. apply filter_In in Hin as [Hin Hi].
  rewrite Forall_forall in H. specialize (H r Hin). unfold report_ready in H.
  rewrite Hi in H. exact H.
Qed.

Lemma interesting_forks_ok results :
  Forall (fun r => report_ready r = true) results ->
  exists interesting,
    interesting_forks results = Ok interesting
    /\ Forall (fun r => readable r = true) interesting
    /\ (interesting = [] <-> filter is_interesting results = []).
Proof.
  intros H. apply interesting_readable in H.
  destruct (rmapM_ok sort_key _ _ sort_key_ok H) as [ks Hks].
  assert (Hi : interesting_forks results
               = Ok (sort_with_keys ks (filter is_interesting results)))
    by (unfold interesting_forks; now rewrite Hks).
  eexists. split; [exact Hi|].
  pose proof (interesting_forks_sorted _ _ Hi) as Hs. rewrite Hs.
  pose proof (sort_desc_perm key_of (filter is_interesting results)) as Hp.
  split.
  - eapply Permutation_Forall; [symmetry; exact Hp | exact H].
  - split; intros Hnil.
    + rewrite Hnil in Hp. now apply Permutation_nil.
    + rewrite Hnil. reflexivity.
Qed.

Lemma some_interesting results :
  filter is_interesting results <> [] <->
  exists r, In r results /\ is_interesting r = true.
Proof.
  split.
  - destruct (filter is_interesting results) as [|r l] eqn:Hf; [congruence|].
    intros _. exists r. apply filter_In. rewrite Hf. now left.
  - intros (r & Hr) Hnil. apply filter_In in Hr. rewrite Hnil in Hr. contradiction.
Qed.

Lemma Forall_firstn {A} (P : A -> Prop) n l : Forall P l -> Forall P (firstn n l).
Proof.
  intros H. apply Forall_forall. intros x Hx. rewrite Forall_forall in H. apply H.
  rewrite <- (firstn_skipn n l). apply in_or_app. now left.
Qed.

Lemma summary_lines_ok total interesting :
  Forall (fun r => readable r = true) interesting ->
  exists a b c,
    summary_lines total interesting
    = Ok ["## Summary";
          "- Total forks analyzed: " ^^ Str.of_nat total;
          "- Interesting forks: " ^^ Str.of_nat (List.length interesting);
          "- Forks with custom branches: " ^^ Str.of_nat a;
          "- Forks ahead of upstream: " ^^ Str.of_nat b;
          "- Forked repos with stars: " ^^ Str.of_nat c;
          ""].
Proof.
  intros H. unfold summary_lines.
  destruct (count_positive_ok "branch_count" interesting) as [a ->].
  { eapply Forall_impl; [|exact H]. intros r Hr. now apply readable_facts in Hr. }
  destruct (count_positive_ok "ahead_by" interesting) as [b ->].
  { eapply Forall_impl; [|exact H]. intros r Hr. now apply readable_facts in Hr. }
  destruct (count_positive_ok "stars" interesting) as [c ->].
  { eapply Forall_impl; [|exact H]. intros r Hr. now apply readable_facts in Hr. }
  cbn [rbind]. eauto.
Qed.

(** C10.  For every list of records, the empty one among them, in which
    each interesting record is a record of the data model (owner and url
    present, numbers in its counts, lists of lines in its branches and
    commits), [generate_report] returns; its first line is the title, and
    the "## Summary" block and the "## Recommendations" heading are in it;
    the "## Most Interesting Forks" heading and the
    "### Top 5 Forks to Review:" heading are in it exactly when some
    record of the input is interesting. *)
Theorem report_sections (clock : string) (results : list record) :
  Forall (fun r => report_ready r = true) results ->
  exists lines,
    report_lines clock results = Ok lines
    /\ generate_report clock results = Ok (Str.join Str.nl lines)
    /\ nth_error lines 0 = Some "# 1code Fork Analysis Report"
    /\ (exists a b c,
          firstn 7 (skipn 3 lines)
          = ["## Summary";
             "- Total forks analyzed: " ^^ Str.of_nat (List.length results);
             "- Interesting forks: "
               ^^ Str.of_nat (List.length (filter is_interesting results));
             "- Forks with custom branches: " ^^ Str.of_nat a;
             "- Forks ahead of upstream: " ^^ Str.of_nat b;
             "- Forked repos with stars: " ^^ Str.of_nat c;
             ""])
    /\ In "## Recommendations" lines
    /\ (In "## Most Interesting Forks" lines <->
        exists r, In r results /\ is_interesting r = true)
    /\ (In "### Top 5 Forks to Review:" lines <->
        exists r, In r results /\ is_interesting r = true).
Proof.
  intros Hready.
  destruct (interesting_forks_ok results Hready) as (I & HI & Hall & Hnil).
  assert (Hlen : List.length I = List.length (filter is_interesting results)).
  { rewrite (interesting_forks_sorted _ _ HI).
    apply Permutation_length, sort_desc_perm. }
  destruct (summary_lines_ok (List.length results) I Hall) as (a & b & c & Hsum).
  rewrite Hlen in Hsum.
  unfold generate_report, report_lines. rewrite HI. cbn [rbind]. unfold render.
  rewrite Hsum. cbn [rbind].
  destruct I as [|r I].
  - assert (Hf : filter is_interesting results = []) by now apply Hnil.
    rewrite Hf. simpl. eexists. split; [reflexivity|]. split; [reflexivity|].
    split; [reflexivity|]. split; [exists a, b, c; reflexivity|].
    split; [simpl; auto 20|].
    split; (eapply iff_trans; [|apply some_interesting]; split; [|congruence]);
      intros Hin; exfalso; simpl in Hin;
      repeat (destruct Hin as [Hin|Hin]; [discriminate Hin|]); exact Hin.
  - assert (Hf : filter is_interesting results <> []).
    { intros Hf. apply Hnil in Hf. discriminate. }
    unfold detail_lines, recommendation_lines, top_forks.
    destruct (each_numbered_ok detail_entry 1 (firstn 20 (r :: I)) detail_entry_ok)
      as [entries ->]; [now apply Forall_firstn|].
    cbn [rbind].
    assert (Htop : exists r' l', firstn 5 (r :: I) = r' :: l') by (simpl; eauto).
    destruct Htop as (r' & l' & Htop).
    destruct (each_numbered_ok recommendation_entry 1 (firstn 5 (r :: I))
                recommendation_entry_ok) as [recs Hrecs]; [now apply Forall_firstn|].
    rewrite Htop in *. rewrite Hrecs. cbn [rbind rmap].
    eexists. split; [reflexivity|]. split; [reflexivity|].
    split; [reflexivity|]. split; [exists a, b, c; reflexivity|].
    split; [rewrite ?in_app_iff; cbn [In]; auto 30|].
    split; (eapply iff_trans; [|apply some_interesting];
            split; [intros _; exact Hf | intros _]).
    + rewrite ?in_app_iff; cbn [In]; auto 30.
    + rewrite ?in_app_iff; cbn [In]; auto 30.
Qed.

(** ** The driver *)

(** C7.  The console list is not the report's list.  [main] filters the
    results again for the console and does not sort them (line 240), while
    [generate_report] sorts its own list (line 138): when the first owner
    has one star and the second has two, the report recommends pichimail
    first and MorpheusEMH second, and the console prints MorpheusEMH first
    and pichimail second. *)
Theorem console_summary_is_not_sorted :
  let run := main two_forks initial in
  fst run = Ok tt
  /\ match written (trace (snd run)) with
     | Some report =>
         Str.contains ("1. **pichimail** - 2 stars" ^^ Str.nl
                         ^^ "   https://github.com/pichimail/1code" ^^ Str.nl
                         ^^ "2. **MorpheusEMH** - 1 stars") report
     | None => false
     end = true
  /\ skipn 214 (printed (trace (snd run)))
     = [Str.nl ^^ "Top 5 Most Interesting:" ^^ Str.nl;
        "1. MorpheusEMH (https://github.com/MorpheusEMH/1code)" ^^ Str.nl;
        "   ⭐ 1 stars" ^^ Str.nl;
        "2. pichimail (https://github.com/pichimail/1code)" ^^ Str.nl;
        "   ⭐ 2 stars" ^^ Str.nl].
Proof.
  cbv zeta. repeat split; vm_compute; reflexivity.
Qed.

(** ** The theorems at concrete inputs *)

Lemma fetch_github_api_retries_once_witness :
  fst (fetch_github_api limited_once (repo_url "a") initial) = Ok (PDict [])
  /\ gets (trace (snd (fetch_github_api limited_once (repo_url "a") initial))) = 2.
Proof.
  destruct (fetch_github_api_retries_once limited_once (repo_url "a") initial)
    as (_ & _ & H).
  destruct (H {| status_code := 403; text := "rate limit"; json := None |}
              eq_refl eq_refl) as [Ht H2].
  destruct (H2 {| status_code := 200; text := "{}"; json := Some (PDict []) |} eq_refl)
    as [Hok _].
  split.
  - apply Hok; [simpl; lia | reflexivity].
  - rewrite Ht. reflexivity.
Defined.

Lemma error_record_is_only_counted_witness :
  fst (analyze_fork two_forks "nobody" initial)
  = Ok (error_record "nobody" "404 Client Error")
  /\ (forall lines,
        report_lines "now" [starred "a" 1; error_record "nobody" "404 Client Error"]
        = Ok lines ->
        nth_error lines 4 = Some "- Total forks analyzed: 2")
  /\ interesting_forks [starred "a" 1; error_record "nobody" "404 Client Error"]
     = interesting_forks [starred "a" 1].
Proof.
  assert (H : fetch_github_api two_forks (repo_url "nobody")
                (snd (print_noend ("Analyzing " ^^ "nobody" ^^ "...") initial))
              = (Raise (HTTPError 404 "Not Found"),
                 snd (fetch_github_api two_forks (repo_url "nobody")
                        (snd (print_noend ("Analyzing " ^^ "nobody" ^^ "...") initial)))))
    by (vm_compute; reflexivity).
  pose proof (error_record_is_only_counted two_forks "nobody" initial _ _ H) as Hc.
  cbv zeta in Hc. destruct Hc as (Hr & _ & _ & _ & Hl & _).
  split; [exact Hr|].
  destruct (Hl "now" [starred "a" 1] []) as (Hi & _ & Hn & _).
  split; [|exact Hi].
  intros lines Hlines. exact (proj1 (Hn lines Hlines)).
Defined.

Lemma interesting_forks_listing_witness :
  interesting_forks six_starred = Ok six_starred
  /\ key_ge (key_of (starred "a" 6)) (key_of (starred "b" 5))
  /\ (forall lines,
        report_lines "2026-01-01 00:00:00" six_starred = Ok lines ->
        exists recs,
          blocks_of recommendation_entry (firstn 5 six_starred) recs
          /\ List.length recs = 5).
Proof.
  assert (H : interesting_forks six_starred = Ok six_starred) by (vm_compute; reflexivity).
  destruct (interesting_forks_listing six_starred six_starred H)
    as (_ & Hord & _ & _ & Hreport).
  split; [exact H|]. split.
  - apply (Hord 2). exists 0, 1. repeat split. lia.
  - intros lines Hl.
    destruct (Hreport _ _ Hl) as (summary & details & recs & _ & _ & Hrecs & _).
    exists recs. split; [exact Hrecs|].
    symmetry. exact (Forall2_length Hrecs).
Defined.

Lemma unique_commits_shown_witness :
  commit_lines fork_with_commits
  = Ok ["**Recent Unique Commits:**"; "  - Add feature"; "  - Fix bug"]
  /\ commit_lines fork_with_accents
     = Ok ["**Recent Unique Commits:**"; "  - " ^^ String.concat "" (repeat "é" 80)].
Proof.
  split.
  - exact (proj1 (unique_commits_shown fork_with_commits three_commits eq_refl)).
  - exact (proj1 (unique_commits_shown fork_with_accents [accented_line] eq_refl)).
Defined.

Lemma generate_report_deterministic_witness :
  fst (generate_report_st two_forks 2 store_one)
  = fst (generate_report_st two_commits 0 store_two).
Proof.
  assert (H1 : records_at (heap store_one) 2 two_tied).
  { exists [0; 1]. split; [reflexivity|]. repeat constructor. }
  assert (H2 : records_at (heap store_two) 0 two_tied).
  { exists [2; 1]. split; [reflexivity|]. repeat constructor. }
  apply (proj1 (generate_report_deterministic two_forks two_commits 2 0
                  store_one store_two two_tied H1 H2)).
  reflexivity.
Defined.

Lemma report_sections_witness :
  exists lines,
    report_lines "now" two_tied = Ok lines
    /\ In "## Recommendations" lines
    /\ In "### Top 5 Forks to Review:" lines.
Proof.
  assert (H : Forall (fun r => report_ready r = true) two_tied)
    by (repeat constructor).
  destruct (report_sections "now" two_tied H) as (lines & Hl & _ & _ & _ & Hr & _ & Ht).
  exists lines. split; [exact Hl|]. split; [exact Hr|].
  apply Ht. exists (starred "a" 1). split; [now left | reflexivity].
Defined.

Lemma analyze_fork_recent_commits_witness :
  exists r,
    fst (analyze_fork two_commits "a" initial) = Ok r
    /\ Py.dict_get "recent_commits" r = Some (PList [PStr "Add login"; PStr "Fix typo"]).
Proof.
  eexists. split; [vm_compute; reflexivity|].
  match goal with
  | |- Py.dict_get _ ?r = _ =>
      assert (Hr : fst (analyze_fork two_commits "a" initial) = Ok r)
        by (vm_compute; reflexivity)
  end.
  assert (H0 : exists r0 w0, reach_commits two_commits "a" initial = (Ok r0, w0)
               /\ fetch_github_api two_commits (commits_url "a") w0
                  = (Ok (PList (map commit_of two_messages)),
                     snd (fetch_github_api two_commits (commits_url "a") w0))).
  { eexists. eexists. split; vm_compute; reflexivity. }
  destruct H0 as (r0 & w0 & H0 & Hf).
  pose proof (analyze_fork_recent_commits two_commits "a" initial r0 w0 _ H0 Hr eq_refl)
    as H.
  rewrite Hf in H.
  apply (proj1 H (map commit_of two_messages) two_messages eq_refl).
  repeat constructor; eexists; eexists; repeat split; reflexivity.
Defined.

(** ** What the analyzer does to the world *)

Lemma gets_app t u : gets (t ++ u) = gets t + gets u.
Proof. unfold gets. now rewrite filter_app, length_app. Qed.

Lemma throttles_app t u : throttles (t ++ u) = throttles t + throttles u.
Proof. unfold throttles. now rewrite filter_app, length_app. Qed.

Lemma advances_refl w : advances 0 0 w w.
Proof.
  split; [reflexivity|]. exists []. rewrite app_nil_r. unfold gets, throttles. simpl. repeat split; lia.
Qed.

Lemma advances_trans a b c d w w1 w2 :
  advances a b w w1 -> advances c d w1 w2 -> advances (a + c) (b + d) w w2.
Proof.
  intros (Hh1 & t1 & Ht1 & Hr1 & Hg1 & Hs1) (Hh2 & t2 & Ht2 & Hr2 & Hg2 & Hs2).
  split; [congruence|]. exists (t1 ++ t2).
  rewrite gets_app, throttles_app, Ht2, Ht1, Hr2, Hr1, app_assoc.
  repeat split; lia.
Qed.

Lemma advances_weaken a b c d w w' :
  advances a b w w' -> a <= c -> b <= d -> advances c d w w'.
Proof.
  intros (Hh & t & Ht & Hr & Hg & Hs) Hac Hbd.
  split; [assumption|]. exists t. repeat split; try assumption; lia.
Qed.

Lemma bounded_weaken {A} a b c d (m : M A) :
  bounded a b m -> a <= c -> b <= d -> bounded c d m.
Proof. intros H Hac Hbd w out w' Hm. eapply advances_weaken; eauto. Qed.

Lemma bounded_ret {A} (x : A) : bounded 0 0 (ret x).
Proof. intros w out w' H. inversion H. apply advances_refl. Qed.

Lemma bounded_raise {A} e : bounded 0 0 (@raise A e).
Proof. intros w out w' H. inversion H. apply advances_refl. Qed.

Lemma bounded_lift {A} (r : outcome A) : bounded 0 0 (lift r).
Proof. intros w out w' H. inversion H. apply advances_refl. Qed.

Lemma bounded_emit e : is_get e = false -> bounded 0 (throttles [e]) (emit e).
Proof.
  intros He w out w' H. inversion H. split; [reflexivity|].
  exists [e]. unfold gets. simpl. rewrite He. simpl. repeat split; lia.
Qed.

Lemma bounded_print s : bounded 0 0 (print s).
Proof. now apply (bounded_emit (EPrint (s ^^ Str.nl))). Qed.

Lemma bounded_get E url : bounded 1 0 (get E url).
Proof.
  intros w out w' H. unfold get in H.
  assert (Hw : w' = {| heap := heap w; reqs := S (reqs w);
                       trace := trace w ++ [EGet url headers] |})
    by (destruct (requests_get E (reqs w) url); inversion H; reflexivity).
  subst w'. split; [reflexivity|]. exists [EGet url headers].
  unfold gets, throttles. simpl. repeat split; lia.
Qed.

Lemma bounded_bind {A B} a b c d (m : M A) (f : A -> M B) :
  bounded a b m -> (forall x, bounded c d (f x)) -> bounded (a + c) (b + d) (bind m f).
Proof.
  intros Hm Hf w out w' H. unfold bind in H.
  destruct (m w) as [[x|e] w1] eqn:Hmw.
  - eapply advances_trans; [eapply Hm; exact Hmw | eapply Hf; exact H].
  - inversion H; subst. eapply advances_weaken; [eapply Hm; exact Hmw | lia | lia].
Qed.

Lemma bounded_try {A} a b c d (m : M A) (h : exn -> M A) :
  bounded a b m -> (forall e, bounded c d (h e)) -> bounded (a + c) (b + d) (try_ m h).
Proof.
  intros Hm Hh w out w' H. unfold try_ in H.
  destruct (m w) as [[x|e] w1] eqn:Hmw.
  - inversion H; subst. eapply advances_weaken; [eapply Hm; exact Hmw | lia | lia].
  - eapply advances_trans; [eapply Hm; exact Hmw | eapply Hh; exact H].
Qed.

Lemma bounded_fetch_github_api E url : bounded 2 0 (fetch_github_api E url).
Proof.
  unfold fetch_github_api.
  apply (bounded_bind 1 0 1 0); [apply bounded_get|]. intros r1.
  apply (bounded_bind 1 0 0 0).
  - destruct (status_code r1 =? 403)%Z; [|apply (bounded_weaken 0 0); [apply bounded_ret|lia|lia]].
    apply (bounded_bind 0 0 1 0); [apply bounded_print|]. intros _.
    apply (bounded_bind 0 0 1 0); [now apply (bounded_emit (ESleep 60000))|]. intros _.
    apply bounded_get.
  - intros r2. apply (bounded_bind 0 0 0 0).
    + unfold raise_for_status. destruct (_ && _)%bool; [apply bounded_raise | apply bounded_ret].
    + intros _. unfold response_json. destruct (json r2); [apply bounded_ret | apply bounded_raise].
Qed.

Lemma bounded_repo_step E owner : bounded 2 0 (repo_step E owner).
Proof.
  unfold repo_step.
  apply (bounded_bind 2 0 0 0); [apply bounded_fetch_github_api|]. intros data.
  repeat (apply (bounded_bind 0 0 0 0); [apply bounded_lift|]; intros ?).
  apply bounded_ret.
Qed.

Lemma bounded_branches_step E owner r : bounded 2 0 (branches_step E owner r).
Proof.
  unfold branches_step. apply (bounded_try 2 0 0 0).
  - apply (bounded_bind 2 0 0 0); [apply bounded_fetch_github_api|]. intros data.
    repeat (apply (bounded_bind 0 0 0 0); [apply bounded_lift|]; intros ?).
    cbv zeta. apply bounded_ret.
  - intros e. apply (bounded_bind 0 0 0 0); [apply bounded_print|]. intros _.
    apply bounded_ret.
Qed.

Lemma bounded_commits_step E owner r : bounded 2 0 (commits_step E owner r).
Proof.
  unfold commits_step. apply (bounded_try 2 0 0 0).
  - apply (bounded_bind 2 0 0 0); [apply bounded_fetch_github_api|]. intros data.
    repeat (apply (bounded_bind 0 0 0 0); [apply bounded_lift|]; intros ?).
    apply bounded_ret.
  - intros e. apply (bounded_bind 0 0 0 0); [apply bounded_print|]. intros _.
    apply bounded_ret.
Qed.

Lemma bounded_compare_step E owner r : bounded 2 0 (compare_step E owner r).
Proof.
  unfold compare_step. apply (bounded_try 2 0 0 0).
  - apply (bounded_bind 2 0 0 0); [apply bounded_fetch_github_api|]. intros data.
    apply (bounded_bind 0 0 0 0); [apply bounded_lift|]. intros ahead. cbv zeta.
    apply (bounded_try 0 0 0 0).
    + apply (bounded_bind 0 0 0 0); [apply bounded_lift|]. intros behind.
      apply bounded_ret.
    + intros e. apply bounded_ret.
  - intros e. apply bounded_ret.
Qed.

Lemma try_returns {A} (m : M A) (h : exn -> M A) w :
  (forall e w1, exists a w2, h e w1 = (Ok a, w2)) ->
  exists a w', try_ m h w = (Ok a, w').
Proof.
  intros Hh. unfold try_. destruct (m w) as [[a|e] w1]; [eauto | apply Hh].
Qed.

Lemma branches_step_returns E owner r w :
  exists r' w', branches_step E owner r w = (Ok r', w').
Proof. apply try_returns. intros e w1. eexists. eexists. reflexivity. Qed.

Lemma commits_step_returns E owner r w :
  exists r' w', commits_step E owner r w = (Ok r', w').
Proof. apply try_returns. intros e w1. eexists. eexists. reflexivity. Qed.

Lemma compare_step_returns E owner r w :
  exists r' w', compare_step E owner r w = (Ok r', w').
Proof. apply try_returns. intros e w1. eexists. eexists. reflexivity. Qed.

Lemma commits_step_frame E owner r w r' w' k :
  commits_step E owner r w = (Ok r', w') ->
  k <> "recent_commits" ->
  Py.dict_get k r' = Py.dict_get k r.
Proof.
  unfold commits_step, try_. intros H Hk.
  match type of H with context [match ?body w with _ => _ end] =>
    destruct (body w) as [[a|e] w1] eqn:Hbody end.
  - inversion H; subst.
    apply bind_ok in Hbody as (data & w2 & _ & Hbody).
    apply bind_ok in Hbody as (cs & w3 & _ & Hbody).
    apply bind_ok in Hbody as (recent & w4 & _ & Hbody).
    inversion Hbody. rewrite dict_get_set_other by congruence. reflexivity.
  - run. inversion H. reflexivity.
Qed.

Lemma finish_step_run r w :
  finish_step r w
  = match interesting_of r with
    | Ok b => (Ok (Py.dict_set "interesting" (PBool b) r),
               emitted w [EPrint (" ✓" ^^ Str.nl); ESleep 500])
    | Raise e => (Raise e, w)
    end.
Proof.
  unfold finish_step, bind, lift, print, sleep, emit, ret, emitted.
  destruct (interesting_of r); [|reflexivity]. simpl.
  rewrite <- app_assoc. reflexivity.
Qed.

Lemma fetch_github_api_counts E url w :
  reqs w < reqs (snd (fetch_github_api E url w)).
Proof.
  run. destruct (requests_get E (reqs w) url) as [r1|m]; simpl; [|lia].
  destruct (status_code r1 =? 403)%Z; simpl.
  - destruct (requests_get E (S (reqs w)) url) as [r2|m2]; simpl; [|lia].
    destruct ((400 <=? status_code r2)%Z && (status_code r2 <? 600)%Z); simpl; [lia|].
    destruct (json r2); simpl; lia.
  - destruct ((400 <=? status_code r1)%Z && (status_code r1 <? 600)%Z); simpl; [lia|].
    destruct (json r1); simpl; lia.
Qed.

Lemma repo_step_world E owner w :
  snd (repo_step E owner w) = snd (fetch_github_api E (repo_url owner) w).
Proof.
  unfold repo_step, bind, lift, ret.
  destruct (fetch_github_api E (repo_url owner) w) as [[data|e] w1]; [|reflexivity].
  repeat match goal with
         | |- context [Py.get_of ?v ?k ?d] => destruct (Py.get_of v k d); try reflexivity
         end.
Qed.

Lemma advances_reqs a b w w' : advances a b w w' -> reqs w <= reqs w'.
Proof. intros (_ & t & _ & Hr & _). lia. Qed.

(** What [analyze_fork] comes to: a stretch of at most eight requests,
    the first of which is always sent, with no 0.5 second sleep in it,
    and then either the success mark, the
    sleep and the record with its verdict, or the failure mark and the
    error record. *)
Lemma analyze_fork_cases E owner w :
  exists w4,
    advances 8 0 w w4
    /\ reqs w < reqs w4
    /\ ((exists r4 b,
           analyze_fork E owner w
           = (Ok (Py.dict_set "interesting" (PBool b) r4),
              emitted w4 [EPrint (" ✓" ^^ Str.nl); ESleep 500])
           /\ interesting_of r4 = Ok b
           /\ Py.dict_get "owner" r4 = Some (PStr owner)
           /\ Py.dict_get "error" r4 = Some PNone)
        \/ (exists e,
              analyze_fork E owner w
              = (Ok (error_record owner (str_exn E e)),
                 emitted w4 [EPrint ((" ✗ (" ^^ str_exn E e ^^ ")") ^^ Str.nl)]))).
Proof.
  set (w0 := emitted w [EPrint ("Analyzing " ^^ owner ^^ "...")]).
  assert (Hp : print_noend ("Analyzing " ^^ owner ^^ "...") w = (Ok tt, w0)) by reflexivity.
  assert (A0 : advances 0 0 w w0)
    by (apply (bounded_emit (EPrint ("Analyzing " ^^ owner ^^ "...")) eq_refl _ _ _ Hp)).
  unfold analyze_fork, try_, bind. rewrite Hp.
  pose proof (fetch_github_api_counts E (repo_url owner) w0) as Hone.
  rewrite <- repo_step_world in Hone. change (reqs w0) with (reqs w) in Hone.
  destruct (repo_step E owner w0) as [[r1|e] w1] eqn:H1;
    pose proof (bounded_repo_step E owner _ _ _ H1) as A1; simpl in Hone.
  2:{ exists w1. split; [|split].
      - eapply advances_weaken; [exact (advances_trans _ _ _ _ _ _ _ A0 A1) | lia | lia].
      - exact Hone.
      - right. exists e. reflexivity. }
  destruct (branches_step_returns E owner r1 w1) as (r2 & w2 & H2).
  pose proof (bounded_branches_step E owner r1 _ _ _ H2) as A2. rewrite H2.
  destruct (commits_step_returns E owner r2 w2) as (r3 & w3 & H3).
  pose proof (bounded_commits_step E owner r2 _ _ _ H3) as A3. rewrite H3.
  destruct (compare_step_returns E owner r3 w3) as (r4 & w4 & H4).
  pose proof (bounded_compare_step E owner r3 _ _ _ H4) as A4. rewrite H4.
  exists w4. split; [|split].
  - eapply advances_weaken;
      [exact (advances_trans _ _ _ _ _ _ _
                (advances_trans _ _ _ _ _ _ _
                   (advances_trans _ _ _ _ _ _ _
                      (advances_trans _ _ _ _ _ _ _ A0 A1) A2) A3) A4) | lia | lia].
  - apply advances_reqs in A2, A3, A4. lia.
  - rewrite finish_step_run. destruct (interesting_of r4) as [b|e] eqn:Hb.
    + left. exists r4, b. split; [reflexivity|]. split; [exact Hb|].
      apply repo_step_ok in H1 as (s & d & c & u & ->).
      split.
      * rewrite (compare_step_frame _ _ _ _ _ _ "owner" H4) by discriminate.
        rewrite (commits_step_frame _ _ _ _ _ _ "owner" H3) by discriminate.
        rewrite (branches_step_frame _ _ _ _ _ _ "owner" H2) by discriminate.
        reflexivity.
      * rewrite (compare_step_frame _ _ _ _ _ _ "error" H4) by discriminate.
        rewrite (commits_step_frame _ _ _ _ _ _ "error" H3) by discriminate.
        rewrite (branches_step_frame _ _ _ _ _ _ "error" H2) by discriminate.
        reflexivity.
    + right. exists e. reflexivity.
Qed.

Lemma gets_marks s ms : gets [EPrint s; ESleep ms] = 0.
Proof. reflexivity. Qed.

Lemma gets_mark s : gets [EPrint s] = 0.
Proof. reflexivity. Qed.

(** ** The verdict *)

Lemma repo_step_object E owner w d w1 :
  fetch_github_api E (repo_url owner) w = (Ok (PDict d), w1) ->
  repo_step E owner w
  = (Ok (new_record owner (Py.get d "stargazers_count" (PInt 0))
           (Py.get d "description" (PStr "")) (Py.get d "created_at" (PStr ""))
           (Py.get d "updated_at" (PStr ""))), w1).
Proof. intros H. unfold repo_step, bind. rewrite H. reflexivity. Qed.

Lemma branches_step_count E owner r w r' w' :
  branches_step E owner r w = (Ok r', w') ->
  (exists n, Py.dict_get "branch_count" r = Some (PInt (Z.of_nat n))) ->
  exists n, Py.dict_get "branch_count" r' = Some (PInt (Z.of_nat n)).
Proof.
  unfold branches_step, try_. intros H Hr.
  match type of H with context [match ?body w with _ => _ end] =>
    destruct (body w) as [[a|e] w1] eqn:Hbody end.
  - inversion H; subst.
    apply bind_ok in Hbody as (data & w2 & _ & Hbody).
    apply bind_ok in Hbody as (bs & w3 & _ & Hbody).
    apply bind_ok in Hbody as (cb & w4 & _ & Hbody).
    inversion Hbody. exists (List.length cb). apply dict_get_set_same.
  - run. inversion H; subst. exact Hr.
Qed.

Lemma compare_step_ahead E owner r w r' w' :
  compare_step E owner r w = (Ok r', w') ->
  Py.dict_get "ahead_by" r' = Py.dict_get "ahead_by" r
  \/ exists c w1,
       fetch_github_api E (compare_url owner) w = (Ok (PDict c), w1)
       /\ Py.dict_get "ahead_by" r' = Some (Py.get c "ahead_by" (PInt 0)).
Proof.
  unfold compare_step, try_, bind, lift, ret.
  destruct (fetch_github_api E (compare_url owner) w) as [[data|e] w1];
    [|intros H; inversion H; auto].
  destruct data; cbn [Py.get_of]; intros H; inversion H; auto.
  right. eexists. eexists. split; [reflexivity|].
  rewrite dict_get_set_other by discriminate. apply dict_get_set_same.
Qed.

Lemma interesting_of_numbers r vb va vs n a s :
  Py.dict_get "branch_count" r = Some vb -> Py.num vb = Some n ->
  Py.dict_get "ahead_by" r = Some va -> Py.num va = Some a ->
  Py.dict_get "stars" r = Some vs -> Py.num vs = Some s ->
  interesting_of r = Ok ((0 <? n) || (0 <? a) || (0 <? s))%Z.
Proof.
  intros Hb Hn Ha Hna Hs Hns. unfold interesting_of, Py.item, Py.gt.
  rewrite Hb, Ha, Hs. cbn [rbind]. rewrite Hn. cbn [rbind].
  destruct (0 <? n)%Z; [reflexivity|].
  rewrite Hna. cbn [rbind]. destruct (0 <? a)%Z; [reflexivity|].
  rewrite Hns. reflexivity.
Qed.

Lemma positive_iff r k v n :
  Py.dict_get k r = Some v -> Py.num v = Some n -> (positive r k <-> (0 < n)%Z).
Proof.
  intros Hv Hn. unfold positive. split.
  - intros (v' & n' & Hv' & Hn' & Hpos). congruence.
  - intros Hpos. eauto.
Qed.

(** C4.  When the repo-detail fetch has returned the JSON object of the
    repository and the counts that the API reports are numbers (the stars
    of the repository, and [ahead_by] in every comparison it answers),
    [analyze_fork] returns a record without error that carries
    [branch_count], [ahead_by] and [stars] as numbers, the stars being
    those of the repository, and whose [interesting] is the boolean
    [branch_count > 0 or ahead_by > 0 or stars > 0] of these final
    values, whatever the branch, commit and comparison fetches did. *)
Theorem analyze_fork_interesting_iff
  (E : env) (owner : string) (w : world) (d : pydict) (w1 : world) :
  fetch_github_api E (repo_url owner)
    (snd (print_noend ("Analyzing " ^^ owner ^^ "...") w)) = (Ok (PDict d), w1) ->
  Py.num (Py.get d "stargazers_count" (PInt 0)) <> None ->
  (forall w' c w'',
     fetch_github_api E (compare_url owner) w' = (Ok (PDict c), w'') ->
     Py.num (Py.get c "ahead_by" (PInt 0)) <> None) ->
  exists r bc ab st,
    fst (analyze_fork E owner w) = Ok r
    /\ Py.dict_get "error" r = Some PNone
    /\ (exists v, Py.dict_get "branch_count" r = Some v /\ Py.num v = Some bc)
    /\ (exists v, Py.dict_get "ahead_by" r = Some v /\ Py.num v = Some ab)
    /\ (exists v, Py.dict_get "stars" r = Some v /\ Py.num v = Some st)
    /\ Py.dict_get "stars" r = Some (Py.get d "stargazers_count" (PInt 0))
    /\ Py.dict_get "interesting" r = Some (PBool ((0 <? bc) || (0 <? ab) || (0 <? st))%Z)
    /\ (Py.dict_get "interesting" r = Some (PBool true)
        <-> positive r "branch_count" \/ positive r "ahead_by" \/ positive r "stars").
Proof.
  intros Hfetch Hstars Hahead.
  unfold analyze_fork, try_, bind.
  destruct (print_noend ("Analyzing " ^^ owner ^^ "...") w) as [[[]|e0] w0] eqn:Hp;
    [|discriminate Hp].
  cbn [snd] in Hfetch. rewrite (repo_step_object _ _ _ _ _ Hfetch).
  set (r1 := new_record owner (Py.get d "stargazers_count" (PInt 0))
               (Py.get d "description" (PStr "")) (Py.get d "created_at" (PStr ""))
               (Py.get d "updated_at" (PStr ""))).
  destruct (branches_step_returns E owner r1 w1) as (r2 & w2 & H2). rewrite H2.
  destruct (commits_step_returns E owner r2 w2) as (r3 & w3 & H3). rewrite H3.
  destruct (compare_step_returns E owner r3 w3) as (r4 & w4 & H4). rewrite H4.
  assert (Hbc : exists n, Py.dict_get "branch_count" r4 = Some (PInt (Z.of_nat n))).
  { rewrite (compare_step_frame _ _ _ _ _ _ "branch_count" H4) by discriminate.
    rewrite (commits_step_frame _ _ _ _ _ _ "branch_count" H3) by discriminate.
    apply (branches_step_count _ _ _ _ _ _ H2). now exists 0. }
  destruct Hbc as (n & Hbc).
  assert (Hst : Py.dict_get "stars" r4 = Some (Py.get d "stargazers_count" (PInt 0))).
  { rewrite (compare_step_frame _ _ _ _ _ _ "stars" H4) by discriminate.
    rewrite (commits_step_frame _ _ _ _ _ _ "stars" H3) by discriminate.
    rewrite (branches_step_frame _ _ _ _ _ _ "stars" H2) by discriminate.
    reflexivity. }
  assert (Herr : Py.dict_get "error" r4 = Some PNone).
  { rewrite (compare_step_frame _ _ _ _ _ _ "error" H4) by discriminate.
    rewrite (commits_step_frame _ _ _ _ _ _ "error" H3) by discriminate.
    rewrite (branches_step_frame _ _ _ _ _ _ "error" H2) by discriminate.
    reflexivity. }
  assert (Hab : exists va a, Py.dict_get "ahead_by" r4 = Some va /\ Py.num va = Some a).
  { destruct (compare_step_ahead _ _ _ _ _ _ H4) as [Hsame | (c & w5 & Hc & Hset)].
    - exists (PInt 0), 0%Z. split; [|reflexivity]. rewrite Hsame.
      rewrite (commits_step_frame _ _ _ _ _ _ "ahead_by" H3) by discriminate.
      rewrite (branches_step_frame _ _ _ _ _ _ "ahead_by" H2) by discriminate.
      reflexivity.
    - specialize (Hahead _ _ _ Hc).
      destruct (Py.num (Py.get c "ahead_by" (PInt 0))) as [a|] eqn:Ha; [|contradiction].
      eauto. }
  destruct Hab as (va & a & Hva & Ha).
  destruct (Py.num (Py.get d "stargazers_count" (PInt 0))) as [s|] eqn:Hs; [|contradiction].
  rewrite finish_step_run.
  rewrite (interesting_of_numbers r4 _ _ _ _ _ _ Hbc eq_refl Hva Ha Hst Hs).
  cbn [fst].
  exists (Py.dict_set "interesting" (PBool ((0 <? Z.of_nat n) || (0 <? a) || (0 <? s))%Z) r4),
    (Z.of_nat n), a, s.
  assert (Hbc' := Hbc). assert (Hva' := Hva). assert (Hst' := Hst).
  rewrite <- (dict_get_set_other "interesting" "branch_count"
                (PBool ((0 <? Z.of_nat n) || (0 <? a) || (0 <? s))%Z) r4) in Hbc'
    by discriminate.
  rewrite <- (dict_get_set_other "interesting" "ahead_by"
                (PBool ((0 <? Z.of_nat n) || (0 <? a) || (0 <? s))%Z) r4) in Hva'
    by discriminate.
  rewrite <- (dict_get_set_other "interesting" "stars"
                (PBool ((0 <? Z.of_nat n) || (0 <? a) || (0 <? s))%Z) r4) in Hst'
    by discriminate.
  split; [reflexivity|].
  split; [rewrite dict_get_set_other by discriminate; exact Herr|].
  split; [exists (PInt (Z.of_nat n)); split; [exact Hbc' | reflexivity]|].
  split; [exists va; split; assumption|].
  split; [eexists; split; [exact Hst' | exact Hs]|].
  split; [exact Hst'|].
  split; [apply dict_get_set_same|].
  rewrite dict_get_set_same.
  rewrite (positive_iff _ _ _ _ Hbc' eq_refl), (positive_iff _ _ _ _ Hva' Ha),
    (positive_iff _ _ _ _ Hst' Hs).
  rewrite <- !Z.ltb_lt.
  destruct (0 <? Z.of_nat n)%Z, (0 <? a)%Z, (0 <? s)%Z; simpl;
    split; intros H; try tauto; try discriminate H;
    try (destruct H as [H|[H|H]]; discriminate H).
Qed.

Lemma analyze_fork_interesting_iff_witness :
  exists r,
    fst (analyze_fork with_branches "a" initial) = Ok r
    /\ Py.dict_get "branch_count" r = Some (PInt 2)
    /\ Py.dict_get "ahead_by" r = Some (PInt 3)
    /\ Py.dict_get "stars" r = Some (PInt 0)
    /\ Py.dict_get "interesting" r = Some (PBool true).
Proof.
  assert (Hf : fetch_github_api with_branches (repo_url "a")
                 (snd (print_noend ("Analyzing " ^^ "a" ^^ "...") initial))
               = (Ok (PDict [("stargazers_count", PInt 0)]),
                  snd (fetch_github_api with_branches (repo_url "a")
                         (snd (print_noend ("Analyzing " ^^ "a" ^^ "...") initial)))))
    by (vm_compute; reflexivity).
  assert (Hs : Py.num (Py.get [("stargazers_count", PInt 0)] "stargazers_count" (PInt 0))
               <> None) by discriminate.
  assert (Ha : forall w' c w'',
             fetch_github_api with_branches (compare_url "a") w' = (Ok (PDict c), w'') ->
             Py.num (Py.get c "ahead_by" (PInt 0)) <> None).
  { intros w' c w'' H. vm_compute in H. inversion H. discriminate. }
  destruct (analyze_fork_interesting_iff with_branches "a" initial _ _ Hf Hs Ha)
    as (r & bc & ab & st & Hr & _ & _ & _ & _ & _ & _ & _).
  exists r. split; [exact Hr|].
  assert (Hv : fst (analyze_fork with_branches "a" initial) = Ok r) by exact Hr.
  vm_compute in Hv. inversion Hv. repeat split; reflexivity.
Defined.

(** X1.  Whatever the API answers, [analyze_fork] returns a record of the
    owner and raises nothing; it leaves the store alone and sends at least
    one request and at most eight. *)
Theorem analyze_fork_always_returns (E : env) (owner : string) (w : world) :
  exists r w',
    analyze_fork E owner w = (Ok r, w')
    /\ Py.dict_get "owner" r = Some (PStr owner)
    /\ heap w' = heap w
    /\ exists done,
         trace w' = trace w ++ done
         /\ reqs w' = reqs w + gets done
         /\ 1 <= gets done <= 8.
Proof.
  destruct (analyze_fork_cases E owner w) as (w4 & A & Hone & Hcases).
  destruct A as (Hh & t & Ht & Hr & Hg & _).
  destruct Hcases as [(r4 & b & Hrun & _ & Ho & _) | (e & Hrun)]; rewrite Hrun.
  - eexists. eexists. split; [reflexivity|].
    split; [rewrite dict_get_set_other by discriminate; exact Ho|].
    split; [exact Hh|].
    exists (t ++ [EPrint (" ✓" ^^ Str.nl); ESleep 500]).
    simpl. rewrite Ht, <- app_assoc, gets_app.
    rewrite gets_marks.
    split; [reflexivity|]. lia.
  - eexists. eexists. split; [reflexivity|]. split; [reflexivity|].
    split; [exact Hh|].
    exists (t ++ [EPrint ((" ✗ (" ^^ str_exn E e ^^ ")") ^^ Str.nl)]).
    simpl. rewrite Ht, <- app_assoc, gets_app.
    rewrite gets_mark.
    split; [reflexivity|]. lia.
Qed.

(** X2.  The 0.5 second sleep of line 118 belongs to the success path
    alone.  A run of [analyze_fork] ends either with the mark of success
    followed by that sleep, and then the record has no error, or with the
    mark of failure and the message, and then the record is the error
    record and the run has not slept 0.5 seconds at all. *)
Theorem analyze_fork_sleeps_on_success_only (E : env) (owner : string) (w : world) :
  exists r w' before,
    analyze_fork E owner w = (Ok r, w')
    /\ throttles before = 0
    /\ ((Py.dict_get "error" r = Some PNone
         /\ trace w' = trace w ++ before ++ [EPrint (" ✓" ^^ Str.nl); ESleep 500])
        \/ (exists e,
              r = error_record owner (str_exn E e)
              /\ trace w' = trace w ++ before
                            ++ [EPrint ((" ✗ (" ^^ str_exn E e ^^ ")") ^^ Str.nl)])).
Proof.
  destruct (analyze_fork_cases E owner w) as (w4 & A & _ & Hcases).
  destruct A as (Hh & t & Ht & Hr & Hg & Hs).
  destruct Hcases as [(r4 & b & Hrun & _ & _ & He) | (e & Hrun)]; rewrite Hrun.
  - eexists. eexists. exists t. split; [reflexivity|]. split; [lia|].
    left. split; [rewrite dict_get_set_other by discriminate; exact He|].
    simpl. rewrite Ht, <- app_assoc. reflexivity.
  - eexists. eexists. exists t. split; [reflexivity|]. split; [lia|].
    right. exists e. split; [reflexivity|].
    simpl. rewrite Ht, <- app_assoc. reflexivity.
Qed.

(** ** The branches *)

Lemma custom_branches_of_names bs names :
  Forall2 branch_object bs names ->
  custom_branches_of bs = Ok (map PStr (filter custom names)).
Proof.
  induction 1 as [|b name bs names (fields & -> & Hname) _ IH]; [reflexivity|].
  cbn [custom_branches_of Py.item_of]. unfold Py.item. rewrite Hname.
  cbn [rbind not_default_branch filter]. fold (custom name).
  destruct (custom name); cbn [rbind]; rewrite IH; reflexivity.
Qed.

Lemma custom_spec name : custom name = true <-> name <> "main" /\ name <> "master".
Proof.
  unfold custom. rewrite negb_true_iff, orb_false_iff.
  split; intros [H1 H2].
  - split; intros ->; discriminate.
  - split; apply String.eqb_neq; assumption.
Qed.

(** X3.  When the branches fetch returns the API's list of branches,
    [custom_branches] becomes the names on it other than main and master,
    in the API's order, and [branch_count] their number; nothing else of
    the record changes.  When the fetch raises, the record stays as it
    was and one line, "Error fetching branches: ...", is printed. *)
Theorem branches_step_custom_branches (E : env) (owner : string) (r : record) (w : world) :
  match fetch_github_api E (branches_url owner) w with
  | (Ok data, w1) =>
      forall bs names,
        data = PList bs -> Forall2 branch_object bs names ->
        exists r',
          branches_step E owner r w = (Ok r', w1)
          /\ Py.dict_get "custom_branches" r' = Some (PList (map PStr (filter custom names)))
          /\ Py.dict_get "branch_count" r'
             = Some (PInt (Z.of_nat (List.length (filter custom names))))
          /\ (forall n, In n (filter custom names)
                        <-> In n names /\ n <> "main" /\ n <> "master")
          /\ (forall k, k <> "custom_branches" -> k <> "branch_count" ->
                        Py.dict_get k r' = Py.dict_get k r)
  | (Raise e, w1) =>
      branches_step E owner r w
      = (Ok r, emitted w1 [EPrint (("Error fetching branches: " ^^ str_exn E e) ^^ Str.nl)])
  end.
Proof.
  unfold branches_step, try_, bind.
  destruct (fetch_github_api E (branches_url owner) w) as [[data|e] w1]; [|reflexivity].
  intros bs names -> Hnames. unfold lift. cbn [Py.iter].
  rewrite (custom_branches_of_names _ _ Hnames). cbv zeta.
  eexists. split; [reflexivity|].
  split; [rewrite dict_get_set_other by discriminate; apply dict_get_set_same|].
  split; [rewrite dict_get_set_same, length_map; reflexivity|].
  split.
  - intros n. rewrite filter_In, custom_spec. reflexivity.
  - intros k Hk1 Hk2. rewrite !dict_get_set_other by congruence. reflexivity.
Qed.

Lemma branches_step_custom_branches_witness :
  exists r' w1,
    branches_step with_branches "a" (starred "a" 0) initial = (Ok r', w1)
    /\ Py.dict_get "custom_branches" r' = Some (PList [PStr "feature-x"; PStr "dev"])
    /\ Py.dict_get "branch_count" r' = Some (PInt 2).
Proof.
  pose proof (branches_step_custom_branches with_branches "a" (starred "a" 0) initial) as H.
  assert (Hf : fetch_github_api with_branches (branches_url "a") initial
               = (Ok (PList (map branch_of four_branches)),
                  snd (fetch_github_api with_branches (branches_url "a") initial)))
    by (vm_compute; reflexivity).
  rewrite Hf in H.
  destruct (H (map branch_of four_branches) four_branches eq_refl) as (r' & Hr & Hc & Hn & _).
  { repeat constructor; eexists; split; reflexivity. }
  exists r'. eexists. split; [exact Hr|]. split; [exact Hc | exact Hn].
Defined.

(** ** The comparison *)

(** X4.  The comparison is best effort and silent.  When its fetch
    returns a JSON object, [ahead_by] and [behind_by] are set from it,
    with 0 for a field that the object lacks; when the fetch raises, or
    returns something that is no object, the record stays as it was; and
    in no case is anything printed: the world after the step is the world
    after the fetch. *)
Theorem compare_step_is_silent (E : env) (owner : string) (r : record) (w : world) :
  snd (compare_step E owner r w) = snd (fetch_github_api E (compare_url owner) w)
  /\ match fetch_github_api E (compare_url owner) w with
     | (Ok (PDict d), _) =>
         fst (compare_step E owner r w)
         = Ok (Py.dict_set "behind_by" (Py.get d "behind_by" (PInt 0))
                 (Py.dict_set "ahead_by" (Py.get d "ahead_by" (PInt 0)) r))
     | _ => fst (compare_step E owner r w) = Ok r
     end.
Proof.
  unfold compare_step, try_, bind, lift, ret.
  destruct (fetch_github_api E (compare_url owner) w) as [[data|e] w1];
    [|split; reflexivity].
  destruct data; split; reflexivity.
Qed.

(** ** The entries of the report *)

Lemma ge_field fork field n b :
  Py.ge (Py.get fork field (PInt 0)) n = Ok b -> b = (n <=? field_num fork field)%Z.
Proof.
  unfold Py.ge, field_num. destruct (Py.num _); intros H; inversion H; reflexivity.
Qed.

Lemma gt_field fork field b :
  Py.gt (Py.get fork field (PInt 0)) 0 = Ok b -> b = (0 <? field_num fork field)%Z.
Proof.
  unfold Py.gt, field_num. destruct (Py.num _); intros H; inversion H; reflexivity.
Qed.

Lemma worth_investigating_spec fork b :
  worth_investigating fork = Ok b ->
  (b = true <-> (5 <= field_num fork "stars" \/ 5 <= field_num fork "ahead_by"
                 \/ 2 <= field_num fork "branch_count")%Z).
Proof.
  unfold worth_investigating. intros H.
  apply rbind_ok in H as (s & Hs & H). apply ge_field in Hs. subst s.
  destruct (Z.leb_spec 5 (field_num fork "stars")).
  { inversion H. split; auto. }
  apply rbind_ok in H as (a & Ha & H). apply ge_field in Ha. subst a.
  destruct (Z.leb_spec 5 (field_num fork "ahead_by")).
  { inversion H. split; auto. }
  apply ge_field in H. subst b. rewrite Z.leb_le. split; [auto | lia].
Qed.

Lemma when_positive_not_flag fork field line ls :
  when_positive fork field line = Ok ls ->
  (forall l, line = Ok l -> l <> flag_line) ->
  ~ In flag_line ls.
Proof.
  unfold when_positive. intros H Hl.
  apply rbind_ok in H as (b & _ & H). destruct b.
  - apply rbind_ok in H as (l & Hline & H). inversion H; subst.
    intros [Hin|[]]. now apply (Hl l).
  - inversion H. auto.
Qed.

Lemma shown_not_flag l :
  ~ In flag_line ("**Recent Unique Commits:**"
                    :: map (fun commit => "  - " ^^ Str.take 80 commit) l).
Proof.
  intros [H|H]; [discriminate H|].
  apply in_map_iff in H as (x & Hx & _). discriminate Hx.
Qed.

Lemma commit_lines_not_flag fork ls : commit_lines fork = Ok ls -> ~ In flag_line ls.
Proof.
  unfold commit_lines. destruct (Py.truthy _); [|intros H; inversion H; auto].
  intros H. apply rbind_ok in H as (recent & _ & H).
  apply rbind_ok in H as (cs & _ & H). apply rbind_ok in H as (unique & _ & H).
  destruct unique as [|c unique]; [inversion H; auto|].
  replace ls with ("**Recent Unique Commits:**"
                     :: map (fun commit => "  - " ^^ Str.take 80 commit)
                          (firstn 3 (c :: unique))) by congruence.
  apply shown_not_flag.
Qed.

(** X5.  The line "WORTH INVESTIGATING" stands in the entry of a fork in
    the detail block exactly when the fork has at least 5 stars, or is at
    least 5 commits ahead, or has at least 2 custom branches. *)
Theorem detail_entry_flag (i : nat) (fork : record) (lines : list string) :
  detail_entry i fork = Ok lines ->
  (In flag_line lines
   <-> (5 <= field_num fork "stars" \/ 5 <= field_num fork "ahead_by"
        \/ 2 <= field_num fork "branch_count")%Z).
Proof.
  unfold detail_entry. intros H.
  apply rbind_ok in H as (owner & _ & H). apply rbind_ok in H as (url & _ & H).
  apply rbind_ok in H as (d & Hd & H). apply rbind_ok in H as (br & Hbr & H).
  apply rbind_ok in H as (ah & Hah & H). apply rbind_ok in H as (be & Hbe & H).
  apply rbind_ok in H as (commits & Hc & H). apply rbind_ok in H as (worth & Hw & H).
  apply worth_investigating_spec in Hw. rewrite <- Hw.
  assert (Nd : ~ In flag_line d).
  { destruct (Py.truthy _); [|inversion Hd; auto].
    apply rbind_ok in Hd as (x & _ & Hd). inversion Hd. intros [Hin|[]]. discriminate Hin. }
  assert (Nbr : ~ In flag_line br).
  { apply (when_positive_not_flag _ _ _ _ Hbr). intros l Hl.
    apply rbind_ok in Hl as (cb & _ & Hl). apply rbind_ok in Hl as (j & _ & Hl).
    inversion Hl. discriminate. }
  assert (Nah : ~ In flag_line ah).
  { apply (when_positive_not_flag _ _ _ _ Hah). intros l Hl.
    apply rbind_ok in Hl as (a & _ & Hl). inversion Hl. discriminate. }
  assert (Nbe : ~ In flag_line be).
  { apply (when_positive_not_flag _ _ _ _ Hbe). intros l Hl.
    apply rbind_ok in Hl as (a & _ & Hl). inversion Hl. discriminate. }
  pose proof (commit_lines_not_flag _ _ Hc) as Nc.
  injection H as <-. cbn [In]. rewrite !in_app_iff. cbn [In].
  split.
  - intros Hin. destruct worth; [reflexivity|]. exfalso.
    repeat (destruct Hin as [Hin|Hin]; [first [discriminate Hin | contradiction] |]).
    first [discriminate Hin | contradiction].
  - intros ->. do 8 right. left. left. reflexivity.
Qed.

Lemma detail_entry_flag_witness :
  (exists lines, detail_entry 1 (starred "a" 6) = Ok lines /\ In flag_line lines)
  /\ (exists lines, detail_entry 2 quiet_fork = Ok lines /\ ~ In flag_line lines).
Proof.
  split.
  - eexists. split; [vm_compute; reflexivity|].
    apply (detail_entry_flag 1 (starred "a" 6)); [vm_compute; reflexivity|].
    left. vm_compute. discriminate.
  - eexists. split; [vm_compute; reflexivity|].
    intros Hin. apply (detail_entry_flag 2 quiet_fork) in Hin; [|vm_compute; reflexivity].
    vm_compute in Hin. destruct Hin as [H|[H|H]]; apply H; reflexivity.
Defined.

Lemma when_positive_reason fork field suffix ls :
  when_positive fork field (x <- Py.item fork field ;; Ok (Py.str x ^^ suffix))%res = Ok ls ->
  ls = reason_of fork field suffix.
Proof.
  unfold when_positive, reason_of. intros H.
  apply rbind_ok in H as (b & Hb & H). apply gt_field in Hb. subst b.
  destruct (0 <? field_num fork field)%Z; [|now inversion H].
  apply rbind_ok in H as (l & Hl & H). apply rbind_ok in Hl as (x & Hx & Hl).
  apply item_ok in Hx. unfold Py.get. rewrite Hx. congruence.
Qed.

Lemma reason_of_nil fork field suffix :
  reason_of fork field suffix = [] <-> (field_num fork field <= 0)%Z.
Proof.
  unfold reason_of. destruct (Z.ltb_spec 0 (field_num fork field)); split;
    intros H'; try reflexivity; try discriminate; lia.
Qed.

(** X6.  A recommendation is two lines, the numbered owner with the
    reasons and the url.  The reasons are those of the counts that are
    above zero, in the order stars, commits ahead, custom branches, joined
    with commas; when no count is above zero, and only then, the reason
    is "Active fork". *)
Theorem recommendation_entry_reasons (i : nat) (fork : record) (lines : list string) :
  recommendation_entry i fork = Ok lines ->
  exists owner url,
    Py.dict_get "owner" fork = Some owner
    /\ Py.dict_get "url" fork = Some url
    /\ lines = [Str.of_nat i ^^ ". **" ^^ Py.str owner ^^ "** - "
                  ^^ match reasons_of fork with
                     | [] => "Active fork"
                     | _ => Str.join ", " (reasons_of fork)
                     end;
                "   " ^^ Py.str url]
    /\ (reasons_of fork = []
        <-> (field_num fork "stars" <= 0 /\ field_num fork "ahead_by" <= 0
             /\ field_num fork "branch_count" <= 0)%Z).
Proof.
  unfold recommendation_entry. intros H.
  apply rbind_ok in H as (st & Hst & H). apply when_positive_reason in Hst.
  apply rbind_ok in H as (ah & Hah & H). apply when_positive_reason in Hah.
  apply rbind_ok in H as (br & Hbr & H). apply when_positive_reason in Hbr.
  cbv zeta in H.
  apply rbind_ok in H as (owner & Ho & H). apply rbind_ok in H as (url & Hu & H).
  apply item_ok in Ho, Hu. exists owner, url. subst st ah br.
  split; [exact Ho|]. split; [exact Hu|]. split; [unfold reasons_of; congruence|].
  split.
  - intros Hnil. unfold reasons_of in Hnil. apply app_eq_nil in Hnil as [H1 Hnil].
    apply app_eq_nil in Hnil as [H2 H3].
    apply reason_of_nil in H1, H2, H3. auto.
  - intros (H1 & H2 & H3).
    apply (reason_of_nil _ _ " stars") in H1.
    apply (reason_of_nil _ _ " commits ahead") in H2.
    apply (reason_of_nil _ _ " custom branches") in H3.
    unfold reasons_of. rewrite H1, H2, H3. reflexivity.
Qed.

Lemma recommendation_entry_reasons_witness :
  exists owner url,
    Py.dict_get "owner" quiet_fork = Some owner
    /\ Py.dict_get "url" quiet_fork = Some url
    /\ ["1. **q** - Active fork"; "   https://github.com/q/1code"]
       = ["1. **" ^^ Py.str owner ^^ "** - Active fork"; "   " ^^ Py.str url].
Proof.
  destruct (recommendation_entry_reasons 1 quiet_fork
              ["1. **q** - Active fork"; "   https://github.com/q/1code"] eq_refl)
    as (owner & url & Ho & Hu & Hl & _).
  exists owner, url. split; [exact Ho|]. split; [exact Hu|]. exact Hl.
Defined.

(** ** The driver's loop *)

Lemma analyze_fork_record E owner w :
  exists r w',
    analyze_fork E owner w = (Ok r, w')
    /\ Py.dict_get "owner" r = Some (PStr owner)
    /\ heap w' = heap w.
Proof.
  destruct (analyze_fork_cases E owner w) as (w4 & (Hh & _) & _ & Hcases).
  destruct Hcases as [(r4 & b & Hrun & _ & Ho & _) | (e & Hrun)]; rewrite Hrun.
  - eexists. eexists. split; [reflexivity|].
    split; [rewrite dict_get_set_other by discriminate; exact Ho | exact Hh].
  - eexists. eexists. split; [reflexivity|]. split; [reflexivity | exact Hh].
Qed.

Lemma length_set_nth {A} n (x : A) l : List.length (set_nth n x l) = List.length l.
Proof.
  revert n. induction l as [|y l IH]; intros [|n]; simpl; auto.
Qed.

Lemma nth_error_set_nth_same {A} n (x : A) l :
  n < List.length l -> nth_error (set_nth n x l) n = Some x.
Proof.
  revert n. induction l as [|y l IH]; intros [|n] H; simpl in *; try lia; auto.
  apply IH. lia.
Qed.

Lemma nth_error_set_nth_other {A} n m (x : A) l :
  n <> m -> nth_error (set_nth n x l) m = nth_error l m.
Proof.
  revert n m. induction l as [|y l IH]; intros [|n] [|m] H; simpl; auto; try congruence.
Qed.

(** The loop of [main] in the store: the new records are new objects,
    referred to from the end of the list [results], and the objects that
    were there before, the list apart, are as they were. *)
Lemma analyze_all_records
  (E : env) (results : nat) (owners : list string) (w : world) (refs : list nat) :
  nth_error (heap w) results = Some (OList refs) ->
  exists w' rs,
    analyze_all E results owners w = (Ok tt, w')
    /\ nth_error (heap w') results
       = Some (OList (refs ++ seq (List.length (heap w)) (List.length owners)))
    /\ Forall2 (refers (heap w')) (seq (List.length (heap w)) (List.length owners)) rs
    /\ Forall2 (fun r owner => Py.dict_get "owner" r = Some (PStr owner)) rs owners
    /\ List.length (heap w') = List.length (heap w) + List.length owners
    /\ (forall l, l <> results -> l < List.length (heap w) ->
                  nth_error (heap w') l = nth_error (heap w) l).
Proof.
  revert w refs. induction owners as [|owner owners IH]; intros w refs Hres.
  - exists w, []. simpl. rewrite app_nil_r, Nat.add_0_r.
    repeat split; auto; constructor.
  - destruct (analyze_fork_record E owner w) as (r & w1 & Hrun & Ho & Hh).
    assert (Hlt : results < List.length (heap w)) by (apply nth_error_Some; congruence).
    set (w3 := {| heap := set_nth results (OList (refs ++ [List.length (heap w)]))
                            (heap w ++ [ODict r]);
                  reqs := reqs w1; trace := trace w1 |}).
    assert (Hstep : analyze_all E results (owner :: owners) w
                    = analyze_all E results owners w3).
    { cbn [analyze_all]. rewrite bind_run, Hrun, bind_run. unfold alloc at 1.
      rewrite bind_run. unfold append. rewrite bind_run. unfold load_list at 1.
      cbn [heap]. rewrite Hh, nth_error_app1, Hres by exact Hlt.
      unfold store. cbn [heap reqs trace]. reflexivity. }
    assert (Hres3 : nth_error (heap w3) results
                    = Some (OList (refs ++ [List.length (heap w)]))).
    { apply nth_error_set_nth_same. rewrite length_app. simpl. lia. }
    assert (Hlen3 : List.length (heap w3) = S (List.length (heap w))).
    { unfold w3. cbn [heap]. rewrite length_set_nth, length_app. simpl. lia. }
    destruct (IH w3 _ Hres3) as (w' & rs & Hall & Hlist & Hrefs & Howners & Hlen & Hframe).
    rewrite Hlen3 in *.
    exists w', (r :: rs). rewrite Hstep. split; [exact Hall|].
    split; [rewrite Hlist, <- app_assoc; reflexivity|].
    split.
    { cbn [List.length seq]. constructor; [|exact Hrefs].
      unfold refers. rewrite Hframe by lia.
      unfold w3. cbn [heap]. rewrite nth_error_set_nth_other by lia.
      apply nth_error_last. }
    split; [constructor; assumption|].
    split; [cbn [List.length]; lia|].
    intros l Hl Hll. rewrite Hframe by lia.
    unfold w3. cbn [heap]. rewrite nth_error_set_nth_other by congruence.
    apply nth_error_app1. exact Hll.
Qed.

(** X7.  The loop of [main] never raises, and it leaves in the list
    [results] the records that were there, as they were, followed by one
    record per owner, in the order of the owners, each the record of its
    owner. *)
Theorem analyze_all_one_record_per_owner
  (E : env) (results : nat) (owners : list string) (w : world) (old : list record) :
  records_at (heap w) results old ->
  exists w' rs,
    analyze_all E results owners w = (Ok tt, w')
    /\ records_at (heap w') results (old ++ rs)
    /\ Forall2 (fun r owner => Py.dict_get "owner" r = Some (PStr owner)) rs owners.
Proof.
  intros (refs & Hres & Hrefs).
  destruct (analyze_all_records E results owners w refs Hres)
    as (w' & rs & Hrun & Hlist & Hnew & Howners & _ & Hframe).
  exists w', rs. split; [exact Hrun|]. split; [|exact Howners].
  eexists. split; [exact Hlist|].
  apply Forall2_app; [|exact Hnew].
  eapply Forall2_impl; [|exact Hrefs].
  intros l r Hl. unfold refers in *. rewrite Hframe; [exact Hl | |].
  - intros ->. congruence.
  - apply nth_error_Some. congruence.
Qed.

Lemma analyze_all_one_record_per_owner_witness :
  exists w' rs,
    analyze_all two_forks 0 ["MorpheusEMH"; "nobody"] empty_results = (Ok tt, w')
    /\ records_at (heap w') 0 rs
    /\ Forall2 (fun r owner => Py.dict_get "owner" r = Some (PStr owner))
         rs ["MorpheusEMH"; "nobody"].
Proof.
  assert (H : records_at (heap empty_results) 0 []).
  { exists []. split; [reflexivity | constructor]. }
  destruct (analyze_all_one_record_per_owner two_forks 0 ["MorpheusEMH"; "nobody"]
              empty_results [] H) as (w' & rs & Hrun & Hrec & Howners).
  exists w', rs. split; [exact Hrun|]. split; [exact Hrec | exact Howners].
Defined.

(** ** The first line of a commit message *)

(** X8.  What [analyze_fork] keeps of a commit is a string without a
    newline, and the commit's message begins with it: the message is that
    string, or that string, a newline and the rest. *)
Theorem commit_first_line_is_a_line (commit : pyval) (message : string) (v : pyval) :
  commit_object commit message ->
  commit_first_line commit = Ok v ->
  exists line,
    v = PStr line
    /\ (forall before after, line <> before ^^ Str.nl ^^ after)
    /\ (message = line \/ exists rest, message = line ^^ Str.nl ^^ rest).
Proof.
  intros (fields & inner & -> & Hc & Hm). unfold commit_first_line.
  cbn [Py.item_of]. unfold Py.item. rewrite Hc. cbn [rbind Py.item_of].
  unfold Py.item. rewrite Hm. cbn [rbind Py.first_line_of]. intros H.
  inversion H. exists (Str.first_line message). split; [reflexivity|].
  apply first_line_spec.
Qed.

Lemma commit_first_line_is_a_line_witness :
  exists line,
    PStr "Add login" = PStr line
    /\ (forall before after, line <> before ^^ Str.nl ^^ after)
    /\ ("Add login" ^^ Str.nl ^^ Str.nl ^^ "with a form" = line
        \/ exists rest, "Add login" ^^ Str.nl ^^ Str.nl ^^ "with a form"
                        = line ^^ Str.nl ^^ rest).
Proof.
  apply (commit_first_line_is_a_line
           (commit_of ("Add login" ^^ Str.nl ^^ Str.nl ^^ "with a form"))).
  - eexists. eexists. split; [reflexivity|]. split; reflexivity.
  - reflexivity.
Defined.

(** ** The API client at its edges *)

(** X9.  What [fetch_github_api] does outside the two cases of a success
    and of an error status.  A request that gets no response raises the
    connection error, at the first request as at the retry, and no
    further request follows.  A final status outside 400 to 599 is no
    error, whether or not it is a 2xx: the parsed body is returned, and a
    body that is no JSON raises the decoding error.  A second 403 raises
    the HTTP error after exactly two requests. *)
Theorem fetch_github_api_edges (E : env) (url : string) (w : world) :
  let out := fst (fetch_github_api E url w) in
  let w' := snd (fetch_github_api E url w) in
  (forall msg, requests_get E (reqs w) url = NetFail msg ->
     out = Raise (ConnectionError msg) /\ trace w' = trace w ++ [EGet url headers])
  /\ (forall r1, requests_get E (reqs w) url = Resp r1 ->
        status_code r1 <> 403%Z -> ~ (400 <= status_code r1 < 600)%Z ->
        out = match json r1 with
              | Some body => Ok body
              | None => Raise JSONDecodeError
              end)
  /\ (forall r1, requests_get E (reqs w) url = Resp r1 -> status_code r1 = 403%Z ->
        reqs w' = S (S (reqs w))
        /\ (forall msg, requests_get E (S (reqs w)) url = NetFail msg ->
              out = Raise (ConnectionError msg))
        /\ (forall r2, requests_get E (S (reqs w)) url = Resp r2 ->
              status_code r2 = 403%Z -> out = Raise (HTTPError 403 (text r2)))).
Proof.
  cbv zeta. split; [|split].
  - intros msg H. run. rewrite H. simpl. auto.
  - intros r1 H Hs Hr. run. rewrite H. simpl.
    destruct (Z.eqb_spec (status_code r1) 403); [contradiction|]. simpl.
    assert (((400 <=? status_code r1)%Z && (status_code r1 <? 600)%Z) = false) as ->.
    { apply andb_false_iff. rewrite Z.leb_gt, Z.ltb_ge. lia. }
    simpl. destruct (json r1); reflexivity.
  - intros r1 H Hs. run. rewrite H. simpl. rewrite Hs. simpl. split; [|split].
    + destruct (requests_get E (S (reqs w)) url) as [r2|m2]; simpl; [|reflexivity].
      destruct ((400 <=? status_code r2)%Z && (status_code r2 <? 600)%Z); simpl;
        [reflexivity|].
      destruct (json r2); reflexivity.
    + intros msg H2. rewrite H2. reflexivity.
    + intros r2 H2 Hs2. rewrite H2. simpl. rewrite Hs2. reflexivity.
Qed.

Lemma fetch_github_api_edges_witness :
  fst (fetch_github_api unreachable (repo_url "a") initial)
  = Raise (ConnectionError "Connection refused")
  /\ fst (fetch_github_api not_modified (repo_url "a") initial) = Ok (PList []).
Proof.
  split.
  - apply (proj1 (fetch_github_api_edges unreachable (repo_url "a") initial)
             "Connection refused" eq_refl).
  - apply (proj1 (proj2 (fetch_github_api_edges not_modified (repo_url "a") initial))
             {| status_code := 304; text := ""; json := Some (PList []) |} eq_refl).
    + discriminate.
    + simpl. lia.
Defined.

(** ** The driver and the report file *)

Lemma writes_app t u : writes (t ++ u) = writes t + writes u.
Proof. unfold writes. now rewrite filter_app, length_app. Qed.

Lemma extends_quietly_refl w : extends_quietly w w.
Proof. exists []. rewrite app_nil_r. split; reflexivity. Qed.

Lemma extends_quietly_same w w' : trace w' = trace w -> extends_quietly w w'.
Proof. intros H. exists []. rewrite app_nil_r. split; [exact H | reflexivity]. Qed.

Lemma extends_quietly_trans w w1 w2 :
  extends_quietly w w1 -> extends_quietly w1 w2 -> extends_quietly w w2.
Proof.
  intros (t1 & Ht1 & Hw1) (t2 & Ht2 & Hw2). exists (t1 ++ t2).
  rewrite writes_app, Ht2, Ht1, app_assoc. split; [reflexivity | lia].
Qed.

Lemma quiet_ret {A} (x : A) : writes_nothing (ret x).
Proof. intros w out w' H. inversion H. apply extends_quietly_refl. Qed.

Lemma quiet_raise {A} e : writes_nothing (@raise A e).
Proof. intros w out w' H. inversion H. apply extends_quietly_refl. Qed.

Lemma quiet_lift {A} (r : outcome A) : writes_nothing (lift r).
Proof. intros w out w' H. inversion H. apply extends_quietly_refl. Qed.

Lemma quiet_emit e : is_write e = false -> writes_nothing (emit e).
Proof.
  intros He w out w' H. inversion H. exists [e]. split; [reflexivity|].
  unfold writes. simpl. now rewrite He.
Qed.

Lemma quiet_print s : writes_nothing (print s).
Proof. now apply quiet_emit. Qed.

Lemma quiet_print_noend s : writes_nothing (print_noend s).
Proof. now apply quiet_emit. Qed.

Lemma quiet_sleep ms : writes_nothing (sleep ms).
Proof. now apply quiet_emit. Qed.

Lemma quiet_get E url : writes_nothing (get E url).
Proof.
  intros w out w' H. unfold get in H. exists [EGet url headers].
  split; [|reflexivity].
  destruct (requests_get E (reqs w) url); inversion H; reflexivity.
Qed.

Lemma quiet_alloc o : writes_nothing (alloc o).
Proof. intros w out w' H. inversion H. now apply extends_quietly_same. Qed.

Lemma quiet_store l o : writes_nothing (store l o).
Proof. intros w out w' H. inversion H. now apply extends_quietly_same. Qed.

Lemma quiet_load_list l : writes_nothing (load_list l).
Proof.
  intros w out w' H. unfold load_list in H.
  destruct (nth_error (heap w) l) as [[d|refs]|]; inversion H; apply extends_quietly_refl.
Qed.

Lemma quiet_load_dict l : writes_nothing (load_dict l).
Proof.
  intros w out w' H. unfold load_dict in H.
  destruct (nth_error (heap w) l) as [[d|refs]|]; inversion H; apply extends_quietly_refl.
Qed.

Lemma quiet_bind {A B} (m : M A) (f : A -> M B) :
  writes_nothing m -> (forall x, writes_nothing (f x)) -> writes_nothing (bind m f).
Proof.
  intros Hm Hf w out w' H. unfold bind in H.
  destruct (m w) as [[x|e] w1] eqn:Hmw.
  - eapply extends_quietly_trans; [eapply Hm; exact Hmw | eapply Hf; exact H].
  - inversion H; subst. eapply Hm; exact Hmw.
Qed.

Lemma quiet_try {A} (m : M A) (h : exn -> M A) :
  writes_nothing m -> (forall e, writes_nothing (h e)) -> writes_nothing (try_ m h).
Proof.
  intros Hm Hh w out w' H. unfold try_ in H.
  destruct (m w) as [[x|e] w1] eqn:Hmw.
  - inversion H; subst. eapply Hm; exact Hmw.
  - eapply extends_quietly_trans; [eapply Hm; exact Hmw | eapply Hh; exact H].
Qed.

Lemma quiet_mapM {A B} (f : A -> M B) l :
  (forall x, writes_nothing (f x)) -> writes_nothing (mapM f l).
Proof.
  intros Hf. induction l as [|x l IH]; simpl; [apply quiet_ret|].
  apply quiet_bind; [apply Hf|]. intros y.
  apply quiet_bind; [apply IH|]. intros ys. apply quiet_ret.
Qed.

Create HintDb quiet.
#[local] Hint Resolve quiet_ret quiet_raise quiet_lift quiet_print quiet_print_noend
  quiet_sleep quiet_get quiet_alloc quiet_store quiet_load_list quiet_load_dict
  quiet_bind quiet_try quiet_mapM : quiet.

Lemma quiet_fetch_github_api E url : writes_nothing (fetch_github_api E url).
Proof.
  unfold fetch_github_api. apply quiet_bind; [auto with quiet|]. intros r1.
  apply quiet_bind.
  - destruct (status_code r1 =? 403)%Z; auto 10 with quiet.
  - intros r2. apply quiet_bind.
    + unfold raise_for_status. destruct (_ && _)%bool; auto with quiet.
    + intros _. unfold response_json. destruct (json r2); auto with quiet.
Qed.

#[local] Hint Resolve quiet_fetch_github_api : quiet.

Lemma quiet_analyze_fork E owner : writes_nothing (analyze_fork E owner).
Proof.
  unfold analyze_fork, repo_step, branches_step, commits_step, compare_step, finish_step.
  cbv zeta. auto 30 with quiet.
Qed.

Lemma quiet_analyze_all E results owners : writes_nothing (analyze_all E results owners).
Proof.
  induction owners as [|owner owners IH]; simpl; [apply quiet_ret|].
  apply quiet_bind; [apply quiet_analyze_fork|]. intros r.
  apply quiet_bind; [apply quiet_alloc|]. intros l.
  apply quiet_bind; [unfold append; auto with quiet | intros _; exact IH].
Qed.

Lemma quiet_generate_report_st E results : writes_nothing (generate_report_st E results).
Proof. unfold generate_report_st. auto 30 with quiet. Qed.

Lemma quiet_print_when_positive fork field before after :
  writes_nothing (print_when_positive fork field before after).
Proof.
  unfold print_when_positive. apply quiet_bind; [auto with quiet|].
  intros [|]; auto with quiet.
Qed.

Lemma quiet_console_entries i l : writes_nothing (console_entries i l).
Proof.
  revert i. induction l as [|fork l IH]; intros i; simpl; [apply quiet_ret|].
  apply quiet_bind; [|intros _; apply IH].
  unfold console_entry.
  apply quiet_bind; [auto with quiet|]. intros owner.
  apply quiet_bind; [auto with quiet|]. intros url.
  apply quiet_bind; [auto with quiet|]. intros _.
  apply quiet_bind; [apply quiet_print_when_positive|]. intros _.
  apply quiet_bind; [apply quiet_print_when_positive|]. intros _.
  apply quiet_print_when_positive.
Qed.

Lemma quiet_console_summary results : writes_nothing (console_summary results).
Proof.
  unfold console_summary.
  repeat (apply quiet_bind; [auto with quiet | intros ?]).
  match goal with |- writes_nothing (match ?l with _ => _ end) => destruct l end;
    auto using quiet_console_entries with quiet.
Qed.

Lemma print_run s w : print s w = (Ok tt, emitted w [EPrint (s ^^ Str.nl)]).
Proof. reflexivity. Qed.

Lemma extends_quietly_emitted w es : writes es = 0 -> extends_quietly w (emitted w es).
Proof. intros H. exists es. split; [reflexivity | exact H]. Qed.

Lemma write_file_run E path content w :
  write_file E path content w
  = match save E path content with
    | Saved => (Ok tt, emitted w [EWrite path content])
    | NotOpened e => (Raise e, w)
    | Cut kept e => (Raise e, emitted w [EWrite path kept])
    end.
Proof. unfold write_file. destruct (save E path content); reflexivity. Qed.

(** X10.  [main] makes the report that [generate_report] makes of one
    record per owner, in the order of the owners, and opens one file for
    it, once.  When the file is written, it holds that report, nothing is
    written before it and nothing after it.  When [open] raises, [main]
    raises the same and no file has been written; when the writing
    raises after the file has been opened, [main] raises the same, and
    the file holds what was kept of the report.  When [generate_report]
    raises on these records, [main] raises the same and no file has been
    written. *)
Theorem main_writes_the_report_once (E : env) (owners : list string) (w : world) :
  exists rs,
    Forall2 (fun r owner => Py.dict_get "owner" r = Some (PStr owner)) rs owners
    /\ match generate_report (now E) rs with
       | Ok report =>
           match save E report_file report with
           | Saved =>
               exists before after,
                 trace (snd (main_on E owners w))
                 = trace w ++ before ++ EWrite report_file report :: after
                 /\ writes before = 0
                 /\ writes after = 0
           | NotOpened e =>
               fst (main_on E owners w) = Raise e
               /\ exists done,
                    trace (snd (main_on E owners w)) = trace w ++ done
                    /\ writes done = 0
           | Cut kept e =>
               fst (main_on E owners w) = Raise e
               /\ exists before,
                    trace (snd (main_on E owners w))
                    = trace w ++ before ++ [EWrite report_file kept]
                    /\ writes before = 0
           end
       | Raise e =>
           fst (main_on E owners w) = Raise e
           /\ exists done,
                trace (snd (main_on E owners w)) = trace w ++ done
                /\ writes done = 0
       end.
Proof.
  remember (main_on E owners w) as run eqn:Hm. unfold main_on in Hm.
  do 5 (rewrite bind_run, print_run in Hm; cbv beta iota in Hm).
  match type of Hm with context [bind (alloc _) _ ?w0] => set (w5 := w0) in Hm end.
  assert (Q5 : extends_quietly w w5).
  { unfold w5. repeat (eapply extends_quietly_trans;
                       [|apply extends_quietly_emitted; reflexivity]).
    apply extends_quietly_refl. }
  rewrite bind_run in Hm. unfold alloc at 1 in Hm. cbv beta iota in Hm.
  set (results := List.length (heap w5)) in Hm.
  set (w6 := {| heap := heap w5 ++ [OList []]; reqs := reqs w5; trace := trace w5 |})
    in Hm.
  assert (Hres : nth_error (heap w6) results = Some (OList [])) by apply nth_error_last.
  destruct (analyze_all_records E results owners w6 [] Hres)
    as (w7 & rs & Hrun & Hlist & Hrefs & Howners & _).
  pose proof (quiet_analyze_all E results owners _ _ _ Hrun) as Q7.
  exists rs. split; [exact Howners|].
  rewrite bind_run, Hrun in Hm. cbv beta iota in Hm.
  do 2 (rewrite bind_run, print_run in Hm; cbv beta iota in Hm).
  match type of Hm with context [bind (generate_report_st _ _) _ ?w0] =>
    set (w9 := w0) in Hm end.
  assert (Q9 : extends_quietly w w9).
  { eapply extends_quietly_trans; [exact Q5|].
    eapply extends_quietly_trans; [apply extends_quietly_same; reflexivity|].
    eapply extends_quietly_trans; [exact Q7|].
    unfold w9. repeat (eapply extends_quietly_trans;
                       [|apply extends_quietly_emitted; reflexivity]).
    apply extends_quietly_refl. }
  assert (Hrec : records_at (heap w9) results rs).
  { eexists. split; [exact Hlist | exact Hrefs]. }
  pose proof (generate_report_st_value E results w9 rs Hrec) as Hval.
  rewrite bind_run in Hm.
  destruct (generate_report_st E results w9) as [[report|e] w10] eqn:Hgen;
    pose proof (quiet_generate_report_st E results _ _ _ Hgen) as Q10;
    simpl in Hval; rewrite <- Hval.
  - rewrite bind_run, write_file_run in Hm.
    destruct (extends_quietly_trans _ _ _ Q9 Q10) as (before & Hb & Hwb).
    destruct (save E report_file report) as [|e|kept e].
    + cbv beta iota in Hm.
      match type of Hm with _ = ?m ?w0 => set (rest := m) in Hm; set (w11 := w0) in Hm end.
      assert (Qrest : extends_quietly w11 (snd run)).
      { assert (Hq : writes_nothing rest).
        { unfold rest. apply quiet_bind; [apply quiet_print|]. intros _.
          apply quiet_bind; [apply quiet_print|]. intros _.
          apply quiet_console_summary. }
        destruct run as [out w12]. symmetry in Hm. exact (Hq _ _ _ Hm). }
      destruct Qrest as (after & Ha & Hwa).
      exists before, after. split; [|split; assumption].
      rewrite Ha. unfold w11. cbn [trace emitted]. rewrite Hb, <- !app_assoc.
      reflexivity.
    + subst run. cbn [fst snd]. split; [reflexivity|]. exists before. auto.
    + subst run. cbn [fst snd]. split; [reflexivity|]. exists before.
      split; [|exact Hwb]. cbn [trace emitted]. rewrite Hb, <- app_assoc. reflexivity.
  - subst run. cbn [fst snd]. split; [reflexivity|].
    exact (extends_quietly_trans _ _ _ Q9 Q10).
Qed.

(** X11.  The console summary goes through the interesting records in
    the order in which they stand in [results], not in the order of the
    report: on a store that holds the records [rs], it prints what the
    summary of the values [rs] prints, the count of [filter] and then the
    first five of [filter is_interesting rs], and the one thing it does to
    the store is to add the filtered list. *)
Theorem console_summary_in_input_order (results : nat) (w : world) (rs : list record) :
  records_at (heap w) results rs ->
  exists irefs,
    Forall2 (refers (heap w)) irefs (filter is_interesting rs)
    /\ console_summary results w
       = console_of rs {| heap := heap w ++ [OList irefs];
                          reqs := reqs w; trace := trace w |}.
Proof.
  intros (refs & Hlist & Hrefs).
  exists (interesting_refs refs rs).
  split; [apply interesting_refs_refers; exact Hrefs|].
  unfold console_summary. rewrite bind_run. unfold load_list at 1. rewrite Hlist.
  rewrite bind_run, (mapM_load_dict_refers _ _ _ Hrefs).
  rewrite bind_run. unfold alloc at 1.
  set (w1 := {| heap := heap w ++ [OList (interesting_refs refs rs)];
                reqs := reqs w; trace := trace w |}).
  rewrite bind_run. unfold load_list at 1.
  replace (nth_error (heap w1) (List.length (heap w)))
    with (Some (OList (interesting_refs refs rs))) by (symmetry; apply nth_error_last).
  assert (H1 : Forall2 (refers (heap w1)) (interesting_refs refs rs)
                 (filter is_interesting rs)).
  { eapply Forall2_impl; [|apply interesting_refs_refers; exact Hrefs].
    intros l r. apply refers_app. }
  rewrite bind_run, (mapM_load_dict_refers _ _ _ H1).
  rewrite (Forall2_length H1), (Forall2_length Hrefs).
  reflexivity.
Qed.

Lemma console_summary_in_input_order_witness :
  exists irefs,
    Forall2 (refers (heap store_two)) irefs (filter is_interesting two_tied)
    /\ console_summary 0 store_two
       = console_of two_tied {| heap := heap store_two ++ [OList irefs];
                                reqs := reqs store_two; trace := trace store_two |}.
Proof.
  apply (console_summary_in_input_order 0 store_two two_tied).
  exists [2; 1]. split; [reflexivity|]. repeat constructor.
Defined.

(** ** The summary and the report of a run that found nothing *)

(** X12.  A count of the summary is the number of the interesting
    records whose field is above zero, a missing field counting as 0; it
    is the number of interesting records at most. *)
Theorem count_positive_counts (field : string) (l : list record) (n : nat) :
  count_positive field l = Ok n ->
  n = List.length (filter (fun r => (0 <? field_num r field)%Z) l)
  /\ n <= List.length l.
Proof.
  revert n. induction l as [|r l IH]; intros n H.
  - inversion H. simpl. split; [reflexivity | lia].
  - cbn [count_positive] in H.
    apply rbind_ok in H as (b & Hb & H). apply gt_field in Hb.
    apply rbind_ok in H as (m & Hm & H). destruct (IH m Hm) as [IH1 IH2].
    inversion H. cbn [filter List.length]. rewrite <- Hb.
    destruct b; cbn [List.length]; split; lia.
Qed.

Lemma count_positive_counts_witness :
  2 = List.length (filter (fun r => (0 <? field_num r "stars")%Z) two_tied)
  /\ 2 <= List.length two_tied.
Proof. apply (count_positive_counts "stars" two_tied 2). reflexivity. Defined.

Lemma filter_none {A} (f : A -> bool) l :
  (forall x, In x l -> f x = false) -> filter f l = [].
Proof.
  induction l as [|x l IH]; intros H; [reflexivity|].
  simpl. rewrite (H x) by now left. apply IH. intros y Hy. apply H. now right.
Qed.

(** X13.  When no record is interesting, as when the list is empty or
    every fetch of the run failed, the report is the title, the time, the
    summary with the total and four zeros, and the empty
    recommendations: twelve lines, whatever the records hold. *)
Theorem report_without_interesting (clock : string) (results : list record) :
  (forall r, In r results -> is_interesting r = false) ->
  generate_report clock results
  = Ok (Str.join Str.nl
          ["# 1code Fork Analysis Report";
           "Generated: " ^^ clock;
           "";
           "## Summary";
           "- Total forks analyzed: " ^^ Str.of_nat (List.length results);
           "- Interesting forks: 0";
           "- Forks with custom branches: 0";
           "- Forks ahead of upstream: 0";
           "- Forked repos with stars: 0";
           "";
           "## Recommendations";
           ""]).
Proof.
  intros H. unfold generate_report, report_lines, interesting_forks.
  rewrite (filter_none _ _ H). reflexivity.
Qed.

Lemma report_without_interesting_witness :
  generate_report "2026-01-01 00:00:00"
    [error_record "a" "404 Client Error"; error_record "b" "404 Client Error"]
  = Ok (Str.join Str.nl
          ["# 1code Fork Analysis Report";
           "Generated: 2026-01-01 00:00:00";
           "";
           "## Summary";
           "- Total forks analyzed: 2";
           "- Interesting forks: 0";
           "- Forks with custom branches: 0";
           "- Forks ahead of upstream: 0";
           "- Forked repos with stars: 0";
           "";
           "## Recommendations";
           ""]).
Proof.
  apply (report_without_interesting "2026-01-01 00:00:00"
           [error_record "a" "404 Client Error"; error_record "b" "404 Client Error"]).
  intros r [<-|[<-|[]]]; reflexivity.
Defined.

(** ** A count that is no number *)


